(** * RewardFlow distribution algorithm: the formulas of [formulas.js]

    A shallow embedding of [calculateWeightage], [calculateDistribution] and
    [getDistributionStats], and the properties of the specification that
    concern them.

    Numbers.  A JavaScript Number is modelled by [num]: an exact real number,
    or one of the three IEEE special values [NaN], [+Infinity], [-Infinity].
    Arithmetic on finite values is exact, and [Math.exp], [Math.log10] and
    [Math.log2] are the real functions: rounding, overflow and underflow of
    binary64 are not modelled, and there is one zero, unsigned (the sign of a
    zero could only show in a division by a [minBalance] of [-0]).  The
    special values arise and propagate as in IEEE 754: [x / 0], [log 0], the
    logarithm of a negative number, [Infinity - Infinity], [0 * Infinity], and
    every comparison with [NaN] is false.

    The properties stated on [num] are those that do not depend on rounding:
    orders are weak, sums are the accumulated ones of the code, products are
    associated as the code associates them, and a sum of shares is compared
    with 1 up to [rounding_allowance].  The formulas are embedded a second
    time on binary64 itself ([B64], on primitive floats, with the three
    [Math] functions as a parameter constrained by what ECMAScript fixes);
    that reading evaluates the code at concrete inputs and shows where a
    statement over the reals and the Numbers of the code part.

    Control.  A call completes normally with a value or abruptly with a thrown
    error ([completion]); [try ... catch] is [try_catch].  Nothing in the
    three functions throws on numbers, so every call completes normally; the
    properties say so where the specification speaks of failures.

    The demo.  The interactive session of [demo.js] that calls the three
    functions is embedded as well, as functions of the answers typed and of
    its two globals; what it prints is left out.  Its properties come after
    those of the formulas. *)

From Stdlib Require Import Reals Lra Lia Psatz List String Bool ZArith.
From Stdlib Require Import Permutation.
From Stdlib Require Floats.
Import ListNotations.

(** ** Numbers *)

Inductive num : Type :=
| NaN
| PInf
| NInf
| Fin (r : R).

Declare Scope js_scope.
Delimit Scope js_scope with js.
Bind Scope js_scope with num.

Module Num.

Local Open Scope R_scope.

Definition Rltb (a b : R) : bool := if Rlt_dec a b then true else false.
Definition Rleb (a b : R) : bool := if Rle_dec a b then true else false.

(** [Infinity * a] for a finite [a]: the sign of [a] decides, and
    [Infinity * 0] is [NaN]. *)
Definition signed_inf (a : R) : num :=
  if Rltb 0 a then PInf else if Rltb a 0 then NInf else NaN.

Definition neg (x : num) : num :=
  match x with
  | NaN => NaN
  | PInf => NInf
  | NInf => PInf
  | Fin a => Fin (- a)
  end.

Definition add (x y : num) : num :=
  match x, y with
  | NaN, _ | _, NaN => NaN
  | PInf, NInf | NInf, PInf => NaN
  | PInf, _ | _, PInf => PInf
  | NInf, _ | _, NInf => NInf
  | Fin a, Fin b => Fin (a + b)
  end.

Definition sub (x y : num) : num := add x (neg y).

Definition mul (x y : num) : num :=
  match x, y with
  | NaN, _ | _, NaN => NaN
  | PInf, PInf | NInf, NInf => PInf
  | PInf, NInf | NInf, PInf => NInf
  | PInf, Fin a | Fin a, PInf => signed_inf a
  | NInf, Fin a | Fin a, NInf => signed_inf (- a)
  | Fin a, Fin b => Fin (a * b)
  end.

Definition div (x y : num) : num :=
  match x, y with
  | NaN, _ | _, NaN => NaN
  | (PInf | NInf), (PInf | NInf) => NaN
  | Fin _, (PInf | NInf) => Fin 0
  | PInf, Fin b => if Rltb b 0 then NInf else PInf
  | NInf, Fin b => if Rltb b 0 then PInf else NInf
  | Fin a, Fin b => if Rltb b 0 || Rltb 0 b then Fin (a / b) else signed_inf a
  end.

(** [x < y], [x <= y], [x >= y]: false as soon as an operand is [NaN]. *)
Definition ltb (x y : num) : bool :=
  match x, y with
  | NaN, _ | _, NaN => false
  | _, NInf | PInf, _ => false
  | NInf, _ | _, PInf => true
  | Fin a, Fin b => Rltb a b
  end.

Definition leb (x y : num) : bool :=
  match x, y with
  | NaN, _ | _, NaN => false
  | NInf, _ | _, PInf => true
  | _, NInf | PInf, _ => false
  | Fin a, Fin b => Rleb a b
  end.

Definition geb (x y : num) : bool := leb y x.

(** [Math.exp]. *)
Definition exp (x : num) : num :=
  match x with
  | NaN => NaN
  | PInf => PInf
  | NInf => Fin 0
  | Fin a => Fin (Rtrigo_def.exp a)
  end.

(** The logarithm in base [b], as [Math.log10] and [Math.log2] have it:
    [NaN] below zero, [-Infinity] at zero. *)
Definition log (b : R) (x : num) : num :=
  match x with
  | NaN | NInf => NaN
  | PInf => PInf
  | Fin a => if Rltb a 0 then NaN else if Rltb 0 a then Fin (Rlog b a) else NInf
  end.

Definition log10 : num -> num := log 10.
Definition log2 : num -> num := log 2.

Definition finite (x : num) : Prop := exists r, x = Fin r.

(** The real value of a finite number ([0] for the special values). *)
Definition real_of (x : num) : R :=
  match x with
  | Fin a => a
  | _ => 0
  end.

End Num.

Notation "x + y" := (Num.add x y) : js_scope.
Notation "x - y" := (Num.sub x y) : js_scope.
Notation "x * y" := (Num.mul x y) : js_scope.
Notation "x / y" := (Num.div x y) : js_scope.
Notation "- x" := (Num.neg x) : js_scope.
Notation "x <? y" := (Num.ltb x y) (at level 70, no associativity) : js_scope.
Notation "x <=? y" := (Num.leb x y) (at level 70, no associativity) : js_scope.
Notation "x >=? y" := (Num.geb x y) (at level 70, no associativity) : js_scope.

(** Number literals of the source. *)
Notation "# r" := (Fin r%R) (at level 5, r at level 1, format "# r") : js_scope.

(** ** Completions *)

Inductive completion (A : Type) : Type :=
| Normal (a : A)
| Throw (error : string).
Arguments Normal {A} a.
Arguments Throw {A} error.

Definition bind {A B} (c : completion A) (k : A -> completion B) : completion B :=
  match c with
  | Normal a => k a
  | Throw e => Throw e
  end.

Definition try_catch {A} (body : completion A) (handler : string -> completion A)
  : completion A :=
  match body with
  | Normal a => Normal a
  | Throw e => handler e
  end.

Notation "x <- c ;; k" := (bind c (fun x => k))
  (at level 61, c at next level, right associativity).

(** [Array.prototype.map] with a callback that may throw. *)
Fixpoint mapM {A B} (f : A -> completion B) (l : list A) : completion (list B) :=
  match l with
  | [] => Normal []
  | x :: l' => y <- f x ;; ys <- mapM f l' ;; Normal (y :: ys)
  end.

Definition rejected {A} (c : completion A) : Prop := exists e, c = Throw e.

(** ** Records *)

Module Holder.
Record t : Type := mk {
  address : string;
  tokens : num;
  hoursAfterLaunch : num;
  hoursSinceLaunch : num;
  minBalance : num;
  maxBalance : num
}.
End Holder.

Module Weightage.
Record t : Type := mk {
  balanceWeight : num;
  earlyBonus : num;
  tenureBonus : num;
  timeWeight : num;
  totalWeight : num;
  hoursSinceLaunch : num;
  hoursHeld : num;
  qualified : bool
}.
End Weightage.

Local Open Scope js_scope.

(** ** [calculateWeightage] *)

(** The record returned for a holder below the threshold, and by the
    [catch] clause. *)
Definition zeroWeightage : Weightage.t :=
  Weightage.mk #0 #0 #0 #0 #0 #0 #0 false.

Definition tokenBalanceWeight (tokens minBalance : num) : num :=
  #1 + Num.log10 (tokens / minBalance).

Definition earlyBonus (daysSinceLaunch : num) : num :=
  #1 + #2 * Num.exp (- daysSinceLaunch / #2).

Definition tenureBonus (daysHeld : num) : num :=
  #1 + #0.6 * Num.log2 (daysHeld + #1).

(** The body of the [try] block. *)
Definition calculateWeightage_try
    (tokens hoursAfterLaunch hoursSinceLaunch minBalance : num)
  : completion Weightage.t :=
  if tokens <? minBalance then Normal zeroWeightage
  else
    let hoursHeld := hoursSinceLaunch - hoursAfterLaunch in
    let daysSinceLaunch := hoursAfterLaunch / #24 in
    let daysHeld := hoursHeld / #24 in
    let tokenBalanceWeight := tokenBalanceWeight tokens minBalance in
    let earlyBonus := earlyBonus daysSinceLaunch in
    let tenureBonus := tenureBonus daysHeld in
    let timeWeight := earlyBonus * tenureBonus in
    let totalWeight := tokenBalanceWeight * timeWeight in
    Normal {| Weightage.balanceWeight := tokenBalanceWeight;
              Weightage.earlyBonus := earlyBonus;
              Weightage.tenureBonus := tenureBonus;
              Weightage.timeWeight := timeWeight;
              Weightage.totalWeight := totalWeight;
              Weightage.hoursSinceLaunch := hoursAfterLaunch;
              Weightage.hoursHeld := hoursHeld;
              Weightage.qualified := true |}.

(** The [catch] clause returns the zeroed record (its [console.error] only
    writes to the console). *)
Definition calculateWeightage
    (tokens hoursAfterLaunch hoursSinceLaunch minBalance : num)
  : completion Weightage.t :=
  try_catch
    (calculateWeightage_try tokens hoursAfterLaunch hoursSinceLaunch minBalance)
    (fun _ => Normal zeroWeightage).

(** ** [calculateDistribution] *)

Module Allocation.
Record t : Type := mk {
  address : string;
  tokens : num;
  weightage : Weightage.t;
  share : num;
  amount : num;
  sharePercentage : num
}.
End Allocation.

(** [l.reduce((sum, x) => sum + f(x), 0)]. *)
Definition reduce_sum {A} (f : A -> num) (l : list A) : num :=
  fold_left (fun sum x => sum + f x) l (#0).

(** A holder together with its [weightage] field, as the first [map] builds
    it with the spread [...holder]. *)
Definition Weighted : Type := (Holder.t * Weightage.t)%type.

Definition withWeightage (holder : Holder.t) : completion Weighted :=
  weightage <- calculateWeightage (Holder.tokens holder)
                                  (Holder.hoursAfterLaunch holder)
                                  (Holder.hoursSinceLaunch holder)
                                  (Holder.minBalance holder) ;;
  Normal (holder, weightage).

(** The predicate of the first [filter]: qualified and not above the
    maximum balance. *)
Definition eligible (holder : Weighted) : bool :=
  Weightage.qualified (snd holder)
  && (Holder.tokens (fst holder) <=? Holder.maxBalance (fst holder)).

(** A parameter with a default value: the default stands in for a missing
    argument. *)
Definition default_arg {A} (default : A) (argument : option A) : A :=
  match argument with
  | Some a => a
  | None => default
  end.

Definition dust : num := #0.000001.

(** The shares and amounts of the valid holders, before the dust filter. *)
Definition distributionResults
    (validHolders : list Weighted) (totalTreasury feeReserve : num)
  : list Allocation.t :=
  let totalWeightage :=
    reduce_sum (fun holder => Weightage.totalWeight (snd holder)) validHolders in
  let feeAmount := totalTreasury * feeReserve in
  let availableForDistribution := totalTreasury - feeAmount in
  map (fun holder =>
         let share := Weightage.totalWeight (snd holder) / totalWeightage in
         let amount := availableForDistribution * share in
         {| Allocation.address := Holder.address (fst holder);
            Allocation.tokens := Holder.tokens (fst holder);
            Allocation.weightage := snd holder;
            Allocation.share := share;
            Allocation.amount := amount;
            Allocation.sharePercentage := share * #100 |})
      validHolders.

Definition calculateDistribution
    (holders : list Holder.t) (totalTreasury : num) (feeReserve : option num)
  : completion (list Allocation.t) :=
  let feeReserve := default_arg #0.05 feeReserve in
  weighted <- mapM withWeightage holders ;;
  let validHolders := filter eligible weighted in
  if (List.length validHolders =? 0)%nat then Normal []
  else
    let distributionResults :=
      distributionResults validHolders totalTreasury feeReserve in
    let filteredResults :=
      filter (fun result => Allocation.amount result >=? dust)
             distributionResults in
    Normal filteredResults.

(** ** [getDistributionStats] *)

(** [Array.prototype.sort] with a comparator: a stable sort in which [a]
    goes after [b] when [compare a b > 0]; a [NaN] from the comparator counts
    as [0].  Written as a stable insertion sort; the language leaves the order
    open when the comparator is not a consistent order (as with [NaN]
    differences). *)
Fixpoint sort_insert {A} (compare : A -> A -> num) (a : A) (l : list A) : list A :=
  match l with
  | [] => [a]
  | b :: l' => if #0 <? compare a b then b :: sort_insert compare a l'
               else a :: l
  end.

Definition sort {A} (compare : A -> A -> num) (l : list A) : list A :=
  fold_right (sort_insert compare) [] l.

Module Stats.
Record t : Type := mk {
  totalHolders : nat;
  validHolders : nat;
  totalTokens : num;
  totalWeightage : num;
  totalDistributed : num;
  averageWeight : num;
  averageReward : num;
  topWeight : option Allocation.t;
  topReward : option Allocation.t;
  bottomWeight : option Allocation.t;
  bottomReward : option Allocation.t
}.
End Stats.

(** [l.length] as a Number. *)
Definition length_num {A} (l : list A) : num := Fin (INR (List.length l)).

(** [l[l.length - 1]], [undefined] on the empty array. *)
Definition last_error {A} (l : list A) : option A :=
  match l with
  | [] => None
  | a :: l' => Some (last l' a)
  end.

Definition getDistributionStats
    (holders : list Holder.t) (distribution : list Allocation.t) : Stats.t :=
  let validHolders :=
    filter (fun h => Holder.tokens h >=? Holder.minBalance h) holders in
  let totalTokens := reduce_sum Holder.tokens validHolders in
  let totalWeightage :=
    reduce_sum (fun d => Weightage.totalWeight (Allocation.weightage d))
               distribution in
  let totalDistributed := reduce_sum Allocation.amount distribution in
  let averageWeight := totalWeightage / length_num distribution in
  let averageReward := totalDistributed / length_num distribution in
  let sortedByWeight :=
    sort (fun a b => Weightage.totalWeight (Allocation.weightage b)
                     - Weightage.totalWeight (Allocation.weightage a))
         distribution in
  let sortedByReward :=
    sort (fun a b => Allocation.amount b - Allocation.amount a) distribution in
  {| Stats.totalHolders := List.length holders;
     Stats.validHolders := List.length validHolders;
     Stats.totalTokens := totalTokens;
     Stats.totalWeightage := totalWeightage;
     Stats.totalDistributed := totalDistributed;
     Stats.averageWeight := averageWeight;
     Stats.averageReward := averageReward;
     Stats.topWeight := hd_error sortedByWeight;
     Stats.topReward := hd_error sortedByReward;
     Stats.bottomWeight := last_error sortedByWeight;
     Stats.bottomReward := last_error sortedByReward |}.

(** ** The formulas in binary64 *)

(** The second reading of a Number: the binary64 value itself, a primitive
    [float], with the rounded [+], [-], [*], [/] and the comparisons of IEEE
    754.  [Math.exp], [Math.log10] and [Math.log2] are fields of a parameter
    [Math.t]: ECMAScript leaves their values to the implementation, up to
    the cases [ecmascript] lists.  The definitions repeat, operation for
    operation, those above. *)
Module B64.
Import PrimFloat.
Local Open Scope float_scope.

Module Math.
Record t : Type := mk {
  exp : float -> float;
  log10 : float -> float;
  log2 : float -> float
}.
End Math.

(** The values ECMAScript fixes for a logarithm. *)
Definition ecmascript_log (log : float -> float) : Prop :=
  log nan = nan
  /\ (forall x, (x <? 0) = true -> log x = nan)
  /\ log 0 = neg_infinity
  /\ log (-0) = neg_infinity
  /\ log 1 = 0
  /\ log infinity = infinity.

(** The values ECMAScript fixes for the three functions. *)
Definition ecmascript (M : Math.t) : Prop :=
  (Math.exp M nan = nan
   /\ Math.exp M 0 = 1
   /\ Math.exp M (-0) = 1
   /\ Math.exp M infinity = infinity
   /\ Math.exp M neg_infinity = 0)
  /\ ecmascript_log (Math.log10 M)
  /\ ecmascript_log (Math.log2 M).

Module Holder.
Record t : Type := mk {
  address : string;
  tokens : float;
  hoursAfterLaunch : float;
  hoursSinceLaunch : float;
  minBalance : float;
  maxBalance : float
}.
End Holder.

Module Weightage.
Record t : Type := mk {
  balanceWeight : float;
  earlyBonus : float;
  tenureBonus : float;
  timeWeight : float;
  totalWeight : float;
  hoursSinceLaunch : float;
  hoursHeld : float;
  qualified : bool
}.
End Weightage.

Module Allocation.
Record t : Type := mk {
  address : string;
  tokens : float;
  weightage : Weightage.t;
  share : float;
  amount : float;
  sharePercentage : float
}.
End Allocation.

Definition zeroWeightage : Weightage.t :=
  Weightage.mk 0 0 0 0 0 0 0 false.

#[warnings="-inexact-float"]
Definition dust : float := 0.000001.

#[warnings="-inexact-float"]
Definition defaultFeeReserve : float := 0.05.

Section Formulas.
Variable M : Math.t.

Definition tokenBalanceWeight (tokens minBalance : float) : float :=
  1 + Math.log10 M (tokens / minBalance).

Definition earlyBonus (daysSinceLaunch : float) : float :=
  1 + 2 * Math.exp M (- daysSinceLaunch / 2).

#[warnings="-inexact-float"]
Definition tenureBonus (daysHeld : float) : float :=
  1 + 0.6 * Math.log2 M (daysHeld + 1).

Definition calculateWeightage_try
    (tokens hoursAfterLaunch hoursSinceLaunch minBalance : float)
  : completion Weightage.t :=
  if tokens <? minBalance then Normal zeroWeightage
  else
    let hoursHeld := hoursSinceLaunch - hoursAfterLaunch in
    let daysSinceLaunch := hoursAfterLaunch / 24 in
    let daysHeld := hoursHeld / 24 in
    let tokenBalanceWeight := tokenBalanceWeight tokens minBalance in
    let earlyBonus := earlyBonus daysSinceLaunch in
    let tenureBonus := tenureBonus daysHeld in
    let timeWeight := earlyBonus * tenureBonus in
    let totalWeight := tokenBalanceWeight * timeWeight in
    Normal {| Weightage.balanceWeight := tokenBalanceWeight;
              Weightage.earlyBonus := earlyBonus;
              Weightage.tenureBonus := tenureBonus;
              Weightage.timeWeight := timeWeight;
              Weightage.totalWeight := totalWeight;
              Weightage.hoursSinceLaunch := hoursAfterLaunch;
              Weightage.hoursHeld := hoursHeld;
              Weightage.qualified := true |}.

Definition calculateWeightage
    (tokens hoursAfterLaunch hoursSinceLaunch minBalance : float)
  : completion Weightage.t :=
  try_catch
    (calculateWeightage_try tokens hoursAfterLaunch hoursSinceLaunch minBalance)
    (fun _ => Normal zeroWeightage).

Definition reduce_sum {A} (f : A -> float) (l : list A) : float :=
  fold_left (fun sum x => sum + f x) l 0.

Definition Weighted : Type := (Holder.t * Weightage.t)%type.

Definition withWeightage (holder : Holder.t) : completion Weighted :=
  bind (calculateWeightage (Holder.tokens holder)
                           (Holder.hoursAfterLaunch holder)
                           (Holder.hoursSinceLaunch holder)
                           (Holder.minBalance holder))
       (fun weightage => Normal (holder, weightage)).

Definition eligible (holder : Weighted) : bool :=
  Weightage.qualified (snd holder)
  && (Holder.tokens (fst holder) <=? Holder.maxBalance (fst holder)).

Definition distributionResults
    (validHolders : list Weighted) (totalTreasury feeReserve : float)
  : list Allocation.t :=
  let totalWeightage :=
    reduce_sum (fun holder => Weightage.totalWeight (snd holder)) validHolders in
  let feeAmount := totalTreasury * feeReserve in
  let availableForDistribution := totalTreasury - feeAmount in
  map (fun holder =>
         let share := Weightage.totalWeight (snd holder) / totalWeightage in
         let amount := availableForDistribution * share in
         {| Allocation.address := Holder.address (fst holder);
            Allocation.tokens := Holder.tokens (fst holder);
            Allocation.weightage := snd holder;
            Allocation.share := share;
            Allocation.amount := amount;
            Allocation.sharePercentage := share * 100 |})
      validHolders.

Definition calculateDistribution
    (holders : list Holder.t) (totalTreasury : float)
    (feeReserve : option float)
  : completion (list Allocation.t) :=
  let feeReserve := default_arg defaultFeeReserve feeReserve in
  bind (mapM withWeightage holders)
       (fun weighted =>
          let validHolders := filter eligible weighted in
          if (List.length validHolders =? 0)%nat then Normal []
          else
            let distributionResults :=
              distributionResults validHolders totalTreasury feeReserve in
            let filteredResults :=
              filter (fun result => dust <=? Allocation.amount result)
                     distributionResults in
            Normal filteredResults).

End Formulas.

(** A holder that bought [minBalance] tokens at the launch, seen at the
    launch: every factor of its weight is fixed by ECMAScript. *)
Definition launchHolder (address : string) : Holder.t :=
  {| Holder.address := address;
     Holder.tokens := 20000;
     Holder.hoursAfterLaunch := 0;
     Holder.hoursSinceLaunch := 0;
     Holder.minBalance := 20000;
     Holder.maxBalance := 100000000 |}.

(** The weightage of a holder that bought [minBalance] tokens at the launch,
    seen at the launch. *)
Definition launchWeightage : Weightage.t :=
  {| Weightage.balanceWeight := 1;
     Weightage.earlyBonus := 3;
     Weightage.tenureBonus := 1;
     Weightage.timeWeight := 3;
     Weightage.totalWeight := 3;
     Weightage.hoursSinceLaunch := 0;
     Weightage.hoursHeld := 0;
     Weightage.qualified := true |}.

End B64.

(** ** Vocabulary of the specification *)

(** The weightage record [calculateDistribution] attaches to a holder. *)
Definition weightageOf (holder : Holder.t) : Weightage.t :=
  match calculateWeightage (Holder.tokens holder)
                           (Holder.hoursAfterLaunch holder)
                           (Holder.hoursSinceLaunch holder)
                           (Holder.minBalance holder) with
  | Normal weightage => weightage
  | Throw _ => zeroWeightage
  end.

(** The eligible set of a run: the holders that are qualified and not above
    their maximum balance, each with its weightage. *)
Definition eligibleHolders (holders : list Holder.t) : list Weighted :=
  filter eligible (map (fun holder => (holder, weightageOf holder)) holders).

(** What the specification assumes of the callers, as comparisons of the
    code: the minimum balance is not negative and the first purchase is not
    later than the reference time.  These are the two conditions that keep a
    weight from being negative. *)
Definition admissible (holder : Holder.t) : Prop :=
  (Holder.minBalance holder <? #0) = false
  /\ (Holder.hoursSinceLaunch holder <? Holder.hoursAfterLaunch holder) = false.

(** A number that is not a finite number at or below [bound]: a finite
    number above it, or a special value. *)
Definition above_or_special (bound : R) (x : num) : Prop :=
  match x with
  | Fin r => (bound < r)%R
  | _ => True
  end.

(** Every computed amount passes the dust filter. *)
Definition no_dust (results : list Allocation.t) : Prop :=
  Forall (fun result => (Allocation.amount result >=? dust) = true) results.

(** What the rounding of binary64 may add to or take from a sum of [n]
    shares: [n * 2^-50], eight units in the last place for each share. *)
Definition rounding_allowance (n : nat) : R := (INR n / 2 ^ 50)%R.

(** [x] is the finite number that [v] gives to four decimal places. *)
Definition rounds_to4 (x : num) (v : R) : Prop :=
  exists r, x = Fin r /\ (v - 0.00005 <= r < v + 0.00005)%R.

(** The configuration errors the specification names. *)
Definition minBalance_error (minBalance : num) : Prop :=
  (minBalance <=? #0) = true.

Definition config_error
    (holders : list Holder.t) (totalTreasury feeReserve : num) : Prop :=
  Exists (fun h => minBalance_error (Holder.minBalance h)
                   \/ (Holder.maxBalance h <? Holder.minBalance h) = true)
         holders
  \/ (totalTreasury <? #0) = true
  \/ (feeReserve <? #0) = true
  \/ (feeReserve >=? #1) = true.

(** The requirement that configuration errors are rejected: a failure is
    reported instead of a result. *)
Definition rejects_config_errors : Prop :=
  (forall tokens hoursAfterLaunch hoursSinceLaunch minBalance,
      minBalance_error minBalance ->
      rejected (calculateWeightage tokens hoursAfterLaunch hoursSinceLaunch
                                   minBalance))
  /\ (forall holders totalTreasury feeReserve,
         config_error holders totalTreasury feeReserve ->
         rejected (calculateDistribution holders totalTreasury
                                         (Some feeReserve))).

(** The holders [getDistributionStats] counts as valid, one at a time: the
    minimum-balance check alone. *)
Fixpoint count_min_only (holders : list Holder.t) : nat :=
  match holders with
  | [] => 0
  | h :: rest =>
      if Holder.tokens h >=? Holder.minBalance h
      then S (count_min_only rest) else count_min_only rest
  end.

(** The holders that meet the minimum balance, in input order. *)
Fixpoint min_only (holders : list Holder.t) : list Holder.t :=
  match holders with
  | [] => []
  | h :: rest =>
      if Holder.tokens h >=? Holder.minBalance h
      then h :: min_only rest else min_only rest
  end.

(** The scenario of the specification: one holder of 20000 tokens bought at
    launch, 48 hours ago, with a minimum balance of 20000; its weightage and
    its allocation from a treasury of 10 with a fee reserve of 0.05. *)
Definition scenarioHolder (address : string) (maxBalance : num) : Holder.t :=
  {| Holder.address := address;
     Holder.tokens := #20000;
     Holder.hoursAfterLaunch := #0;
     Holder.hoursSinceLaunch := #48;
     Holder.minBalance := #20000;
     Holder.maxBalance := maxBalance |}.

Definition scenarioWeightage : Weightage.t :=
  {| Weightage.balanceWeight := #1;
     Weightage.earlyBonus := #3;
     Weightage.tenureBonus := #(1 + 0.6 * Rlog 2 3);
     Weightage.timeWeight := #(3 * (1 + 0.6 * Rlog 2 3));
     Weightage.totalWeight := #(1 * (3 * (1 + 0.6 * Rlog 2 3)));
     Weightage.hoursSinceLaunch := #0;
     Weightage.hoursHeld := #48;
     Weightage.qualified := true |}.

Definition scenarioAllocation (address : string) : Allocation.t :=
  {| Allocation.address := address;
     Allocation.tokens := #20000;
     Allocation.weightage := scenarioWeightage;
     Allocation.share := #1;
     Allocation.amount := #9.5;
     Allocation.sharePercentage := #100 |}.

(** The sum of real numbers. *)
Fixpoint Rsum (l : list R) : R :=
  match l with
  | [] => 0%R
  | x :: l' => (x + Rsum l')%R
  end.

(** ** Vocabulary of the further properties *)

(** [k] is [l] with some elements left out, the others in their order. *)
Inductive subseq {A : Type} : list A -> list A -> Prop :=
| subseq_nil : subseq [] []
| subseq_skip x k l : subseq k l -> subseq k (x :: l)
| subseq_keep x k l : subseq k l -> subseq (x :: k) (x :: l).

(** A holder with ten times the tokens of the scenario's holder, bought at
    the same hour, and its weightage. *)
Definition tenfoldHolder (address : string) : Holder.t :=
  {| Holder.address := address;
     Holder.tokens := #200000;
     Holder.hoursAfterLaunch := #0;
     Holder.hoursSinceLaunch := #48;
     Holder.minBalance := #20000;
     Holder.maxBalance := #100000000 |}.

Definition tenfoldWeightage : Weightage.t :=
  {| Weightage.balanceWeight := #2;
     Weightage.earlyBonus := #3;
     Weightage.tenureBonus := #(1 + 0.6 * Rlog 2 3);
     Weightage.timeWeight := #(3 * (1 + 0.6 * Rlog 2 3));
     Weightage.totalWeight := #(2 * (3 * (1 + 0.6 * Rlog 2 3)));
     Weightage.hoursSinceLaunch := #0;
     Weightage.hoursHeld := #48;
     Weightage.qualified := true |}.

(** The comparator of the sorted copies, [(a, b) => key(b) - key(a)]. *)
Definition descending {A} (key : A -> num) (a b : A) : num := key b - key a.

(** [r] is the first element of [l] whose key is the largest, and the last
    whose key is the smallest. *)
Definition first_largest {A} (key : A -> R) (r : A) (l : list A) : Prop :=
  exists l1 l2,
    l = l1 ++ r :: l2
    /\ Forall (fun a => key a < key r)%R l1
    /\ Forall (fun a => key a <= key r)%R l2.

Definition last_smallest {A} (key : A -> R) (r : A) (l : list A) : Prop :=
  exists l1 l2,
    l = l1 ++ r :: l2
    /\ Forall (fun a => key r <= key a)%R l1
    /\ Forall (fun a => key r < key a)%R l2.

(** The weight and the reward of an allocation, as reals. *)
Definition weight_of (d : Allocation.t) : R :=
  Num.real_of (Weightage.totalWeight (Allocation.weightage d)).

Definition reward_of (d : Allocation.t) : R :=
  Num.real_of (Allocation.amount d).

(** An allocation with a finite weight and a finite amount. *)
Definition finite_allocation (d : Allocation.t) : Prop :=
  Num.finite (Weightage.totalWeight (Allocation.weightage d))
  /\ Num.finite (Allocation.amount d).

(** An allocation of a given total weight and amount, for the statistics. *)
Definition sampleAllocation (address : string) (weight amount : R)
  : Allocation.t :=
  {| Allocation.address := address;
     Allocation.tokens := #20000;
     Allocation.weightage :=
       {| Weightage.balanceWeight := #1;
          Weightage.earlyBonus := #1;
          Weightage.tenureBonus := #weight;
          Weightage.timeWeight := #weight;
          Weightage.totalWeight := #weight;
          Weightage.hoursSinceLaunch := #0;
          Weightage.hoursHeld := #0;
          Weightage.qualified := true |};
     Allocation.share := #(amount / 10);
     Allocation.amount := #amount;
     Allocation.sharePercentage := #(amount / 10 * 100) |}.

(** ** The interactive demo ([demo.js]) *)

(** The demo asks its questions on the terminal and keeps two globals,
    [config] and [holders].  A run is modelled on the answers still to come:
    it is [Done] with a value and the answers it has not read, [Waiting] for
    an answer when they are used up, or [Crashed] by an error nothing
    catches.  What the demo prints is not modelled ([displayMenu] and the
    tables of the results), and the questions, which are only printed, are
    not arguments; neither is the handler of Ctrl+C, which ends the process.
    [parseFloat] and [String.prototype.toLowerCase] are parameters of the
    model: every property holds whatever the two functions return. *)

Inductive outcome (A : Type) : Type :=
| Done (a : A) (rest : list string)
| Waiting
| Crashed (error : string).
Arguments Done {A} a rest.
Arguments Waiting {A}.
Arguments Crashed {A} error.

Definition io (A : Type) : Type := list string -> outcome A.

Definition io_ret {A} (a : A) : io A := fun answers => Done a answers.

Definition io_bind {A B} (m : io A) (k : A -> io B) : io B :=
  fun answers =>
    match m answers with
    | Done a rest => k a rest
    | Waiting => Waiting
    | Crashed e => Crashed e
    end.

Notation "x <~ m ;; k" := (io_bind m (fun x => k))
  (at level 61, m at next level, right associativity).

(** A call of the formulas inside an [async] function: a throw rejects the
    promise. *)
Definition await {A} (c : completion A) : io A :=
  fun answers =>
    match c with
    | Normal a => Done a answers
    | Throw e => Crashed e
    end.

(** [Array.prototype.filter] with a callback that may throw. *)
Fixpoint filterM {A} (f : A -> completion bool) (l : list A)
  : completion (list A) :=
  match l with
  | [] => Normal []
  | x :: l' =>
      keep <- f x ;; ys <- filterM f l' ;;
      Normal (if keep : bool then x :: ys else ys)
  end.

Definition isNaN (x : num) : bool :=
  match x with
  | NaN => true
  | _ => false
  end.

Module Config.
Record t : Type := mk {
  minBalance : num;
  maxBalance : num;
  treasuryBalance : num;
  feeReserve : num;
  hoursSinceLaunch : num
}.
End Config.

(** The holder objects of the demo carry [hoursHeld] besides the fields
    [calculateDistribution] reads. *)
Module DemoHolder.
Record t : Type := mk {
  address : string;
  tokens : num;
  hoursAfterLaunch : num;
  hoursHeld : num;
  minBalance : num;
  maxBalance : num;
  hoursSinceLaunch : num
}.

Definition holder (h : t) : Holder.t :=
  {| Holder.address := address h;
     Holder.tokens := tokens h;
     Holder.hoursAfterLaunch := hoursAfterLaunch h;
     Holder.hoursSinceLaunch := hoursSinceLaunch h;
     Holder.minBalance := minBalance h;
     Holder.maxBalance := maxBalance h |}.
End DemoHolder.

(** The two globals. *)
Module Session.
Record t : Type := mk {
  config : Config.t;
  holders : list DemoHolder.t
}.
End Session.

Module Demo.

Definition config : Config.t :=
  {| Config.minBalance := #20000;
     Config.maxBalance := #100000000;
     Config.treasuryBalance := #10;
     Config.feeReserve := #0.05;
     Config.hoursSinceLaunch := #48 |}.

Definition holders : list DemoHolder.t := [].

Definition askQuestion : io string :=
  fun answers =>
    match answers with
    | [] => Waiting
    | answer :: rest => Done answer rest
    end.

Section Builtins.
Variable parseFloat : string -> num.
Variable toLowerCase : string -> string.

Fixpoint askYesNo (answers : list string) : outcome bool :=
  match answers with
  | [] => Waiting
  | answer :: rest =>
      let lower := toLowerCase answer in
      if String.eqb lower "y" || String.eqb lower "yes" then Done true rest
      else if String.eqb lower "n" || String.eqb lower "no" then Done false rest
      else askYesNo rest
  end.

(** [min] and [max] are [None] for [null]; [num > max] is [max < num]. *)
Fixpoint askNumber (min max : option num) (answers : list string)
  : outcome num :=
  match answers with
  | [] => Waiting
  | answer :: rest =>
      let num := parseFloat answer in
      if isNaN num then askNumber min max rest
      else if match min with Some m => num <? m | None => false end
      then askNumber min max rest
      else if match max with Some m => m <? num | None => false end
      then askNumber min max rest
      else Done num rest
  end.

Definition configureSettings (s : Session.t) : io Session.t :=
  change <~ askYesNo ;;
  if change : bool then
    minBalance <~ askNumber (Some #1) None ;;
    maxBalance <~ askNumber (Some minBalance) None ;;
    treasuryBalance <~ askNumber (Some #0.001) None ;;
    feePercentage <~ askNumber (Some #0) (Some #50) ;;
    hoursSinceLaunch <~ askNumber (Some #1) None ;;
    io_ret {| Session.config :=
                {| Config.minBalance := minBalance;
                   Config.maxBalance := maxBalance;
                   Config.treasuryBalance := treasuryBalance;
                   Config.feeReserve := feePercentage / #100;
                   Config.hoursSinceLaunch := hoursSinceLaunch |};
              Session.holders := Session.holders s |}
  else io_ret s.

Definition addHolder (s : Session.t) : io Session.t :=
  let config := Session.config s in
  address <~ askQuestion ;;
  match find (fun h => String.eqb (toLowerCase (DemoHolder.address h))
                                  (toLowerCase address))
             (Session.holders s) with
  | Some existingHolder => _ <~ askQuestion ;; io_ret s
  | None =>
      tokens <~ askNumber (Some #1) None ;;
      hoursAfterLaunch <~
        askNumber (Some #0) (Some (Config.hoursSinceLaunch config)) ;;
      let hoursHeld := Config.hoursSinceLaunch config - hoursAfterLaunch in
      weightage <~
        await (calculateWeightage tokens hoursAfterLaunch
                                  (Config.hoursSinceLaunch config)
                                  (Config.minBalance config)) ;;
      let holder :=
        {| DemoHolder.address := address;
           DemoHolder.tokens := tokens;
           DemoHolder.hoursAfterLaunch := hoursAfterLaunch;
           DemoHolder.hoursHeld := hoursHeld;
           DemoHolder.minBalance := Config.minBalance config;
           DemoHolder.maxBalance := Config.maxBalance config;
           DemoHolder.hoursSinceLaunch := Config.hoursSinceLaunch config |} in
      io_ret {| Session.config := config;
                Session.holders := Session.holders s ++ [holder] |}
  end.

Definition viewHolders (s : Session.t) : io Session.t :=
  let config := Session.config s in
  match Session.holders s with
  | [] => _ <~ askQuestion ;; io_ret s
  | _ :: _ =>
      _ <~ await (mapM (fun holder =>
                          calculateWeightage
                            (DemoHolder.tokens holder)
                            (DemoHolder.hoursAfterLaunch holder)
                            (DemoHolder.hoursSinceLaunch holder)
                            (Config.minBalance config))
                       (Session.holders s)) ;;
      _ <~ askQuestion ;; io_ret s
  end.

(** The distribution the demo computes from its globals. *)
Definition distribution (s : Session.t) : completion (list Allocation.t) :=
  calculateDistribution (map DemoHolder.holder (Session.holders s))
                        (Config.treasuryBalance (Session.config s))
                        (Some (Config.feeReserve (Session.config s))).

(** Reading [stats.topReward.address] of an [undefined] recipient is a
    [TypeError]. *)
Definition runDistributionAndResults (s : Session.t) : io Session.t :=
  let config := Session.config s in
  match Session.holders s with
  | [] => _ <~ askQuestion ;; io_ret s
  | _ :: _ =>
      qualifiedHolders <~
        await (filterM (fun h =>
                          weightage <-
                            calculateWeightage
                              (DemoHolder.tokens h)
                              (DemoHolder.hoursAfterLaunch h)
                              (DemoHolder.hoursSinceLaunch h)
                              (Config.minBalance config) ;;
                          Normal (Weightage.qualified weightage
                                  && (DemoHolder.tokens h
                                      <=? Config.maxBalance config)))
                       (Session.holders s)) ;;
      results <~ await (distribution s) ;;
      match results with
      | [] => _ <~ askQuestion ;; io_ret s
      | _ :: _ =>
          let stats :=
            getDistributionStats (map DemoHolder.holder (Session.holders s))
                                 results in
          match Stats.topReward stats, Stats.bottomReward stats with
          | Some _, Some _ => _ <~ askQuestion ;; io_ret s
          | _, _ => fun _ => Crashed "TypeError"
          end
      end
  end.

(** The two properties of [global] that [clearData] sets to [null] are read
    nowhere and are left out. *)
Definition clearData (s : Session.t) : io Session.t :=
  confirm <~ askYesNo ;;
  if confirm : bool then
    io_ret {| Session.config := Session.config s; Session.holders := [] |}
  else io_ret s.

(** The body of the [switch] of [main]: [None] for choice 6, which leaves
    the loop. *)
Definition menu (choice : string) (s : Session.t) : option (io Session.t) :=
  if String.eqb choice "1" then Some (configureSettings s)
  else if String.eqb choice "2" then Some (addHolder s)
  else if String.eqb choice "3" then Some (viewHolders s)
  else if String.eqb choice "4" then Some (runDistributionAndResults s)
  else if String.eqb choice "5" then Some (clearData s)
  else if String.eqb choice "6" then None
  else Some (io_ret s).

(** The loop of [main]; every turn reads an answer, so as many turns as
    there are answers, and one more, are all the turns there can be. *)
Fixpoint main_loop (turns : nat) (s : Session.t) (answers : list string)
  : outcome Session.t :=
  match turns with
  | O => Waiting
  | S turns' =>
      match answers with
      | [] => Waiting
      | choice :: rest =>
          match menu choice s with
          | None => Done s rest
          | Some run => (s' <~ run ;; main_loop turns' s') rest
          end
      end
  end.

Definition main (answers : list string) : outcome Session.t :=
  main_loop (S (List.length answers))
            {| Session.config := config; Session.holders := holders |}
            answers.

End Builtins.
End Demo.

(** ** Vocabulary of the demo's properties *)

(** What [askNumber] accepts: a number that is not [NaN], not below [min]
    and not above [max]. *)
Definition accepted (min max : option num) (n : num) : Prop :=
  n <> NaN
  /\ (forall m, min = Some m -> (n <? m) = false)
  /\ (forall m, max = Some m -> (m <? n) = false).

(** The settings [configureSettings] asks for. *)
Definition valid_config (c : Config.t) : Prop :=
  (Config.minBalance c >=? #1) = true
  /\ (Config.maxBalance c >=? Config.minBalance c) = true
  /\ (Config.treasuryBalance c >=? #0.001) = true
  /\ (exists f : R, Config.feeReserve c = #f /\ (0 <= f <= 0.5)%R)
  /\ (Config.hoursSinceLaunch c >=? #1) = true.

(** The holders [addHolder] makes. *)
Definition valid_holder (h : DemoHolder.t) : Prop :=
  (DemoHolder.tokens h >=? #1) = true
  /\ (DemoHolder.hoursAfterLaunch h >=? #0) = true
  /\ (DemoHolder.hoursAfterLaunch h <=? DemoHolder.hoursSinceLaunch h) = true
  /\ DemoHolder.hoursHeld h
     = DemoHolder.hoursSinceLaunch h - DemoHolder.hoursAfterLaunch h
  /\ (DemoHolder.minBalance h >=? #1) = true
  /\ (DemoHolder.maxBalance h >=? DemoHolder.minBalance h) = true.

(** Valid settings, valid holders, and no address twice, whatever the case
    of its letters. *)
Definition valid_session (toLowerCase : string -> string) (s : Session.t)
  : Prop :=
  valid_config (Session.config s)
  /\ Forall valid_holder (Session.holders s)
  /\ NoDup (map (fun h => toLowerCase (DemoHolder.address h))
                (Session.holders s)).

(** * Properties *)

(** ** Arithmetic of [num] *)

Module NumFacts.

Import Num.
Local Open Scope R_scope.

Lemma Rltb_true a b : a < b -> Rltb a b = true.
Proof. unfold Rltb. destruct (Rlt_dec a b); [reflexivity | contradiction]. Qed.

Lemma Rltb_false a b : ~ a < b -> Rltb a b = false.
Proof. unfold Rltb. destruct (Rlt_dec a b); [contradiction | reflexivity]. Qed.

Lemma Rltb_spec a b : Rltb a b = true <-> a < b.
Proof. unfold Rltb. destruct (Rlt_dec a b); split; auto; discriminate. Qed.

Lemma Rleb_spec a b : Rleb a b = true <-> a <= b.
Proof. unfold Rleb. destruct (Rle_dec a b); split; auto; discriminate. Qed.

Lemma Rleb_true a b : a <= b -> Rleb a b = true.
Proof. apply Rleb_spec. Qed.

Lemma Rleb_false a b : ~ a <= b -> Rleb a b = false.
Proof. unfold Rleb. destruct (Rle_dec a b); [contradiction | reflexivity]. Qed.

Lemma ltb_Fin a b : (Fin a <? Fin b)%js = true <-> a < b.
Proof. apply Rltb_spec. Qed.

Lemma leb_Fin a b : (Fin a <=? Fin b)%js = true <-> a <= b.
Proof. apply Rleb_spec. Qed.

Lemma div_Fin a b : b <> 0 -> (Fin a / Fin b)%js = Fin (a / b).
Proof.
  intros Hb. unfold div.
  destruct (Rtotal_order b 0) as [H | [H | H]]; [| contradiction |].
  - now rewrite (Rltb_true _ _ H).
  - now rewrite (Rltb_true _ _ H), orb_true_r.
Qed.

Lemma log_Fin b a : 0 < a -> log b (Fin a) = Fin (Rlog b a).
Proof.
  intros Ha. unfold log.
  rewrite Rltb_false by lra. now rewrite Rltb_true.
Qed.

Lemma signed_inf_pos a : 0 < a -> signed_inf a = PInf.
Proof. intros H. unfold signed_inf. now rewrite Rltb_true. Qed.

Lemma signed_inf_neg a : a < 0 -> signed_inf a = NInf.
Proof.
  intros H. unfold signed_inf. rewrite Rltb_false by lra. now rewrite Rltb_true.
Qed.

Lemma signed_inf_zero : signed_inf 0 = NaN.
Proof. unfold signed_inf. now rewrite !Rltb_false by lra. Qed.

(** A comparison that holds has no [NaN] operand. *)
Lemma leb_not_NaN x y : (x <=? y)%js = true -> x <> NaN /\ y <> NaN.
Proof. destruct x, y; simpl; intros H; split; congruence. Qed.

Lemma ltb_not_NaN x y : (x <? y)%js = true -> x <> NaN /\ y <> NaN.
Proof. destruct x, y; simpl; intros H; split; congruence. Qed.

(** [x >= y] excludes [x < y]; without [NaN] one of them holds. *)
Lemma geb_ltb x y : (x >=? y)%js = true -> (x <? y)%js = false.
Proof.
  unfold geb. destruct x, y; simpl; try congruence.
  intros H. apply Rleb_spec in H. apply Rltb_false. lra.
Qed.

Lemma ltb_false_geb x y :
  x <> NaN -> y <> NaN -> (x <? y)%js = false -> (x >=? y)%js = true.
Proof.
  unfold geb. destruct x, y; simpl; try congruence.
  intros _ _ H. apply Rleb_true.
  destruct (Rlt_dec r r0) as [Hlt | Hge]; [| lra].
  now rewrite (Rltb_true _ _ Hlt) in H.
Qed.

Lemma ltb_leb_false x y : (x <? y)%js = true -> (y <=? x)%js = false.
Proof.
  destruct x, y; simpl; try congruence.
  intros H. apply Rltb_spec in H. apply Rleb_false. lra.
Qed.

(** [NaN] is contagious. *)
Lemma add_not_NaN x y : (x + y)%js <> NaN -> x <> NaN /\ y <> NaN.
Proof. destruct x, y; simpl; intros H; split; congruence. Qed.

Lemma mul_not_NaN x y : (x * y)%js <> NaN -> x <> NaN /\ y <> NaN.
Proof. destruct x, y; simpl; intros H; split; congruence. Qed.

Lemma div_not_NaN x y : (x / y)%js <> NaN -> x <> NaN /\ y <> NaN.
Proof. destruct x, y; simpl; intros H; split; congruence. Qed.

Lemma log_not_NaN b x : log b x <> NaN -> x <> NaN.
Proof. destruct x; simpl; congruence. Qed.

Lemma ln_2_pos : 0 < ln 2.
Proof. pose proof ln_lt_2. lra. Qed.

Lemma ln_10_pos : 0 < ln 10.
Proof. rewrite <- ln_1. apply ln_increasing; lra. Qed.

Lemma Rlog_1 b : Rlog b 1 = 0.
Proof. unfold Rlog. rewrite ln_1. lra. Qed.

Lemma Rlog_nonneg b x : 0 < ln b -> 1 <= x -> 0 <= Rlog b x.
Proof.
  intros Hb Hx. unfold Rlog.
  assert (0 <= ln x).
  { destruct Hx as [Hx | <-]; [| rewrite ln_1; lra].
    rewrite <- ln_1. left. apply ln_increasing; lra. }
  apply Rmult_le_pos; [assumption | left; now apply Rinv_0_lt_compat].
Qed.

Lemma Rlog_increasing b x y : 0 < ln b -> 0 < x -> x < y -> Rlog b x < Rlog b y.
Proof.
  intros Hb Hx Hxy. unfold Rlog.
  apply Rmult_lt_compat_r; [now apply Rinv_0_lt_compat |].
  now apply ln_increasing.
Qed.

Lemma signed_inf_cases a :
  (a < 0 /\ signed_inf a = NInf) \/ (a = 0 /\ signed_inf a = NaN)
  \/ (0 < a /\ signed_inf a = PInf).
Proof.
  destruct (Rtotal_order a 0) as [H | [H | H]].
  - left; split; auto using signed_inf_neg.
  - right; left; subst; split; auto using signed_inf_zero.
  - right; right; split; auto using signed_inf_pos.
Qed.

End NumFacts.

Local Open Scope js_scope.

(** ** The formulas in binary64, at inputs ECMAScript fixes *)

Module B64Facts.
Import PrimFloat B64.
Local Open Scope float_scope.

Section Launch.
Variable M : Math.t.
Hypothesis HM : ecmascript M.

Lemma ecmascript_exp_0 : Math.exp M (-0)%float = 1.
Proof. destruct HM as [[_ [_ [H _]]] _]. exact H. Qed.

Lemma ecmascript_log10_1 : Math.log10 M 1 = 0.
Proof. destruct HM as [_ [[_ [_ [_ [_ [H _]]]]] _]]. exact H. Qed.

Lemma ecmascript_log2_1 : Math.log2 M 1 = 0.
Proof. destruct HM as [_ [_ [_ [_ [_ [_ [H _]]]]]]]. exact H. Qed.

Lemma weightage_at_launch :
  calculateWeightage M 20000 0 0 20000 = Normal launchWeightage.
Proof.
  pose proof ecmascript_exp_0 as Hexp. pose proof ecmascript_log10_1 as H10.
  pose proof ecmascript_log2_1 as H2. clear HM.
  destruct M as [exp log10 log2].
  cbn [Math.exp Math.log10 Math.log2] in Hexp, H10, H2.
  vm_compute in Hexp. vm_compute. rewrite Hexp, H10, H2.
  vm_compute. reflexivity.
Qed.

Lemma mapM_launch names :
  mapM (withWeightage M) (map launchHolder names)
  = Normal (map (fun a => (launchHolder a, launchWeightage)) names).
Proof.
  induction names as [| a names IH]; [reflexivity |].
  cbn [map mapM]. rewrite IH.
  unfold withWeightage at 1.
  change (Holder.tokens (launchHolder a)) with 20000.
  change (Holder.hoursAfterLaunch (launchHolder a)) with 0.
  change (Holder.hoursSinceLaunch (launchHolder a)) with 0.
  change (Holder.minBalance (launchHolder a)) with 20000.
  rewrite weightage_at_launch. reflexivity.
Qed.

(** Nine holders of equal weight: nothing is filtered and the shares add up
    to 1.0000000000000002. *)
Lemma nine_equal_shares :
  exists results,
    calculateDistribution
      M (map launchHolder ["a"; "b"; "c"; "d"; "e"; "f"; "g"; "h"; "i"]%string)
      10 (Some defaultFeeReserve)
    = Normal results
    /\ List.length results = 9%nat
    /\ reduce_sum Allocation.share results = 0x1.0000000000001p+0
    /\ (1 <? reduce_sum Allocation.share results) = true.
Proof.
  unfold calculateDistribution. rewrite mapM_launch.
  eexists. split; [vm_compute; reflexivity |].
  vm_compute. repeat split.
Qed.

(** Six holders of equal weight: nothing is filtered and the shares add up
    to 0.9999999999999999. *)
Lemma six_equal_shares :
  exists results,
    calculateDistribution
      M (map launchHolder ["a"; "b"; "c"; "d"; "e"; "f"]%string)
      10 (Some defaultFeeReserve)
    = Normal results
    /\ List.length results = 6%nat
    /\ reduce_sum Allocation.share results = 0x1.fffffffffffffp-1
    /\ (reduce_sum Allocation.share results <? 1) = true.
Proof.
  unfold calculateDistribution. rewrite mapM_launch.
  eexists. split; [vm_compute; reflexivity |].
  vm_compute. repeat split.
Qed.

(** A purchase [24 * 2^-1074] hours after the launch has a positive
    [daysSinceLaunch] and the early bonus of a purchase at the launch. *)
Lemma earlyBonus_plateau :
  (0 <? 0x1p-1074) = true
  /\ earlyBonus M 0 = 3
  /\ earlyBonus M 0x1p-1074 = 3
  /\ exists w,
       calculateWeightage M 20000 (24 * 0x1p-1074) 48 20000 = Normal w
       /\ Weightage.qualified w = true
       /\ Weightage.earlyBonus w = earlyBonus M 0x1p-1074.
Proof.
  pose proof ecmascript_exp_0 as Hexp. clear HM.
  destruct M as [exp log10 log2]. cbn [Math.exp] in Hexp.
  vm_compute in Hexp.
  split; [vm_compute; reflexivity |].
  split; [vm_compute; rewrite Hexp; vm_compute; reflexivity |].
  split; [vm_compute; rewrite Hexp; vm_compute; reflexivity |].
  eexists. split; [vm_compute; reflexivity |].
  split; reflexivity.
Qed.

(** A holding of [24 * 2^-60] hours has a positive [daysHeld] and the tenure
    bonus of no holding at all. *)
Lemma tenureBonus_plateau :
  (0 <? 0x1p-60) = true
  /\ tenureBonus M 0 = 1
  /\ tenureBonus M 0x1p-60 = 1
  /\ exists w,
       calculateWeightage M 20000 0 (24 * 0x1p-60) 20000 = Normal w
       /\ Weightage.qualified w = true
       /\ Weightage.tenureBonus w = tenureBonus M 0x1p-60.
Proof.
  pose proof ecmascript_log2_1 as H2. clear HM.
  destruct M as [exp log10 log2]. cbn [Math.log2] in H2.
  split; [vm_compute; reflexivity |].
  split; [vm_compute; rewrite H2; vm_compute; reflexivity |].
  split; [vm_compute; rewrite H2; vm_compute; reflexivity |].
  eexists. split; [vm_compute; reflexivity |].
  split; reflexivity.
Qed.

(** With [Math.log10 100 = 2] and [Math.log2 2 = 1], as every engine has
    them, the total weight 3 * (3 * 1.6) of the code is
    14.400000000000002 and the product (3 * 3) * 1.6 is 14.4. *)
Lemma product_order_matters :
  Math.log10 M 100 = 2 -> Math.log2 M 2 = 1 ->
  exists w,
    calculateWeightage M 2000000 0 24 20000 = Normal w
    /\ Weightage.qualified w = true
    /\ Weightage.totalWeight w
       = Weightage.balanceWeight w
         * (Weightage.earlyBonus w * Weightage.tenureBonus w)
    /\ Weightage.totalWeight w = 0x1.ccccccccccccep+3
    /\ Weightage.balanceWeight w * Weightage.earlyBonus w
       * Weightage.tenureBonus w = 0x1.ccccccccccccdp+3.
Proof.
  intros H10 H2. pose proof ecmascript_exp_0 as Hexp. clear HM.
  destruct M as [exp log10 log2]. cbn [Math.exp Math.log10 Math.log2] in *.
  vm_compute in Hexp.
  eexists. split; [vm_compute; rewrite Hexp, H10, H2; reflexivity |].
  vm_compute. repeat split.
Qed.

End Launch.
End B64Facts.

(** ** Rational bounds on real logarithms *)

Section LogBounds.
Local Open Scope R_scope.

Lemma pow_lt_Z (a b : Z) (n m : nat) :
  (a ^ Z.of_nat n <? b ^ Z.of_nat m)%Z = true -> IZR a ^ n < IZR b ^ m.
Proof.
  intros H. rewrite !pow_IZR. apply IZR_lt. now apply Z.ltb_lt.
Qed.

(** [b ^ p < x ^ q] places [p / q] below the logarithm of [x] in base [b]. *)
Lemma Rlog_lower (b x : R) (p q : nat) :
  1 < b -> 0 < x -> (0 < q)%nat -> b ^ p < x ^ q -> INR p / INR q < Rlog b x.
Proof.
  intros Hb Hx Hq Hpow.
  assert (Hlnb : 0 < ln b) by (rewrite <- ln_1; apply ln_increasing; lra).
  assert (Hq' : 0 < INR q) by now apply lt_0_INR.
  apply ln_increasing in Hpow; [| apply pow_lt; lra].
  rewrite !ln_pow in Hpow by lra.
  unfold Rlog.
  apply Rmult_lt_reg_r with (INR q * ln b); [now apply Rmult_lt_0_compat |].
  field_simplify; lra.
Qed.

Lemma Rlog_upper (b x : R) (p q : nat) :
  1 < b -> 0 < x -> (0 < q)%nat -> x ^ q < b ^ p -> Rlog b x < INR p / INR q.
Proof.
  intros Hb Hx Hq Hpow.
  assert (Hlnb : 0 < ln b) by (rewrite <- ln_1; apply ln_increasing; lra).
  assert (Hq' : 0 < INR q) by now apply lt_0_INR.
  apply ln_increasing in Hpow; [| apply pow_lt; lra].
  rewrite !ln_pow in Hpow by lra.
  unfold Rlog.
  apply Rmult_lt_reg_r with (INR q * ln b); [now apply Rmult_lt_0_compat |].
  field_simplify; lra.
Qed.

(** [2 ^ 569 < 3 ^ 359] and [3 ^ 306 < 2 ^ 485]. *)
Lemma log2_3_bounds : 569 / 359 < Rlog 2 3 < 485 / 306.
Proof.
  split.
  - replace (569 / 359) with (INR 569 / INR 359)
      by (rewrite !INR_IZR_INZ; reflexivity).
    apply Rlog_lower; [lra | lra | lia |].
    apply (pow_lt_Z 2 3). vm_compute. reflexivity.
  - replace (485 / 306) with (INR 485 / INR 306)
      by (rewrite !INR_IZR_INZ; reflexivity).
    apply Rlog_upper; [lra | lra | lia |].
    apply (pow_lt_Z 3 2). vm_compute. reflexivity.
Qed.

End LogBounds.

(** ** [calculateWeightage]: the two paths *)

Lemma calculateWeightage_below t a s m :
  (t <? m) = true -> calculateWeightage t a s m = Normal zeroWeightage.
Proof.
  intros H. unfold calculateWeightage, calculateWeightage_try. now rewrite H.
Qed.

Lemma calculateWeightage_not_below t a s m :
  (t <? m) = false ->
  calculateWeightage t a s m =
  Normal {| Weightage.balanceWeight := tokenBalanceWeight t m;
            Weightage.earlyBonus := earlyBonus (a / #24);
            Weightage.tenureBonus := tenureBonus ((s - a) / #24);
            Weightage.timeWeight :=
              earlyBonus (a / #24) * tenureBonus ((s - a) / #24);
            Weightage.totalWeight :=
              tokenBalanceWeight t m
              * (earlyBonus (a / #24) * tenureBonus ((s - a) / #24));
            Weightage.hoursSinceLaunch := a;
            Weightage.hoursHeld := s - a;
            Weightage.qualified := true |}.
Proof.
  intros H. unfold calculateWeightage, calculateWeightage_try. now rewrite H.
Qed.

Lemma calculateWeightage_total t a s m :
  exists w, calculateWeightage t a s m = Normal w.
Proof.
  destruct (t <? m) eqn:H.
  - eexists. now apply calculateWeightage_below.
  - eexists. now apply calculateWeightage_not_below.
Qed.

(** C3.  [calculateWeightage] returns [qualified = false] if and only if
    [tokens < minBalance]; the record it returns then has every weight field,
    [hoursSinceLaunch] and [hoursHeld] at [0].  The [try] block never throws,
    so the [catch] clause is no second way to a disqualified result. *)
Theorem disqualified_iff_below t a s m :
  exists w,
    calculateWeightage t a s m = Normal w
    /\ (Weightage.qualified w = false <-> (t <? m) = true)
    /\ ((t <? m) = true ->
        w = {| Weightage.balanceWeight := #0;
               Weightage.earlyBonus := #0;
               Weightage.tenureBonus := #0;
               Weightage.timeWeight := #0;
               Weightage.totalWeight := #0;
               Weightage.hoursSinceLaunch := #0;
               Weightage.hoursHeld := #0;
               Weightage.qualified := false |})
    /\ (exists w', calculateWeightage_try t a s m = Normal w').
Proof.
  destruct (t <? m) eqn:Hlt.
  - exists zeroWeightage. split; [now apply calculateWeightage_below |].
    split; [now split |]. split; [reflexivity |].
    unfold calculateWeightage_try. rewrite Hlt. now eexists.
  - eexists. split; [now apply calculateWeightage_not_below |].
    cbn [Weightage.qualified].
    split; [split; discriminate |]. split; [discriminate |].
    unfold calculateWeightage_try. rewrite Hlt. now eexists.
Qed.

(** C10.  For every input that is not below the threshold
    ([tokens < minBalance] is false) [calculateWeightage] returns a qualified
    record whose field named [hoursSinceLaunch] holds the [hoursAfterLaunch]
    argument, whatever the [hoursSinceLaunch] argument is; for every input
    below the threshold the record is not qualified and the field is [0]. *)
Theorem hoursSinceLaunch_field t a s m :
  exists w,
    calculateWeightage t a s m = Normal w
    /\ ((t <? m) = false ->
        Weightage.qualified w = true /\ Weightage.hoursSinceLaunch w = a)
    /\ ((t <? m) = true ->
        Weightage.qualified w = false /\ Weightage.hoursSinceLaunch w = #0).
Proof.
  destruct (t <? m) eqn:Hlt.
  - exists zeroWeightage. split; [now apply calculateWeightage_below |].
    split; [discriminate | split; reflexivity].
  - eexists. split; [now apply calculateWeightage_not_below |].
    split; [split; reflexivity | discriminate].
Qed.

(** C2, as the code has it.  For every input with [tokens >= minBalance],
    [calculateWeightage] returns [qualified = true] with
    [balanceWeight = 1 + log10 (tokens / minBalance)],
    [earlyBonus = 1 + 2 * exp (- (hoursAfterLaunch / 24) / 2)],
    [tenureBonus = 1 + 0.6 * log2 ((hoursSinceLaunch - hoursAfterLaunch) / 24 + 1)],
    [timeWeight = earlyBonus * tenureBonus] and
    [totalWeight = balanceWeight * timeWeight], the product
    [balanceWeight * (earlyBonus * tenureBonus)] taken in this order.  When
    [tokens] equals a finite [minBalance] that is not zero, [balanceWeight]
    is [1]; when both are [0], it is [NaN]. *)
Theorem calculateWeightage_formulas t a s m :
  (t >=? m) = true ->
  exists w,
    calculateWeightage t a s m = Normal w
    /\ Weightage.qualified w = true
    /\ Weightage.balanceWeight w = #1 + Num.log10 (t / m)
    /\ Weightage.earlyBonus w = #1 + #2 * Num.exp (- (a / #24) / #2)
    /\ Weightage.tenureBonus w = #1 + #0.6 * Num.log2 ((s - a) / #24 + #1)
    /\ Weightage.timeWeight w = Weightage.earlyBonus w * Weightage.tenureBonus w
    /\ Weightage.totalWeight w
       = Weightage.balanceWeight w * Weightage.timeWeight w
    /\ Weightage.totalWeight w
       = Weightage.balanceWeight w
         * (Weightage.earlyBonus w * Weightage.tenureBonus w)
    /\ (forall r, m = #r -> r <> 0%R -> t = m -> Weightage.balanceWeight w = #1)
    /\ (m = #0 -> t = #0 -> Weightage.balanceWeight w = NaN).
Proof.
  intros Hge. apply NumFacts.geb_ltb in Hge.
  eexists. split; [now apply calculateWeightage_not_below |].
  cbn [Weightage.qualified Weightage.balanceWeight Weightage.earlyBonus
       Weightage.tenureBonus Weightage.timeWeight Weightage.totalWeight].
  do 7 (split; [reflexivity |]). split.
  - intros r -> Hr ->. unfold tokenBalanceWeight, Num.log10.
    rewrite NumFacts.div_Fin by assumption.
    replace (r / r)%R with 1%R by now field.
    rewrite NumFacts.log_Fin by lra. rewrite NumFacts.Rlog_1.
    cbn [Num.add]. f_equal. lra.
  - intros -> ->. unfold tokenBalanceWeight, Num.log10, Num.div.
    rewrite !NumFacts.Rltb_false by lra. cbn [orb].
    rewrite NumFacts.signed_inf_zero. reflexivity.
Qed.

Lemma calculateWeightage_formulas_witness :
  exists w,
    calculateWeightage #20000 #12 #12 #20000 = Normal w
    /\ Weightage.qualified w = true
    /\ Weightage.balanceWeight w = #1 + Num.log10 (#20000 / #20000)
    /\ Weightage.earlyBonus w = #1 + #2 * Num.exp (- (#12 / #24) / #2)
    /\ Weightage.tenureBonus w = #1 + #0.6 * Num.log2 ((#12 - #12) / #24 + #1)
    /\ Weightage.timeWeight w = Weightage.earlyBonus w * Weightage.tenureBonus w
    /\ Weightage.totalWeight w
       = Weightage.balanceWeight w * Weightage.timeWeight w
    /\ Weightage.totalWeight w
       = Weightage.balanceWeight w
         * (Weightage.earlyBonus w * Weightage.tenureBonus w)
    /\ (forall r, #20000 = #r -> r <> 0%R -> #20000 = #20000 ->
        Weightage.balanceWeight w = #1)
    /\ (#20000 = #0 -> #20000 = #0 -> Weightage.balanceWeight w = NaN).
Proof.
  apply (calculateWeightage_formulas #20000 #12 #12 #20000).
  apply NumFacts.Rleb_true. lra.
Defined.

Section BoundaryCounterexample.
Import PrimFloat.

(** C2, as the specification has it, fails at the boundary it names: with
    [tokens = minBalance = 0] the holder is qualified and the ratio
    [0 / 0] is [NaN], so [balanceWeight] is [NaN] and not [1].  And in
    binary64 the product of the three factors taken from the left is not the
    [totalWeight] of the code, which multiplies [balanceWeight] by the
    rounded [timeWeight]: for [tokens = 2000000], [minBalance = 20000] and a
    purchase at the launch held for a day, an engine with
    [Math.log10 100 = 2] and [Math.log2 2 = 1] returns 14.400000000000002,
    and the product from the left is 14.4. *)
Lemma boundary_weight_counterexample :
  ((#0 >=? #0) = true
   /\ exists w,
        calculateWeightage #0 #12 #12 #0 = Normal w
        /\ Weightage.qualified w = true
        /\ Weightage.balanceWeight w = NaN
        /\ Weightage.balanceWeight w <> #1)
  /\ (forall M, B64.ecmascript M ->
        B64.Math.log10 M 100%float = 2%float ->
        B64.Math.log2 M 2%float = 1%float ->
        exists w,
          B64.calculateWeightage M 2000000%float 0%float 24%float 20000%float
          = Normal w
          /\ B64.Weightage.qualified w = true
          /\ B64.Weightage.totalWeight w = 0x1.ccccccccccccep+3%float
          /\ (B64.Weightage.balanceWeight w * B64.Weightage.earlyBonus w
              * B64.Weightage.tenureBonus w)%float
             = 0x1.ccccccccccccdp+3%float
          /\ (B64.Weightage.balanceWeight w * B64.Weightage.earlyBonus w
              * B64.Weightage.tenureBonus w
              <? B64.Weightage.totalWeight w)%float = true).
Proof.
  split.
  - split; [apply NumFacts.Rleb_true; lra |].
    eexists.
    split;
      [apply calculateWeightage_not_below; apply NumFacts.Rltb_false; lra |].
    cbn [Weightage.qualified Weightage.balanceWeight].
    split; [reflexivity |].
    assert (H : tokenBalanceWeight #0 #0 = NaN).
    { unfold tokenBalanceWeight, Num.log10, Num.div.
      rewrite !NumFacts.Rltb_false by lra. cbn [orb].
      rewrite NumFacts.signed_inf_zero. reflexivity. }
    rewrite H. split; [reflexivity | discriminate].
  - intros M HM H10 H2.
    destruct (B64Facts.product_order_matters M HM H10 H2)
      as [w [Hcalc [Hq [_ [Htot Hleft]]]]].
    exists w. split; [exact Hcalc |]. split; [exact Hq |].
    split; [exact Htot |]. split; [exact Hleft |].
    rewrite Hleft, Htot. reflexivity.
Qed.

End BoundaryCounterexample.

(** ** The formulas on finite arguments *)

Section RealValues.
Import NumFacts.
Local Open Scope R_scope.

Lemma tokenBalanceWeight_real t m :
  0 < m -> m <= t ->
  tokenBalanceWeight (Fin t) (Fin m) = Fin (1 + Rlog 10 (t / m))
  /\ 1 <= 1 + Rlog 10 (t / m).
Proof.
  intros Hm Ht.
  assert (1 <= t / m).
  { apply Rmult_le_reg_r with m; [assumption |]. field_simplify; lra. }
  unfold tokenBalanceWeight, Num.log10.
  rewrite div_Fin by lra. rewrite log_Fin by lra. simpl. split; [reflexivity |].
  pose proof (Rlog_nonneg 10 _ ln_10_pos H). lra.
Qed.

Lemma earlyBonus_real d :
  earlyBonus (Fin d) = Fin (1 + 2 * exp (- d / 2)).
Proof.
  unfold earlyBonus. cbn [Num.neg]. rewrite div_Fin by lra. reflexivity.
Qed.

Lemma tenureBonus_real d :
  -1 < d ->
  tenureBonus (Fin d) = Fin (1 + 0.6 * Rlog 2 (d + 1)).
Proof.
  intros Hd. unfold tenureBonus, Num.log2. cbn [Num.add].
  rewrite log_Fin by lra. reflexivity.
Qed.

Lemma tenureBonus_ge_1 d : 0 <= d -> 1 <= 1 + 0.6 * Rlog 2 (d + 1).
Proof.
  intros Hd.
  assert (0 <= Rlog 2 (d + 1)) by (apply Rlog_nonneg; [apply ln_2_pos | lra]).
  lra.
Qed.

Lemma earlyBonus_gt_1 d : 1 < 1 + 2 * exp (- d / 2).
Proof. pose proof (exp_pos (- d / 2)). lra. Qed.

Lemma earlyBonus_decreasing d1 d2 :
  d1 < d2 -> 1 + 2 * exp (- d2 / 2) < 1 + 2 * exp (- d1 / 2).
Proof.
  intros H.
  assert (exp (- d2 / 2) < exp (- d1 / 2)) by (apply exp_increasing; lra).
  lra.
Qed.

(** Beyond [- 2 * ln (eps / 2)] the early bonus is within [eps] of [1]. *)
Lemma earlyBonus_limit eps :
  0 < eps ->
  exists D, forall d, D < d -> 1 < 1 + 2 * exp (- d / 2) < 1 + eps.
Proof.
  intros Heps. exists (- 2 * ln (eps / 2)). intros d Hd.
  split; [apply earlyBonus_gt_1 |].
  assert (exp (- d / 2) < exp (ln (eps / 2))) by (apply exp_increasing; lra).
  rewrite exp_ln in H by lra. lra.
Qed.

Lemma tenureBonus_increasing d1 d2 :
  0 <= d1 -> d1 < d2 ->
  1 + 0.6 * Rlog 2 (d1 + 1) < 1 + 0.6 * Rlog 2 (d2 + 1).
Proof.
  intros H1 H12.
  assert (Rlog 2 (d1 + 1) < Rlog 2 (d2 + 1))
    by (apply Rlog_increasing; [apply ln_2_pos | lra | lra]).
  lra.
Qed.

End RealValues.

(** C9, as the code has it.  A qualified holder's bonuses are [earlyBonus]
    of [hoursAfterLaunch / 24] and [tenureBonus] of
    [(hoursSinceLaunch - hoursAfterLaunch) / 24].  The early bonus is [3] at
    [daysSinceLaunch = 0]; on [daysSinceLaunch >= 0] it never increases and
    never goes below [1], it comes as close to [1] as wanted when
    [daysSinceLaunch] grows, and it is [1] at [Infinity].  The tenure bonus is
    [1] at [daysHeld = 0]; on [daysHeld >= 0] it never decreases.  Nothing
    here is strict. *)
Theorem bonus_shapes :
  (forall t a s m w,
      (t <? m) = false -> calculateWeightage t a s m = Normal w ->
      Weightage.earlyBonus w = earlyBonus (a / #24)
      /\ Weightage.tenureBonus w = tenureBonus ((s - a) / #24))
  /\ earlyBonus #0 = #3
  /\ (forall d1 d2 : R, (0 <= d1)%R -> (d1 <= d2)%R ->
        exists e1 e2, earlyBonus #d1 = #e1 /\ earlyBonus #d2 = #e2
                      /\ (1 <= e2 <= e1)%R /\ (e1 <= 3)%R)
  /\ (forall eps : R, (0 < eps)%R ->
        exists D : R, forall d : R, (D <= d)%R ->
          exists e, earlyBonus #d = #e /\ (1 <= e <= 1 + eps)%R)
  /\ earlyBonus PInf = #1
  /\ tenureBonus #0 = #1
  /\ (forall d1 d2 : R, (0 <= d1)%R -> (d1 <= d2)%R ->
        exists b1 b2, tenureBonus #d1 = #b1 /\ tenureBonus #d2 = #b2
                      /\ (1 <= b1 <= b2)%R).
Proof.
  split.
  { intros t a s m w Hlt Hw.
    rewrite calculateWeightage_not_below in Hw by assumption.
    injection Hw as <-. split; reflexivity. }
  split.
  { rewrite earlyBonus_real. f_equal.
    replace (- 0 / 2)%R with 0%R by lra. rewrite exp_0. lra. }
  split.
  { intros d1 d2 H1 H12. do 2 eexists.
    split; [apply earlyBonus_real |]. split; [apply earlyBonus_real |].
    pose proof (earlyBonus_gt_1 d2) as Hgt.
    assert (Hle : (1 + 2 * exp (- d2 / 2) <= 1 + 2 * exp (- d1 / 2))%R).
    { destruct (Req_dec d1 d2) as [-> | Hne]; [lra |].
      left. apply earlyBonus_decreasing. lra. }
    assert (H3 : (1 + 2 * exp (- d1 / 2) <= 3)%R).
    { destruct (Req_dec d1 0) as [-> | Hne].
      - replace (- 0 / 2)%R with 0%R by lra. rewrite exp_0. lra.
      - assert (exp (- d1 / 2) < exp 0)%R by (apply exp_increasing; lra).
        rewrite exp_0 in H. lra. }
    lra. }
  split.
  { intros eps Heps. destruct (earlyBonus_limit eps Heps) as [D HD].
    exists (D + 1)%R. intros d Hd. eexists. split; [apply earlyBonus_real |].
    assert (HdD : (D < d)%R) by lra. specialize (HD d HdD). lra. }
  split.
  { unfold earlyBonus. cbn [Num.neg].
    unfold Num.div. rewrite NumFacts.Rltb_false by lra.
    cbn [Num.exp Num.mul Num.add]. f_equal. lra. }
  split.
  { rewrite tenureBonus_real by lra. f_equal.
    replace (0 + 1)%R with 1%R by lra. rewrite NumFacts.Rlog_1. lra. }
  intros d1 d2 H1 H12. do 2 eexists.
  split; [apply tenureBonus_real; lra |].
  split; [apply tenureBonus_real; lra |].
  pose proof (tenureBonus_ge_1 d1 H1) as Hge.
  destruct (Req_dec d1 d2) as [-> | Hne]; [lra |].
  assert (1 + 0.6 * Rlog 2 (d1 + 1) < 1 + 0.6 * Rlog 2 (d2 + 1))%R
    by (apply tenureBonus_increasing; lra).
  lra.
Qed.

Section BonusPlateaus.
Import PrimFloat.
Local Open Scope float_scope.

(** C9, as the specification has it, fails in binary64, whatever values the
    engine gives to [Math.exp] and [Math.log2] where ECMAScript leaves them
    open: the early bonus is [3] at [daysSinceLaunch = 0] and at
    [daysSinceLaunch = 2^-1074], and the tenure bonus is [1] at
    [daysHeld = 0] and at [daysHeld = 2^-60].  Neither is strictly
    monotone. *)
Lemma bonus_plateaus_counterexample :
  (forall M, B64.ecmascript M ->
     (0 <? 0x1p-1074) = true
     /\ B64.earlyBonus M 0 = 3
     /\ B64.earlyBonus M 0x1p-1074 = 3
     /\ exists w,
          B64.calculateWeightage M 20000 (24 * 0x1p-1074) 48 20000 = Normal w
          /\ B64.Weightage.qualified w = true
          /\ B64.Weightage.earlyBonus w = B64.earlyBonus M 0x1p-1074)
  /\ (forall M, B64.ecmascript M ->
       (0 <? 0x1p-60) = true
       /\ B64.tenureBonus M 0 = 1
       /\ B64.tenureBonus M 0x1p-60 = 1
       /\ exists w,
            B64.calculateWeightage M 20000 0 (24 * 0x1p-60) 20000 = Normal w
            /\ B64.Weightage.qualified w = true
            /\ B64.Weightage.tenureBonus w = B64.tenureBonus M 0x1p-60).
Proof.
  split; intros M HM.
  - exact (B64Facts.earlyBonus_plateau M HM).
  - exact (B64Facts.tenureBonus_plateau M HM).
Qed.

End BonusPlateaus.

(** ** [calculateDistribution]: the eligible set *)

Lemma calculateWeightage_weightageOf h :
  calculateWeightage (Holder.tokens h) (Holder.hoursAfterLaunch h)
                     (Holder.hoursSinceLaunch h) (Holder.minBalance h)
  = Normal (weightageOf h).
Proof.
  unfold weightageOf.
  destruct (calculateWeightage_total
              (Holder.tokens h) (Holder.hoursAfterLaunch h)
              (Holder.hoursSinceLaunch h) (Holder.minBalance h)) as [w ->].
  reflexivity.
Qed.

Lemma mapM_withWeightage holders :
  mapM withWeightage holders
  = Normal (map (fun holder => (holder, weightageOf holder)) holders).
Proof.
  induction holders as [| h holders IH]; [reflexivity |].
  simpl. unfold withWeightage at 1.
  rewrite calculateWeightage_weightageOf. simpl. now rewrite IH.
Qed.

(** The early return on an empty set of valid holders returns what the
    general path would: both filters of an empty array are empty. *)
Lemma calculateDistribution_eligible holders T f :
  calculateDistribution holders T f
  = Normal (filter (fun result => Allocation.amount result >=? dust)
                   (distributionResults (eligibleHolders holders) T
                                        (default_arg #0.05 f))).
Proof.
  unfold calculateDistribution. rewrite mapM_withWeightage. simpl.
  fold (eligibleHolders holders).
  destruct (eligibleHolders holders) as [| e l]; reflexivity.
Qed.

Lemma weightageOf_qualified_not_below h :
  Weightage.qualified (weightageOf h) = true ->
  (Holder.tokens h <? Holder.minBalance h) = false.
Proof.
  unfold weightageOf.
  destruct (Holder.tokens h <? Holder.minBalance h) eqn:Hlt; [| reflexivity].
  rewrite calculateWeightage_below by assumption. discriminate.
Qed.

Lemma eligibleHolders_In e holders :
  In e (eligibleHolders holders) ->
  exists h, In h holders /\ e = (h, weightageOf h) /\ eligible e = true.
Proof.
  unfold eligibleHolders. intros He. apply filter_In in He.
  destruct He as [He Hel]. apply in_map_iff in He.
  destruct He as [h [<- Hh]]. now exists h.
Qed.

(** A holder below its minimum or above its maximum is not eligible. *)
Lemma not_eligible h :
  (Holder.tokens h <? Holder.minBalance h) = true
  \/ (Holder.maxBalance h <? Holder.tokens h) = true ->
  eligible (h, weightageOf h) = false.
Proof.
  unfold eligible. cbn [fst snd]. intros [Hmin | Hmax].
  - unfold weightageOf. rewrite calculateWeightage_below by assumption.
    reflexivity.
  - rewrite (NumFacts.ltb_leb_false _ _ Hmax). apply andb_false_r.
Qed.

Lemma eligibleHolders_none holders :
  (forall h, In h holders ->
             (Holder.tokens h <? Holder.minBalance h) = true
             \/ (Holder.maxBalance h <? Holder.tokens h) = true) ->
  eligibleHolders holders = [].
Proof.
  intros Hall. unfold eligibleHolders.
  induction holders as [| h holders IH]; [reflexivity |].
  cbn [map filter].
  rewrite (not_eligible h (Hall h (or_introl eq_refl))).
  apply IH. intros h' Hh'. apply Hall. now right.
Qed.

(** C7.  When every holder of the list is below its minimum balance or above
    its maximum balance (an empty list among them), [calculateDistribution]
    completes normally with the empty array. *)
Theorem no_eligible_holder_no_allocation holders totalTreasury feeReserve :
  (forall h, In h holders ->
             (Holder.tokens h <? Holder.minBalance h) = true
             \/ (Holder.maxBalance h <? Holder.tokens h) = true) ->
  calculateDistribution holders totalTreasury feeReserve = Normal [].
Proof.
  intros Hall. rewrite calculateDistribution_eligible.
  rewrite (eligibleHolders_none holders Hall). reflexivity.
Qed.

Lemma no_eligible_holder_no_allocation_witness :
  calculateDistribution [] #10 (Some #0.05) = Normal []
  /\ calculateDistribution
       [ Holder.mk "below" #100 #0 #48 #20000 #100000000;
         Holder.mk "above" #200000000 #0 #48 #20000 #100000000 ]
       #10 None
     = Normal [].
Proof.
  split.
  - apply (no_eligible_holder_no_allocation [] #10 (Some #0.05)).
    intros h [].
  - apply (no_eligible_holder_no_allocation
             [ Holder.mk "below" #100 #0 #48 #20000 #100000000;
               Holder.mk "above" #200000000 #0 #48 #20000 #100000000 ]
             #10 None).
    intros h [<- | [<- | []]]; cbn [Holder.tokens Holder.minBalance
                                     Holder.maxBalance].
    + left. apply NumFacts.Rltb_true. lra.
    + right. apply NumFacts.Rltb_true. lra.
Defined.

(** A qualified holder whose total weight is not [NaN] has a balance and a
    threshold that are not [NaN]. *)
Lemma totalWeight_not_NaN h :
  Weightage.qualified (weightageOf h) = true ->
  Weightage.totalWeight (weightageOf h) <> NaN ->
  Holder.tokens h <> NaN /\ Holder.minBalance h <> NaN.
Proof.
  intros Hq. pose proof (weightageOf_qualified_not_below h Hq) as Hlt.
  unfold weightageOf. rewrite calculateWeightage_not_below by assumption.
  cbn [Weightage.totalWeight]. intros Hw.
  apply NumFacts.mul_not_NaN in Hw. destruct Hw as [Hbw _].
  unfold tokenBalanceWeight in Hbw.
  apply NumFacts.add_not_NaN in Hbw. destruct Hbw as [_ Hlog].
  apply NumFacts.log_not_NaN in Hlog.
  now apply NumFacts.div_not_NaN in Hlog.
Qed.

(** ** The scenario of the specification *)

Lemma scenario_weightage :
  calculateWeightage #20000 #0 #48 #20000 = Normal scenarioWeightage.
Proof.
  rewrite calculateWeightage_not_below by (apply NumFacts.Rltb_false; lra).
  destruct (tokenBalanceWeight_real 20000 20000) as [-> _]; [lra | lra |].
  cbn [Num.sub Num.neg Num.add].
  rewrite !NumFacts.div_Fin by lra.
  rewrite earlyBonus_real, tenureBonus_real by lra.
  cbn [Num.mul].
  replace (20000 / 20000)%R with 1%R by lra.
  rewrite NumFacts.Rlog_1.
  replace (- (0 / 24) / 2)%R with 0%R by lra. rewrite exp_0.
  replace ((48 + - 0) / 24 + 1)%R with 3%R by lra.
  unfold scenarioWeightage. repeat f_equal; lra.
Qed.

Lemma scenario_tenureBonus_bounds :
  (1.950974 < 1 + 0.6 * Rlog 2 3 < 1.950981)%R.
Proof. pose proof log2_3_bounds. lra. Qed.

(** A single valid holder of finite positive weight takes the whole
    distributable amount. *)
Lemma distributionResults_single h w tw T f avail :
  Weightage.totalWeight w = #tw -> (0 < tw)%R ->
  T - T * f = #avail ->
  distributionResults [(h, w)] T f
  = [ {| Allocation.address := Holder.address h;
         Allocation.tokens := Holder.tokens h;
         Allocation.weightage := w;
         Allocation.share := #1;
         Allocation.amount := #avail;
         Allocation.sharePercentage := #100 |} ].
Proof.
  intros Hw Htw Havail. unfold distributionResults, reduce_sum.
  cbn [fold_left map fst snd]. rewrite Hw, Havail. cbn [Num.add].
  rewrite NumFacts.div_Fin by lra.
  replace (tw / (0 + tw))%R with 1%R by (field; lra).
  cbn [Num.mul]. repeat f_equal; lra.
Qed.

Lemma scenario_available : #10 - #10 * #0.05 = #9.5.
Proof. cbn. f_equal. lra. Qed.

Lemma scenario_distribution address maxBalance :
  (#20000 <=? maxBalance) = true ->
  calculateDistribution [scenarioHolder address maxBalance] #10 (Some #0.05)
  = Normal [scenarioAllocation address].
Proof.
  intros Hmax. pose proof scenario_tenureBonus_bounds as Hb.
  rewrite calculateDistribution_eligible.
  unfold eligibleHolders, eligible, weightageOf, scenarioHolder.
  cbn [map filter fst snd Holder.tokens Holder.hoursAfterLaunch
       Holder.hoursSinceLaunch Holder.minBalance Holder.maxBalance].
  rewrite scenario_weightage.
  change (Weightage.qualified scenarioWeightage) with true. cbn [andb].
  rewrite Hmax. cbn [default_arg].
  erewrite distributionResults_single;
    [| reflexivity | lra | exact scenario_available].
  cbn [filter Allocation.amount].
  replace (#9.5 >=? dust) with true
    by (symmetry; apply NumFacts.Rleb_true; lra).
  reflexivity.
Qed.

(** ** [calculateDistribution]: who receives an allocation *)

(** C4.  Every allocation [calculateDistribution] returns belongs to a holder
    of the input, carries that holder's weightage, and that holder is
    qualified ([tokens >= minBalance]), has [tokens <= maxBalance], and the
    amount computed for it, [availableForDistribution * share], is
    [>= 0.000001]. *)
Theorem allocation_only_for_eligible holders totalTreasury feeReserve results :
  calculateDistribution holders totalTreasury feeReserve = Normal results ->
  forall r, In r results ->
  exists h,
    In h holders
    /\ Allocation.address r = Holder.address h
    /\ Allocation.tokens r = Holder.tokens h
    /\ calculateWeightage (Holder.tokens h) (Holder.hoursAfterLaunch h)
                          (Holder.hoursSinceLaunch h) (Holder.minBalance h)
       = Normal (Allocation.weightage r)
    /\ Weightage.qualified (Allocation.weightage r) = true
    /\ (Holder.tokens h >=? Holder.minBalance h) = true
    /\ (Holder.tokens h <=? Holder.maxBalance h) = true
    /\ Allocation.amount r
       = (totalTreasury - totalTreasury * default_arg #0.05 feeReserve)
         * Allocation.share r
    /\ (Allocation.amount r >=? #0.000001) = true.
Proof.
  rewrite calculateDistribution_eligible. intros Heq r Hr.
  injection Heq as <-. apply filter_In in Hr. destruct Hr as [Hr Hkeep].
  change ((Allocation.amount r >=? dust) = true) in Hkeep.
  assert (Hamount : Allocation.amount r <> NaN)
    by exact (proj2 (NumFacts.leb_not_NaN dust (Allocation.amount r) Hkeep)).
  unfold distributionResults in Hr. apply in_map_iff in Hr.
  destruct Hr as [e [<- He]].
  apply eligibleHolders_In in He. destruct He as [h [Hh [-> Hel]]].
  cbn [Allocation.address Allocation.tokens Allocation.weightage
       Allocation.amount Allocation.share fst snd] in Hamount |- *.
  unfold eligible in Hel. cbn [fst snd] in Hel.
  apply andb_prop in Hel. destruct Hel as [Hq Hmax].
  exists h. repeat split; try assumption.
  - apply calculateWeightage_weightageOf.
  - apply NumFacts.mul_not_NaN in Hamount. destruct Hamount as [_ Hshare].
    apply NumFacts.div_not_NaN in Hshare. destruct Hshare as [Hw _].
    destruct (totalWeight_not_NaN h Hq Hw) as [Ht Hm].
    apply NumFacts.ltb_false_geb; try assumption.
    now apply weightageOf_qualified_not_below.
Qed.

Lemma allocation_only_for_eligible_witness :
  exists h,
    In h [scenarioHolder "holder" #100000000]
    /\ Allocation.address (scenarioAllocation "holder") = Holder.address h
    /\ Allocation.tokens (scenarioAllocation "holder") = Holder.tokens h
    /\ calculateWeightage (Holder.tokens h) (Holder.hoursAfterLaunch h)
                          (Holder.hoursSinceLaunch h) (Holder.minBalance h)
       = Normal (Allocation.weightage (scenarioAllocation "holder"))
    /\ Weightage.qualified (Allocation.weightage (scenarioAllocation "holder"))
       = true
    /\ (Holder.tokens h >=? Holder.minBalance h) = true
    /\ (Holder.tokens h <=? Holder.maxBalance h) = true
    /\ Allocation.amount (scenarioAllocation "holder")
       = (#10 - #10 * default_arg #0.05 (Some #0.05))
         * Allocation.share (scenarioAllocation "holder")
    /\ (Allocation.amount (scenarioAllocation "holder") >=? #0.000001) = true.
Proof.
  apply (allocation_only_for_eligible
           [scenarioHolder "holder" #100000000] #10 (Some #0.05)
           [scenarioAllocation "holder"]).
  - apply scenario_distribution. apply NumFacts.Rleb_true. lra.
  - left. reflexivity.
Defined.

(** ** [calculateDistribution]: the shares *)

Section Sums.
Import NumFacts.
Local Open Scope R_scope.
Context {A : Type}.

Lemma fold_sum_Fin (f : A -> num) (l : list A) (a : R) :
  Forall (fun x => Num.finite (f x)) l ->
  fold_left (fun sum x => (sum + f x)%js) l (Fin a)
  = Fin (a + Rsum (map (fun x => Num.real_of (f x)) l)).
Proof.
  intros Hl. revert a.
  induction Hl as [| x l [r Hx] _ IH]; intros a; simpl.
  - f_equal. lra.
  - rewrite Hx. simpl. rewrite IH. f_equal. lra.
Qed.

(** On finite terms the accumulated sum is the sum of the reals. *)
Lemma reduce_sum_Fin (f : A -> num) (l : list A) :
  Forall (fun x => Num.finite (f x)) l ->
  reduce_sum f l = Fin (Rsum (map (fun x => Num.real_of (f x)) l)).
Proof.
  intros Hl. unfold reduce_sum. rewrite fold_sum_Fin by assumption.
  f_equal. lra.
Qed.

Lemma Rsum_pos (q : A -> R) (l : list A) :
  Forall (fun x => 0 < q x) l -> l <> [] -> 0 < Rsum (map q l).
Proof.
  intros Hl. induction Hl as [| x l Hx Hl IH]; [congruence |].
  intros _. simpl. destruct l as [| y l].
  - simpl. lra.
  - assert (0 < Rsum (map q (y :: l))) by (apply IH; discriminate). lra.
Qed.

(** Dropping elements of positive value lowers the sum, and keeps it only
    when nothing is dropped. *)
Lemma Rsum_filter (q : A -> R) (p : A -> bool) (l : list A) :
  Forall (fun x => 0 < q x) l ->
  Rsum (map q (filter p l)) <= Rsum (map q l)
  /\ (Rsum (map q (filter p l)) = Rsum (map q l)
      <-> Forall (fun x => p x = true) l).
Proof.
  induction 1 as [| x l Hx Hl [IHle IHeq]]; simpl.
  - split; [lra | split; auto].
  - destruct (p x) eqn:Hp; simpl.
    + split; [lra |]. split.
      * intros Heq. constructor; [assumption |]. apply IHeq. lra.
      * intros Hall. inversion Hall; subst.
        f_equal. now apply IHeq.
    + split; [lra |]. split.
      * intros Heq. lra.
      * intros Hall. inversion Hall; congruence.
Qed.

End Sums.

(** With positive weights of total [W], every share is positive and the
    shares add up to the weights' sum over [W]. *)
Lemma distributionResults_shares validHolders T f W :
  Forall (fun e => exists w, Weightage.totalWeight (snd e) = Fin w /\ (0 < w)%R)
         validHolders ->
  reduce_sum (fun holder => Weightage.totalWeight (snd holder)) validHolders
  = Fin W ->
  (0 < W)%R ->
  Forall (fun r => exists q, Allocation.share r = Fin q /\ (0 < q)%R)
         (distributionResults validHolders T f)
  /\ Rsum (map (fun r => Num.real_of (Allocation.share r))
               (distributionResults validHolders T f))
     = (Rsum (map (fun e => Num.real_of (Weightage.totalWeight (snd e)))
                  validHolders) / W)%R.
Proof.
  intros Hpos HW HWpos. unfold distributionResults. rewrite HW. clear HW.
  generalize (T - T * f). intros avail.
  induction Hpos as [| e l [w [Hw Hwpos]] _ [IH1 IH2]];
    cbn [map Rsum Allocation.share].
  - split; [constructor | lra].
  - rewrite Hw. rewrite NumFacts.div_Fin by lra. split.
    + constructor; [| assumption]. cbn [Allocation.share].
      eexists. split; [reflexivity |]. now apply Rdiv_lt_0_compat.
    + cbn [Num.real_of]. rewrite IH2. lra.
Qed.

(** *** Weights that are positive or special *)

Section Special.
Import Num NumFacts.
Local Open Scope R_scope.

Lemma above_or_special_mul x y :
  above_or_special 0 x -> above_or_special 0 y ->
  above_or_special 0 (x * y)%js.
Proof.
  destruct x as [| | |a], y as [| | |b]; simpl; trivial; intros Ha Hb.
  - rewrite signed_inf_pos by assumption. exact I.
  - rewrite signed_inf_neg by lra. exact I.
  - rewrite signed_inf_pos by assumption. exact I.
  - rewrite signed_inf_neg by lra. exact I.
  - now apply Rmult_lt_0_compat.
Qed.

(** [1 + x] for an [x] that is [0] or more, or special. *)
Lemma above_or_special_succ x :
  match x with Fin r => 0 <= r | _ => True end ->
  above_or_special 0 (Fin 1 + x)%js.
Proof. destruct x; simpl; trivial. lra. Qed.

Lemma log_nonneg_or_special b x :
  0 < ln b ->
  match x with Fin r => 1 <= r | _ => True end ->
  match Num.log b x with Fin r => 0 <= r | _ => True end.
Proof.
  intros Hb. destruct x as [| | |a]; simpl; trivial. intros Ha.
  rewrite Rltb_false by lra. rewrite Rltb_true by lra.
  now apply Rlog_nonneg.
Qed.

(** The ratio of a balance to a non-negative threshold it is not below. *)
Lemma ratio_ge_1_or_special t m :
  (t <? m)%js = false -> (m <? Fin 0)%js = false ->
  match (t / m)%js with Fin r => 1 <= r | _ => True end.
Proof.
  destruct t as [| | |t], m as [| | |m]; simpl; trivial; try discriminate.
  - intros _ Hm. destruct (Rltb m 0); exact I.
  - intros Htm Hm.
    assert (Hm0 : 0 <= m).
    { destruct (Rlt_dec m 0) as [Hc | Hc]; [| lra].
      rewrite (Rltb_true _ _ Hc) in Hm. discriminate. }
    assert (Hmt : m <= t).
    { destruct (Rlt_dec t m) as [Hc | Hc]; [| lra].
      rewrite (Rltb_true _ _ Hc) in Htm. discriminate. }
    rewrite (Rltb_false m 0) by lra. cbn [orb].
    destruct (Rlt_dec 0 m) as [Hpos | Hzero].
    + rewrite (Rltb_true _ _ Hpos).
      apply Rmult_le_reg_r with m; [assumption |].
      unfold Rdiv. rewrite Rmult_assoc, Rinv_l by lra. lra.
    + rewrite (Rltb_false _ _ Hzero).
      destruct (signed_inf_cases t) as [[_ ->] | [[_ ->] | [_ ->]]]; exact I.
Qed.

Lemma tokenBalanceWeight_class t m :
  (t <? m)%js = false -> (m <? Fin 0)%js = false ->
  above_or_special 0 (tokenBalanceWeight t m).
Proof.
  intros Htm Hm. unfold tokenBalanceWeight, Num.log10.
  apply above_or_special_succ. apply log_nonneg_or_special.
  - apply ln_10_pos.
  - now apply ratio_ge_1_or_special.
Qed.

Lemma earlyBonus_class d : above_or_special 0 (earlyBonus d).
Proof.
  unfold earlyBonus. destruct d as [| | |d]; cbn [Num.neg].
  - exact I.
  - unfold Num.div. rewrite Rltb_false by lra. simpl. lra.
  - unfold Num.div. rewrite Rltb_false by lra. simpl.
    rewrite signed_inf_pos by lra. exact I.
  - rewrite div_Fin by lra. simpl. pose proof (exp_pos (- d / 2)). lra.
Qed.

Lemma tenureBonus_class s a :
  (s <? a)%js = false ->
  above_or_special 0 (tenureBonus ((s - a) / Fin 24)%js).
Proof.
  intros Hsa. unfold tenureBonus, Num.log2.
  assert (H : match ((s - a) / Fin 24 + Fin 1)%js with
              | Fin r => 1 <= r | _ => True end).
  { destruct s as [| | |s], a as [| | |a]; simpl in *; trivial;
      try discriminate;
      try (rewrite Rltb_false by lra; exact I).
    rewrite Rltb_false by lra. rewrite Rltb_true by lra. cbn [orb].
    assert (a <= s).
    { destruct (Rlt_dec s a) as [Hc | Hc]; [| lra].
      rewrite (Rltb_true _ _ Hc) in Hsa. discriminate. }
    cbn [Num.add]. lra. }
  pose proof (log_nonneg_or_special 2 _ ln_2_pos H) as Hlog.
  destruct (Num.log 2 ((s - a) / Fin 24 + Fin 1)%js) as [| | |l]; simpl; trivial.
  - rewrite signed_inf_pos by lra. exact I.
  - rewrite signed_inf_neg by lra. exact I.
  - lra.
Qed.

End Special.

(** An admissible qualified holder has a total weight that is positive or
    special. *)
Lemma totalWeight_class h :
  admissible h ->
  Weightage.qualified (weightageOf h) = true ->
  above_or_special 0 (Weightage.totalWeight (weightageOf h)).
Proof.
  intros [Hm Hsa] Hq.
  pose proof (weightageOf_qualified_not_below h Hq) as Hlt.
  unfold weightageOf. rewrite calculateWeightage_not_below by assumption.
  cbn [Weightage.totalWeight].
  apply above_or_special_mul; [now apply tokenBalanceWeight_class |].
  apply above_or_special_mul; [apply earlyBonus_class |].
  now apply tenureBonus_class.
Qed.

Lemma eligibleHolders_class holders :
  Forall admissible holders ->
  Forall (fun e => above_or_special 0 (Weightage.totalWeight (snd e)))
         (eligibleHolders holders).
Proof.
  intros Hadm. unfold eligibleHolders.
  induction Hadm as [| h holders Hh _ IH]; simpl; [constructor |].
  destruct (eligible (h, weightageOf h)) eqn:He; [| assumption].
  constructor; [| assumption].
  apply andb_prop in He. destruct He as [Hq _].
  now apply totalWeight_class.
Qed.

Section SpecialTotal.
Context {A : Type} (f : A -> num).

Lemma add_special_l x y : ~ Num.finite x -> ~ Num.finite (x + y).
Proof.
  intros Hx [r Hr]. apply Hx.
  destruct x, y; simpl in Hr; try discriminate. now eexists.
Qed.

Lemma add_special_r x y : ~ Num.finite y -> ~ Num.finite (x + y).
Proof.
  intros Hy [r Hr]. apply Hy.
  destruct x, y; simpl in Hr; try discriminate. now eexists.
Qed.

Lemma fold_sum_special_acc (l : list A) (acc : num) :
  ~ Num.finite acc ->
  ~ Num.finite (fold_left (fun sum x => sum + f x) l acc).
Proof.
  revert acc. induction l as [| x l IH]; intros acc Hacc; simpl; [assumption |].
  apply IH. now apply add_special_l.
Qed.

(** One special term makes the accumulated sum special. *)
Lemma fold_sum_special (l : list A) (acc : num) :
  Exists (fun x => ~ Num.finite (f x)) l ->
  ~ Num.finite (fold_left (fun sum x => sum + f x) l acc).
Proof.
  intros Hex. revert acc.
  induction Hex as [x l Hx | x l _ IH]; intros acc; simpl.
  - apply fold_sum_special_acc. now apply add_special_r.
  - apply IH.
Qed.

Lemma finite_or_special (l : list A) :
  Forall (fun x => Num.finite (f x)) l
  \/ Exists (fun x => ~ Num.finite (f x)) l.
Proof.
  induction l as [| x l [IH | IH]].
  - left. constructor.
  - destruct (f x) as [| | |r] eqn:Hx.
    + right. left. rewrite Hx. intros [r Hr]. discriminate.
    + right. left. rewrite Hx. intros [r Hr]. discriminate.
    + right. left. rewrite Hx. intros [r Hr]. discriminate.
    + left. constructor; [rewrite Hx; now eexists | assumption].
  - right. now right.
Qed.

End SpecialTotal.

(** Over a special total every share is [NaN] or [0], and no amount reaches
    the dust threshold. *)
Lemma amount_over_special_total avail w W :
  ~ Num.finite W -> (avail * (w / W) >=? dust) = false.
Proof.
  intros HW.
  assert (Hshare : w / W = NaN \/ w / W = #0).
  { destruct W as [| | |r]; [| | | exfalso; apply HW; now eexists];
      destruct w; simpl; auto. }
  unfold Num.geb.
  destruct Hshare as [-> | ->].
  - destruct avail; reflexivity.
  - destruct avail as [| | |a]; simpl; try reflexivity.
    + rewrite NumFacts.signed_inf_zero. reflexivity.
    + replace (- 0)%R with 0%R by lra.
      rewrite NumFacts.signed_inf_zero. reflexivity.
    + apply NumFacts.Rleb_false. lra.
Qed.

Lemma distributionResults_special_total validHolders T f :
  ~ Num.finite (reduce_sum (fun holder => Weightage.totalWeight (snd holder))
                           validHolders) ->
  Forall (fun r => (Allocation.amount r >=? dust) = false)
         (distributionResults validHolders T f).
Proof.
  intros HW. unfold distributionResults.
  apply Forall_forall. intros r Hr. apply in_map_iff in Hr.
  destruct Hr as [e [<- _]]. cbn [Allocation.amount].
  now apply amount_over_special_total.
Qed.

Lemma filter_none {A} (p : A -> bool) (l : list A) :
  Forall (fun x => p x = false) l -> filter p l = [].
Proof.
  induction 1 as [| x l Hx _ IH]; simpl; [reflexivity |].
  now rewrite Hx.
Qed.

Lemma distributionResults_nonempty validHolders T f :
  validHolders <> [] -> distributionResults validHolders T f <> [].
Proof.
  unfold distributionResults. destruct validHolders; [congruence | discriminate].
Qed.

(** Finite positive weights: the shares kept add up to at most [1], and to
    [1] when nothing is dropped. *)
Lemma shares_of_positive_weights E T fee :
  Forall (fun e => exists w, Weightage.totalWeight (snd e) = Fin w /\ (0 < w)%R)
         E ->
  E <> [] ->
  exists s,
    reduce_sum Allocation.share
      (filter (fun result => Allocation.amount result >=? dust)
              (distributionResults E T fee)) = Fin s
    /\ (s <= 1)%R
    /\ (s = 1%R <-> no_dust (distributionResults E T fee)).
Proof.
  intros Hpos Hne.
  set (tw := fun e : Weighted => Num.real_of (Weightage.totalWeight (snd e))).
  assert (HW : reduce_sum (fun holder => Weightage.totalWeight (snd holder)) E
               = Fin (Rsum (map tw E))).
  { apply reduce_sum_Fin. eapply Forall_impl; [| exact Hpos].
    intros e [w [Hw _]]. now exists w. }
  assert (HWpos : (0 < Rsum (map tw E))%R).
  { apply Rsum_pos; [| assumption]. eapply Forall_impl; [| exact Hpos].
    intros e [w [Hw Hwpos]]. unfold tw. now rewrite Hw. }
  destruct (distributionResults_shares E T fee _ Hpos HW HWpos)
    as [Hshares Hsum].
  assert (Hone : Rsum (map (fun r => Num.real_of (Allocation.share r))
                           (distributionResults E T fee)) = 1%R).
  { rewrite Hsum. apply Rdiv_diag. apply Rgt_not_eq. exact HWpos. }
  clear Hsum.
  set (DR := distributionResults E T fee) in *.
  set (keep := fun result => Allocation.amount result >=? dust).
  set (q := fun r => Num.real_of (Allocation.share r)) in *.
  assert (Hq : Forall (fun r => (0 < q r)%R) DR).
  { eapply Forall_impl; [| exact Hshares].
    intros r [x [Hx Hxpos]]. unfold q. now rewrite Hx. }
  destruct (Rsum_filter q keep DR Hq) as [Hle Heq].
  exists (Rsum (map q (filter keep DR))).
  split.
  { apply reduce_sum_Fin. apply Forall_forall. intros r Hr.
    apply filter_In in Hr. destruct Hr as [Hr _].
    rewrite Forall_forall in Hshares.
    destruct (Hshares r Hr) as [x [Hx _]]. now exists x. }
  rewrite Hone in Hle, Heq. split; [exact Hle | exact Heq].
Qed.

(** A special weight among the valid holders: every allocation is dropped,
    and the empty sum is [0]. *)
Lemma shares_of_special_weights E T fee :
  Exists (fun e => ~ Num.finite (Weightage.totalWeight (snd e))) E ->
  exists s,
    reduce_sum Allocation.share
      (filter (fun result => Allocation.amount result >=? dust)
              (distributionResults E T fee)) = Fin s
    /\ (s <= 1)%R
    /\ (s = 1%R <-> no_dust (distributionResults E T fee)).
Proof.
  intros Hspec.
  assert (Hne : E <> []) by (destruct Hspec; discriminate).
  pose proof (distributionResults_special_total E T fee
                (fold_sum_special _ E (#0) Hspec)) as Hdrop.
  pose proof (distributionResults_nonempty E T fee Hne) as HDR.
  rewrite (filter_none _ _ Hdrop).
  exists 0%R. split; [reflexivity |]. split; [lra |].
  split; [intros H; exfalso; lra |].
  intros Hkeep. exfalso.
  destruct (distributionResults E T fee) as [| r l]; [congruence |].
  inversion Hdrop as [| ? ? Hr _]; inversion Hkeep as [| ? ? Hr' _]; subst.
  congruence.
Qed.

Lemma eligibleHolders_admissible holders :
  Forall admissible holders ->
  Forall (fun e => admissible (fst e)) (eligibleHolders holders).
Proof.
  intros Hadm. apply Forall_forall. intros e He.
  apply eligibleHolders_In in He. destruct He as [h [Hh [-> _]]].
  rewrite Forall_forall in Hadm. now apply Hadm.
Qed.

(** The weights of admissible eligible holders are positive or special. *)
Lemma eligible_weights_class holders :
  Forall (fun e => admissible (fst e)) (eligibleHolders holders) ->
  Forall (fun e => above_or_special 0 (Weightage.totalWeight (snd e)))
         (eligibleHolders holders).
Proof.
  intros Hadm. apply Forall_forall. intros e He.
  rewrite Forall_forall in Hadm. specialize (Hadm e He).
  apply eligibleHolders_In in He. destruct He as [h [_ [-> Hel]]].
  apply andb_prop in Hel. destruct Hel as [Hq _].
  now apply totalWeight_class.
Qed.

Lemma rounding_allowance_nonneg n : (0 <= rounding_allowance n)%R.
Proof.
  unfold rounding_allowance. apply Rmult_le_pos; [apply pos_INR |].
  left. apply Rinv_0_lt_compat. apply pow_lt. lra.
Qed.

(** C1, as the code has it.  For every list of holders whose eligible set is
    not empty and has no negative minimum balance and no first purchase later
    than the reference time, the shares of the allocations
    [calculateDistribution] returns add up to [1], when the dust filter
    removes nothing, and to at most [1] otherwise, up to the rounding of
    binary64: to at most [1 + n * 2^-50] and, when nothing is removed, at
    least [1 - n * 2^-50], for [n] allocations. *)
Theorem shares_sum_to_one holders totalTreasury feeReserve :
  Forall (fun e => admissible (fst e)) (eligibleHolders holders) ->
  eligibleHolders holders <> [] ->
  exists results s,
    calculateDistribution holders totalTreasury feeReserve = Normal results
    /\ reduce_sum Allocation.share results = Fin s
    /\ (s <= 1 + rounding_allowance (List.length results))%R
    /\ (no_dust (distributionResults (eligibleHolders holders) totalTreasury
                                     (default_arg #0.05 feeReserve)) ->
        (1 - rounding_allowance (List.length results) <= s)%R).
Proof.
  intros Hadm Hne.
  pose proof (eligible_weights_class holders Hadm) as Hclass.
  set (fee := default_arg #0.05 feeReserve).
  assert (H : exists s,
             reduce_sum Allocation.share
               (filter (fun result => Allocation.amount result >=? dust)
                       (distributionResults (eligibleHolders holders)
                                            totalTreasury fee)) = Fin s
             /\ (s <= 1)%R
             /\ (s = 1%R <->
                 no_dust (distributionResults (eligibleHolders holders)
                                              totalTreasury fee))).
  { destruct (finite_or_special
                (fun e : Weighted => Weightage.totalWeight (snd e))
                (eligibleHolders holders)) as [Hfin | Hspec].
    - apply shares_of_positive_weights; [| assumption].
      rewrite Forall_forall in Hfin, Hclass. apply Forall_forall.
      intros e He. destruct (Hfin e He) as [w Hw]. exists w.
      split; [assumption |]. specialize (Hclass e He).
      rewrite Hw in Hclass. exact Hclass.
    - now apply shares_of_special_weights. }
  destruct H as [s [Hs [Hle Hiff]]]. eexists. exists s.
  split; [apply calculateDistribution_eligible |].
  split; [exact Hs |].
  match goal with
  | |- context [rounding_allowance ?n] =>
      pose proof (rounding_allowance_nonneg n) as Hr
  end.
  split; [lra |]. intros Hnd. apply Hiff in Hnd. lra.
Qed.

Lemma scenario_eligible address maxBalance l :
  (#20000 <=? maxBalance) = true ->
  eligibleHolders (scenarioHolder address maxBalance :: l) <> [].
Proof.
  intros Hmax. unfold eligibleHolders, eligible, weightageOf, scenarioHolder.
  cbn [map filter fst snd Holder.tokens Holder.hoursAfterLaunch
       Holder.hoursSinceLaunch Holder.minBalance Holder.maxBalance].
  rewrite scenario_weightage.
  change (Weightage.qualified scenarioWeightage) with true. cbn [andb].
  rewrite Hmax. discriminate.
Qed.

Lemma shares_sum_to_one_witness :
  exists results s,
    calculateDistribution
      [ scenarioHolder "first" #100000000;
        Holder.mk "second" #50000 #12 #48 #20000 #100000000 ]
      #10 (Some #0.05)
    = Normal results
    /\ reduce_sum Allocation.share results = Fin s
    /\ (s <= 1 + rounding_allowance (List.length results))%R
    /\ (no_dust (distributionResults
                   (eligibleHolders
                      [ scenarioHolder "first" #100000000;
                        Holder.mk "second" #50000 #12 #48 #20000 #100000000 ])
                   #10 (default_arg #0.05 (Some #0.05))) ->
        (1 - rounding_allowance (List.length results) <= s)%R).
Proof.
  apply (shares_sum_to_one
           [ scenarioHolder "first" #100000000;
             Holder.mk "second" #50000 #12 #48 #20000 #100000000 ]
           #10 (Some #0.05)).
  - apply eligibleHolders_admissible.
    repeat constructor; apply NumFacts.Rltb_false; lra.
  - apply scenario_eligible. apply NumFacts.Rleb_true. lra.
Defined.

(** ** Negative weights *)

Lemma Rlog_2_sixth : Rlog 2 (/ 6) = (- (1 + Rlog 2 3))%R.
Proof.
  pose proof NumFacts.ln_2_pos as H2.
  unfold Rlog. rewrite ln_Rinv by lra.
  replace 6%R with (2 * 3)%R by lra. rewrite ln_mult by lra.
  field. lra.
Qed.

(** A first purchase 20 hours after the reference time gives a negative
    tenure bonus, and with it a negative total weight. *)
Lemma late_purchase_weightage :
  exists w b,
    calculateWeightage #20000 #20 #0 #20000 = Normal w
    /\ Weightage.qualified w = true
    /\ Weightage.totalWeight w = #b
    /\ (-1.66 < b < 0)%R.
Proof.
  pose proof log2_3_bounds as HL.
  do 2 eexists.
  split.
  { rewrite calculateWeightage_not_below by (apply NumFacts.Rltb_false; lra).
    reflexivity. }
  split; [reflexivity |].
  cbn [Weightage.totalWeight].
  destruct (tokenBalanceWeight_real 20000 20000) as [-> _]; [lra | lra |].
  cbn [Num.sub Num.neg Num.add].
  rewrite !NumFacts.div_Fin by lra.
  rewrite earlyBonus_real, tenureBonus_real by lra.
  cbn [Num.mul]. split; [reflexivity |].
  replace (20000 / 20000)%R with 1%R by lra. rewrite NumFacts.Rlog_1.
  replace ((0 + - (20)) / 24 + 1)%R with (/ 6)%R by lra.
  rewrite Rlog_2_sixth.
  assert (He : (0 < exp (- (20 / 24) / 2) < 1)%R).
  { split; [apply exp_pos |]. rewrite <- exp_0. apply exp_increasing. lra. }
  nra.
Qed.

(** Next to a holder of positive weight, a holder of negative weight is
    removed by the dust filter and leaves the other with a share above 1. *)
Lemma negative_weight_shares hA wA hB wB a b T f avail :
  Weightage.totalWeight wA = #a -> Weightage.totalWeight wB = #b ->
  (b < 0)%R -> (0 < a + b)%R ->
  T - T * f = #avail -> (0.000001 <= avail)%R ->
  exists r s,
    filter (fun result => Allocation.amount result >=? dust)
           (distributionResults [(hA, wA); (hB, wB)] T f) = [r]
    /\ Allocation.address r = Holder.address hA
    /\ reduce_sum Allocation.share [r] = #s
    /\ (1 < s)%R.
Proof.
  intros Ha Hb Hneg Hpos Havail Hdust.
  unfold distributionResults, reduce_sum.
  cbn [fold_left map fst snd]. rewrite Ha, Hb, Havail. cbn [Num.add].
  rewrite !NumFacts.div_Fin by lra. cbn [Num.mul].
  assert (HA : (1 < a / (0 + a + b))%R).
  { apply Rmult_lt_reg_r with (0 + a + b)%R; [lra |].
    unfold Rdiv. rewrite Rmult_assoc, Rinv_l by lra. lra. }
  assert (HB : (b / (0 + a + b) < 0)%R).
  { apply Rmult_lt_reg_r with (0 + a + b)%R; [lra |].
    unfold Rdiv. rewrite Rmult_assoc, Rinv_l by lra. lra. }
  cbn [filter Allocation.amount].
  replace (#(avail * (a / (0 + a + b))) >=? dust) with true
    by (symmetry; apply NumFacts.Rleb_true; nra).
  replace (#(avail * (b / (0 + a + b))) >=? dust) with false
    by (symmetry; apply NumFacts.Rleb_false; nra).
  do 2 eexists. split; [reflexivity |].
  cbn [Allocation.address Allocation.share fold_left Num.add].
  split; [reflexivity |]. split; [reflexivity |]. lra.
Qed.

(** With a first purchase later than the reference time the shares returned
    can add up to more than [1]. *)
Lemma late_purchase_shares :
  exists results s,
    calculateDistribution
      [ scenarioHolder "first" #100000000;
        Holder.mk "late" #20000 #20 #0 #20000 #100000000 ]
      #10 (Some #0.05)
    = Normal results
    /\ reduce_sum Allocation.share results = #s
    /\ (1 < s)%R.
Proof.
  pose proof scenario_tenureBonus_bounds as Hb.
  destruct late_purchase_weightage as [wB [b [HwB [HqB [HtB Hbb]]]]].
  rewrite calculateDistribution_eligible.
  unfold eligibleHolders, eligible, weightageOf, scenarioHolder.
  cbn [map filter fst snd Holder.tokens Holder.hoursAfterLaunch
       Holder.hoursSinceLaunch Holder.minBalance Holder.maxBalance].
  rewrite scenario_weightage, HwB, HqB.
  change (Weightage.qualified scenarioWeightage) with true. cbn [andb].
  replace (#20000 <=? #100000000) with true
    by (symmetry; apply NumFacts.Rleb_true; lra).
  cbn [default_arg].
  destruct (negative_weight_shares
              (Holder.mk "first" #20000 #0 #48 #20000 #100000000)
              scenarioWeightage
              (Holder.mk "late" #20000 #20 #0 #20000 #100000000) wB
              (1 * (3 * (1 + 0.6 * Rlog 2 3)))%R b #10 #0.05 9.5%R)
    as [r [s [Hr [_ [Hs Hgt]]]]];
    [reflexivity | exact HtB | lra | lra | exact scenario_available | lra |].
  exists [r], s. split; [f_equal; exact Hr |]. split; assumption.
Qed.

Lemma Rlog_10_hundredth : Rlog 10 (/ 100) = (- 2)%R.
Proof.
  pose proof NumFacts.ln_10_pos as H10.
  unfold Rlog. rewrite ln_Rinv by lra.
  replace 100%R with (10 * 10)%R by lra. rewrite ln_mult by lra.
  field. lra.
Qed.

(** A negative minimum balance lets a balance weight fall below zero. *)
Lemma negative_threshold_weightage :
  exists w,
    calculateWeightage #(-1) #0 #0 #(-100) = Normal w
    /\ Weightage.qualified w = true
    /\ Weightage.balanceWeight w = #(-1)
    /\ Weightage.totalWeight w = #(-3).
Proof.
  eexists. split.
  { rewrite calculateWeightage_not_below by (apply NumFacts.Rltb_false; lra).
    reflexivity. }
  split; [reflexivity |].
  cbn [Weightage.balanceWeight Weightage.totalWeight].
  assert (Hbw : tokenBalanceWeight #(-1) #(-100) = #(-1)).
  { unfold tokenBalanceWeight, Num.log10.
    rewrite NumFacts.div_Fin by lra.
    replace (-1 / -100)%R with (/ 100)%R by lra.
    rewrite NumFacts.log_Fin by lra. rewrite Rlog_10_hundredth.
    cbn [Num.add]. f_equal. lra. }
  rewrite Hbw. split; [reflexivity |].
  cbn [Num.sub Num.neg Num.add].
  rewrite !NumFacts.div_Fin by lra.
  rewrite earlyBonus_real, tenureBonus_real by lra.
  replace (- (0 / 24) / 2)%R with 0%R by lra. rewrite exp_0.
  replace ((0 + - 0) / 24 + 1)%R with 1%R by lra. rewrite NumFacts.Rlog_1.
  cbn [Num.mul]. f_equal. lra.
Qed.

(** With a negative [minBalance] the shares returned can add up to more than
    [1]. *)
Lemma negative_threshold_shares :
  exists results s,
    calculateDistribution
      [ scenarioHolder "first" #100000000;
        Holder.mk "negative" #(-1) #0 #0 #(-100) #100000000 ]
      #10 (Some #0.05)
    = Normal results
    /\ reduce_sum Allocation.share results = #s
    /\ (1 < s)%R.
Proof.
  pose proof scenario_tenureBonus_bounds as Hb.
  destruct negative_threshold_weightage as [wB [HwB [HqB [_ HtB]]]].
  rewrite calculateDistribution_eligible.
  unfold eligibleHolders, eligible, weightageOf, scenarioHolder.
  cbn [map filter fst snd Holder.tokens Holder.hoursAfterLaunch
       Holder.hoursSinceLaunch Holder.minBalance Holder.maxBalance].
  rewrite scenario_weightage, HwB, HqB.
  change (Weightage.qualified scenarioWeightage) with true. cbn [andb].
  replace (#20000 <=? #100000000) with true
    by (symmetry; apply NumFacts.Rleb_true; lra).
  replace (#(-1) <=? #100000000) with true
    by (symmetry; apply NumFacts.Rleb_true; lra).
  cbn [default_arg].
  destruct (negative_weight_shares
              (Holder.mk "first" #20000 #0 #48 #20000 #100000000)
              scenarioWeightage
              (Holder.mk "negative" #(-1) #0 #0 #(-100) #100000000) wB
              (1 * (3 * (1 + 0.6 * Rlog 2 3)))%R (-3)%R #10 #0.05 9.5%R)
    as [r [s [Hr [_ [Hs Hgt]]]]];
    [reflexivity | exact HtB | lra | lra | exact scenario_available | lra |].
  exists [r], s. split; [f_equal; exact Hr |]. split; assumption.
Qed.

(** A holder whose first purchase is 20 hours later than the reference time,
    or one with a negative minimum balance, is eligible with a negative
    weight; the dust filter removes it and the share of the other holder, the
    only one returned, is above [1]. *)
Lemma negative_weight_shares_above_one :
  (eligibleHolders
     [ scenarioHolder "first" #100000000;
       Holder.mk "late" #20000 #20 #0 #20000 #100000000 ] <> []
   /\ exists results s,
        calculateDistribution
          [ scenarioHolder "first" #100000000;
            Holder.mk "late" #20000 #20 #0 #20000 #100000000 ]
          #10 (Some #0.05)
        = Normal results
        /\ reduce_sum Allocation.share results = #s
        /\ (1 < s)%R)
  /\ (eligibleHolders
        [ scenarioHolder "first" #100000000;
          Holder.mk "negative" #(-1) #0 #0 #(-100) #100000000 ] <> []
      /\ exists results s,
           calculateDistribution
             [ scenarioHolder "first" #100000000;
               Holder.mk "negative" #(-1) #0 #0 #(-100) #100000000 ]
             #10 (Some #0.05)
           = Normal results
           /\ reduce_sum Allocation.share results = #s
           /\ (1 < s)%R).
Proof.
  split; split.
  - apply scenario_eligible. apply NumFacts.Rleb_true. lra.
  - exact late_purchase_shares.
  - apply scenario_eligible. apply NumFacts.Rleb_true. lra.
  - exact negative_threshold_shares.
Qed.

Section SharesCounterexample.
Import PrimFloat.

(** C1, as the specification has it, fails in two ways.  With a negative
    weight among the eligible holders the shares returned add up to more than
    [1], by far.  And in binary64 the shares of nine holders of equal weight,
    none of them filtered, add up to 1.0000000000000002, those of six to
    0.9999999999999999, whatever values the engine gives to [Math.exp],
    [Math.log10] and [Math.log2] where ECMAScript leaves them open. *)
Lemma shares_sum_counterexample :
  (exists results s,
      eligibleHolders
        [ scenarioHolder "first" #100000000;
          Holder.mk "late" #20000 #20 #0 #20000 #100000000 ]
      <> []
      /\ calculateDistribution
           [ scenarioHolder "first" #100000000;
             Holder.mk "late" #20000 #20 #0 #20000 #100000000 ]
           #10 (Some #0.05)
         = Normal results
      /\ reduce_sum Allocation.share results = #s
      /\ (1 < s)%R)
  /\ (forall M, B64.ecmascript M ->
       exists results,
         B64.calculateDistribution
           M (map B64.launchHolder
                  ["a"; "b"; "c"; "d"; "e"; "f"; "g"; "h"; "i"]%string)
           10%float (Some B64.defaultFeeReserve)
         = Normal results
         /\ List.length results = 9%nat
         /\ (1 <? B64.reduce_sum B64.Allocation.share results)%float = true)
  /\ (forall M, B64.ecmascript M ->
       exists results,
         B64.calculateDistribution
           M (map B64.launchHolder ["a"; "b"; "c"; "d"; "e"; "f"]%string)
           10%float (Some B64.defaultFeeReserve)
         = Normal results
         /\ List.length results = 6%nat
         /\ (B64.reduce_sum B64.Allocation.share results <? 1)%float = true).
Proof.
  split; [| split].
  - destruct negative_weight_shares_above_one
      as [[Hne [results [s [Hcalc [Hsum Hgt]]]]] _].
    exists results, s. repeat split; assumption.
  - intros M HM.
    destruct (B64Facts.nine_equal_shares M HM)
      as [results [Hcalc [Hlen [_ Hgt]]]].
    exists results. repeat split; assumption.
  - intros M HM.
    destruct (B64Facts.six_equal_shares M HM)
      as [results [Hcalc [Hlen [_ Hlt]]]].
    exists results. repeat split; assumption.
Qed.

End SharesCounterexample.

(** ** The scenario, settled *)

(** C6, as the code has it.  For the holder with [tokens = 20000],
    [hoursAfterLaunch = 0], [hoursSinceLaunch = 48], [minBalance = 20000],
    [calculateWeightage] yields [earlyBonus = 3], [balanceWeight = 1],
    [tenureBonus = 1 + 0.6 * log2 3], which is 1.9510 to four decimals, and a
    [totalWeight] that is 5.8529 to four decimals; the distribution of a
    treasury of 10 with a fee reserve of 0.05 over this holder alone has
    [10 - 10 * 0.05 = 9.5] available and returns one allocation with
    [share = 1] and [amount = 9.5]. *)
Theorem scenario_single_holder address maxBalance :
  (#20000 <=? maxBalance) = true ->
  exists w r,
    calculateWeightage #20000 #0 #48 #20000 = Normal w
    /\ Weightage.earlyBonus w = #3
    /\ Weightage.balanceWeight w = #1
    /\ Weightage.tenureBonus w = #(1 + 0.6 * Rlog 2 3)
    /\ rounds_to4 (Weightage.tenureBonus w) 1.9510
    /\ rounds_to4 (Weightage.totalWeight w) 5.8529
    /\ #10 - #10 * #0.05 = #9.5
    /\ calculateDistribution [scenarioHolder address maxBalance]
                             #10 (Some #0.05)
       = Normal [r]
    /\ Allocation.share r = #1
    /\ Allocation.amount r = #9.5.
Proof.
  intros Hmax. pose proof scenario_tenureBonus_bounds as Hb.
  exists scenarioWeightage, (scenarioAllocation address).
  split; [apply scenario_weightage |].
  do 3 (split; [reflexivity |]).
  split; [eexists; split; [reflexivity | lra] |].
  split; [eexists; split; [reflexivity | lra] |].
  split; [exact scenario_available |].
  split; [now apply scenario_distribution |].
  split; reflexivity.
Qed.

Lemma scenario_single_holder_witness :
  exists w r,
    calculateWeightage #20000 #0 #48 #20000 = Normal w
    /\ Weightage.earlyBonus w = #3
    /\ Weightage.balanceWeight w = #1
    /\ Weightage.tenureBonus w = #(1 + 0.6 * Rlog 2 3)
    /\ rounds_to4 (Weightage.tenureBonus w) 1.9510
    /\ rounds_to4 (Weightage.totalWeight w) 5.8529
    /\ #10 - #10 * #0.05 = #9.5
    /\ calculateDistribution [scenarioHolder "holder" #100000000]
                             #10 (Some #0.05)
       = Normal [r]
    /\ Allocation.share r = #1
    /\ Allocation.amount r = #9.5.
Proof.
  apply (scenario_single_holder "holder" #100000000).
  apply NumFacts.Rleb_true. lra.
Defined.

(** C6, as the specification has it, fails: in the scenario the tenure bonus
    is not 1.5566 to four decimals and the total weight is not 4.6699. *)
Lemma scenario_spec_values_counterexample :
  exists w,
    calculateWeightage #20000 #0 #48 #20000 = Normal w
    /\ (rounds_to4 (Weightage.tenureBonus w) 1.5566 -> False)
    /\ (rounds_to4 (Weightage.totalWeight w) 4.6699 -> False).
Proof.
  pose proof scenario_tenureBonus_bounds as Hb.
  exists scenarioWeightage. split; [apply scenario_weightage |].
  cbn [Weightage.tenureBonus Weightage.totalWeight scenarioWeightage].
  split; intros [r [Hr Hrange]]; injection Hr as <-; lra.
Qed.

(** Two holders of the same weight split a treasury of 10 with a fee reserve
    of 0.05 evenly: a share of 0.5 and an amount of 4.75 each. *)
Example two_equal_holders_split_evenly :
  exists r1 r2,
    calculateDistribution
      [ scenarioHolder "first" #100000000;
        scenarioHolder "second" #100000000 ]
      #10 (Some #0.05)
    = Normal [r1; r2]
    /\ Allocation.address r1 = "first"%string
    /\ Allocation.share r1 = #0.5 /\ Allocation.amount r1 = #4.75
    /\ Allocation.address r2 = "second"%string
    /\ Allocation.share r2 = #0.5 /\ Allocation.amount r2 = #4.75.
Proof.
  pose proof scenario_tenureBonus_bounds as Hb.
  rewrite calculateDistribution_eligible.
  unfold eligibleHolders, eligible, weightageOf, scenarioHolder.
  cbn [map filter fst snd Holder.tokens Holder.hoursAfterLaunch
       Holder.hoursSinceLaunch Holder.minBalance Holder.maxBalance].
  rewrite scenario_weightage.
  change (Weightage.qualified scenarioWeightage) with true. cbn [andb].
  replace (#20000 <=? #100000000) with true
    by (symmetry; apply NumFacts.Rleb_true; lra).
  cbn [default_arg]. unfold distributionResults, reduce_sum.
  cbn [fold_left map fst snd]. rewrite scenario_available.
  change (Weightage.totalWeight scenarioWeightage)
    with (#(1 * (3 * (1 + 0.6 * Rlog 2 3)))).
  cbn [Num.add]. rewrite !NumFacts.div_Fin by lra.
  set (w := (1 * (3 * (1 + 0.6 * Rlog 2 3)))%R) in *.
  assert (Hw : (0 < w)%R) by (unfold w; lra).
  assert (Hhalf : (w / (0 + w + w))%R = 0.5%R).
  { apply Rmult_eq_reg_r with (0 + w + w)%R; [| lra].
    unfold Rdiv. rewrite Rmult_assoc, Rinv_l by lra. lra. }
  rewrite Hhalf.
  cbn [Num.mul filter Allocation.amount].
  replace (#(9.5 * 0.5) >=? dust) with true
    by (symmetry; apply NumFacts.Rleb_true; lra).
  do 2 eexists. split; [reflexivity |].
  cbn [Allocation.address Allocation.share Allocation.amount Holder.address].
  repeat split; f_equal; lra.
Qed.

(** ** Configuration errors *)

(** C5, as the code has it.  Neither function validates its configuration:
    for every input [calculateWeightage] completes normally, qualified
    exactly when [tokens < minBalance] is false, and [calculateDistribution]
    completes normally with a list of allocations. *)
Theorem config_errors_not_rejected :
  (forall t a s m,
      exists w, calculateWeightage t a s m = Normal w
                /\ Weightage.qualified w = negb (t <? m))
  /\ (forall holders T f,
         exists results, calculateDistribution holders T f = Normal results).
Proof.
  split.
  - intros t a s m. destruct (t <? m) eqn:Hlt.
    + exists zeroWeightage.
      split; [now apply calculateWeightage_below | reflexivity].
    + eexists. split; [now apply calculateWeightage_not_below | reflexivity].
  - intros holders T f. eexists. apply calculateDistribution_eligible.
Qed.

(** With [minBalance = 0] the weight is infinite, not an error. *)
Lemma zero_minBalance_weightage :
  calculateWeightage #5 #0 #0 #0
  = Normal {| Weightage.balanceWeight := PInf;
              Weightage.earlyBonus := #3;
              Weightage.tenureBonus := #1;
              Weightage.timeWeight := #3;
              Weightage.totalWeight := PInf;
              Weightage.hoursSinceLaunch := #0;
              Weightage.hoursHeld := #0;
              Weightage.qualified := true |}.
Proof.
  rewrite calculateWeightage_not_below by (apply NumFacts.Rltb_false; lra).
  cbn [Num.sub Num.neg Num.add].
  rewrite !NumFacts.div_Fin by lra.
  rewrite earlyBonus_real, tenureBonus_real by lra.
  unfold tokenBalanceWeight, Num.log10, Num.div.
  rewrite !NumFacts.Rltb_false by lra. cbn [orb].
  rewrite NumFacts.signed_inf_pos by lra. cbn [Num.log].
  replace (- (0 / 24) / 2)%R with 0%R by lra. rewrite exp_0.
  replace ((0 + - 0) / 24 + 1)%R with 1%R by lra. rewrite NumFacts.Rlog_1.
  cbn [Num.add Num.mul].
  replace (3 * (1 + 0.6 * 0))%R with 3%R by lra.
  rewrite NumFacts.signed_inf_pos by lra.
  repeat f_equal; lra.
Qed.

(** C5, as the specification has it, fails: a zero and a negative
    [minBalance], a maximum below the minimum, a negative treasury and a fee
    reserve of 2 are all answered with a normal result. *)
Lemma config_error_counterexample :
  minBalance_error #0
  /\ (exists w, calculateWeightage #5 #0 #0 #0 = Normal w
                /\ Weightage.qualified w = true
                /\ Weightage.totalWeight w = PInf)
  /\ minBalance_error #(-1)
  /\ calculateWeightage #(-5) #0 #0 #(-1) = Normal zeroWeightage
  /\ config_error [Holder.mk "holder" #30000 #0 #48 #20000 #100] #(-10) #2
  /\ calculateDistribution [Holder.mk "holder" #30000 #0 #48 #20000 #100]
                           #(-10) (Some #2) = Normal []
  /\ (rejects_config_errors -> False).
Proof.
  assert (H1 : minBalance_error #0) by (apply NumFacts.Rleb_true; lra).
  assert (H3 : minBalance_error #(-1)) by (apply NumFacts.Rleb_true; lra).
  split; [exact H1 |].
  split; [eexists; split; [apply zero_minBalance_weightage | now split] |].
  split; [exact H3 |].
  split; [apply calculateWeightage_below; apply NumFacts.Rltb_true; lra |].
  split; [right; left; apply NumFacts.Rltb_true; lra |].
  split.
  - rewrite calculateDistribution_eligible.
    rewrite eligibleHolders_none; [reflexivity |].
    intros h [<- | []]. right. apply NumFacts.Rltb_true. lra.
  - intros [Hw _]. destruct (Hw #5 #0 #0 #0 H1) as [e He].
    rewrite zero_minBalance_weightage in He. discriminate.
Qed.

(** ** [getDistributionStats] *)

Lemma filter_min_only holders :
  filter (fun h => Holder.tokens h >=? Holder.minBalance h) holders
  = min_only holders.
Proof.
  induction holders as [| h holders IH]; [reflexivity |].
  cbn [filter min_only]. rewrite IH. reflexivity.
Qed.

Lemma length_min_only holders :
  List.length (min_only holders) = count_min_only holders.
Proof.
  induction holders as [| h holders IH]; [reflexivity |].
  cbn [min_only count_min_only].
  destruct (Holder.tokens h >=? Holder.minBalance h); cbn [List.length];
    now rewrite IH.
Qed.

Lemma min_only_In h holders :
  In h (min_only holders)
  <-> In h holders /\ (Holder.tokens h >=? Holder.minBalance h) = true.
Proof. rewrite <- filter_min_only. apply filter_In. Qed.

(** C8.  [getDistributionStats] counts as valid holders exactly the holders
    of the input with [tokens >= minBalance], whatever their maximum balance,
    and its [totalTokens] is the sum of the token balances of these holders,
    added to [0] one after the other in the order of the input. *)
Theorem stats_valid_holders_min_only holders distribution :
  let stats := getDistributionStats holders distribution in
  Stats.validHolders stats = count_min_only holders
  /\ Stats.totalTokens stats
     = fold_left (fun sum h => sum + Holder.tokens h) (min_only holders) (#0)
  /\ (forall h, In h (min_only holders)
                <-> In h holders
                    /\ (Holder.tokens h >=? Holder.minBalance h) = true).
Proof.
  cbn zeta. unfold getDistributionStats.
  cbn [Stats.validHolders Stats.totalTokens].
  rewrite filter_min_only.
  split; [apply length_min_only |].
  split; [reflexivity |].
  intros h; apply min_only_In.
Qed.

(** The asymmetry with [calculateDistribution]: a holder above its maximum
    balance is a valid holder of the statistics and receives nothing. *)
Example stats_count_holder_above_max :
  let holders := [Holder.mk "whale" #200000000 #0 #48 #20000 #100000000] in
  Stats.validHolders (getDistributionStats holders []) = 1%nat
  /\ Stats.totalTokens (getDistributionStats holders []) = #200000000
  /\ calculateDistribution holders #10 None = Normal [].
Proof.
  cbn zeta. split; [| split].
  - unfold getDistributionStats. cbn [Stats.validHolders filter Holder.tokens
                                       Holder.minBalance].
    replace (#200000000 >=? #20000) with true
      by (symmetry; apply NumFacts.Rleb_true; lra).
    reflexivity.
  - unfold getDistributionStats. cbn [Stats.totalTokens filter Holder.tokens
                                       Holder.minBalance].
    replace (#200000000 >=? #20000) with true
      by (symmetry; apply NumFacts.Rleb_true; lra).
    unfold reduce_sum. cbn. f_equal. lra.
  - rewrite calculateDistribution_eligible.
    rewrite eligibleHolders_none; [reflexivity |].
    intros h [<- | []]. right. apply NumFacts.Rltb_true. lra.
Qed.

(** * Further properties of the formulas *)

(** ** More on the weight of one holder *)

Lemma Normal_inj {A} (a b : A) : Normal a = Normal b -> a = b.
Proof. congruence. Qed.

(** X1.  A purchase at or after the launch that is not below the threshold
    is qualified with an early bonus between [1] and [3]: at most a threefold
    multiplier. *)
Theorem earlyBonus_at_most_threefold t (a : R) s m :
  (t <? m) = false ->
  (0 <= a)%R ->
  exists w e,
    calculateWeightage t #a s m = Normal w
    /\ Weightage.qualified w = true
    /\ Weightage.earlyBonus w = #e /\ (1 <= e <= 3)%R.
Proof.
  intros Hlt Ha.
  do 2 eexists. split; [now apply calculateWeightage_not_below |].
  cbn [Weightage.qualified Weightage.earlyBonus].
  split; [reflexivity |].
  rewrite NumFacts.div_Fin by lra. rewrite earlyBonus_real.
  split; [reflexivity |].
  pose proof (earlyBonus_gt_1 (a / 24)) as Hgt.
  assert (exp (- (a / 24) / 2) <= 1)%R.
  { rewrite <- exp_0. destruct (Req_dec a 0) as [-> | Hne].
    - right. f_equal. lra.
    - left. apply exp_increasing. lra. }
  lra.
Qed.

Lemma earlyBonus_at_most_threefold_witness :
  exists w e,
    calculateWeightage #50000 #12 #48 #20000 = Normal w
    /\ Weightage.qualified w = true
    /\ Weightage.earlyBonus w = #e /\ (1 <= e <= 3)%R.
Proof.
  apply (earlyBonus_at_most_threefold #50000 12 #48 #20000).
  - apply NumFacts.Rltb_false. lra.
  - lra.
Defined.

(** The total weight of a qualified holder, on finite inputs with a positive
    threshold and a purchase not later than the reference time. *)
Lemma totalWeight_real (t a s m : R) :
  (0 < m)%R -> (m <= t)%R -> (a <= s)%R ->
  calculateWeightage #t #a #s #m
  = Normal {| Weightage.balanceWeight := #(1 + Rlog 10 (t / m));
              Weightage.earlyBonus := #(1 + 2 * exp (- (a / 24) / 2));
              Weightage.tenureBonus := #(1 + 0.6 * Rlog 2 ((s + - a) / 24 + 1));
              Weightage.timeWeight :=
                #((1 + 2 * exp (- (a / 24) / 2))
                  * (1 + 0.6 * Rlog 2 ((s + - a) / 24 + 1)));
              Weightage.totalWeight :=
                #((1 + Rlog 10 (t / m))
                  * ((1 + 2 * exp (- (a / 24) / 2))
                     * (1 + 0.6 * Rlog 2 ((s + - a) / 24 + 1))));
              Weightage.hoursSinceLaunch := #a;
              Weightage.hoursHeld := #(s + - a);
              Weightage.qualified := true |}.
Proof.
  intros Hm Ht Has.
  rewrite calculateWeightage_not_below by (apply NumFacts.Rltb_false; lra).
  destruct (tokenBalanceWeight_real t m Hm Ht) as [-> _].
  cbn [Num.sub Num.neg Num.add].
  rewrite !NumFacts.div_Fin by lra.
  rewrite earlyBonus_real, tenureBonus_real by lra.
  reflexivity.
Qed.

Section WeightOrder.
Local Open Scope R_scope.

Lemma time_weight_ge_1 (a s : R) :
  a <= s ->
  1 <= (1 + 2 * exp (- (a / 24) / 2)) * (1 + 0.6 * Rlog 2 ((s + - a) / 24 + 1)).
Proof.
  intros Has. pose proof (earlyBonus_gt_1 (a / 24)).
  assert (1 <= 1 + 0.6 * Rlog 2 ((s + - a) / 24 + 1))
    by (apply tenureBonus_ge_1; lra).
  nra.
Qed.

End WeightOrder.

(** X2.  With the same threshold of at least 1 and the same hours, the first
    purchase between the launch and the reference time, a balance that is not
    smaller has a balance weight and a total weight that are not smaller;
    both weights are at least [1]. *)
Theorem more_tokens_no_less_weight (t1 t2 a s m : R) :
  (1 <= m)%R -> (m <= t1)%R -> (t1 <= t2)%R -> (0 <= a)%R -> (a <= s)%R ->
  exists w1 w2 b1 b2 x1 x2,
    calculateWeightage #t1 #a #s #m = Normal w1
    /\ calculateWeightage #t2 #a #s #m = Normal w2
    /\ Weightage.balanceWeight w1 = #b1 /\ Weightage.balanceWeight w2 = #b2
    /\ Weightage.totalWeight w1 = #x1 /\ Weightage.totalWeight w2 = #x2
    /\ (1 <= b1 <= b2)%R /\ (1 <= x1 <= x2)%R.
Proof.
  intros Hm Ht1 Ht12 Ha Has.
  do 6 eexists.
  split; [apply totalWeight_real; lra |].
  split; [apply totalWeight_real; lra |].
  cbn [Weightage.balanceWeight Weightage.totalWeight].
  do 4 (split; [reflexivity |]).
  pose proof (time_weight_ge_1 a s Has) as Htw.
  destruct (tokenBalanceWeight_real t1 m) as [_ Hb1]; [lra | lra |].
  assert (Hlog : (Rlog 10 (t1 / m) <= Rlog 10 (t2 / m))%R).
  { destruct (Req_dec t1 t2) as [-> | Hne]; [lra |].
    left. apply NumFacts.Rlog_increasing; [apply NumFacts.ln_10_pos | |].
    - apply Rdiv_lt_0_compat; lra.
    - apply Rmult_lt_compat_r; [apply Rinv_0_lt_compat; lra | lra]. }
  split; [lra |]. split; [nra |].
  apply Rmult_le_compat_r; lra.
Qed.

Lemma more_tokens_no_less_weight_witness :
  exists w1 w2 b1 b2 x1 x2,
    calculateWeightage #20000 #12 #48 #20000 = Normal w1
    /\ calculateWeightage #50000 #12 #48 #20000 = Normal w2
    /\ Weightage.balanceWeight w1 = #b1 /\ Weightage.balanceWeight w2 = #b2
    /\ Weightage.totalWeight w1 = #x1 /\ Weightage.totalWeight w2 = #x2
    /\ (1 <= b1 <= b2)%R /\ (1 <= x1 <= x2)%R.
Proof.
  apply (more_tokens_no_less_weight 20000 50000 12 48 20000); lra.
Defined.

(** X4.  With the same balance, at or above a threshold of at least 1, and
    the same reference time, of two first purchases between the launch and
    the reference time the earlier has an early bonus, a tenure bonus and a
    total weight that are not smaller. *)
Theorem earlier_purchase_no_less_weight (t a1 a2 s m : R) :
  (1 <= m)%R -> (m <= t)%R ->
  (0 <= a1)%R -> (a1 <= a2)%R -> (a2 <= s)%R ->
  exists w1 w2 e1 e2 n1 n2 x1 x2,
    calculateWeightage #t #a1 #s #m = Normal w1
    /\ calculateWeightage #t #a2 #s #m = Normal w2
    /\ Weightage.earlyBonus w1 = #e1 /\ Weightage.earlyBonus w2 = #e2
    /\ Weightage.tenureBonus w1 = #n1 /\ Weightage.tenureBonus w2 = #n2
    /\ Weightage.totalWeight w1 = #x1 /\ Weightage.totalWeight w2 = #x2
    /\ (1 <= e2 <= e1)%R /\ (1 <= n2 <= n1)%R /\ (1 <= x2 <= x1)%R.
Proof.
  intros Hm Ht Ha1 Ha Has.
  do 8 eexists.
  split; [apply totalWeight_real; lra |].
  split; [apply totalWeight_real; lra |].
  cbn [Weightage.earlyBonus Weightage.tenureBonus Weightage.totalWeight].
  do 6 (split; [reflexivity |]).
  destruct (tokenBalanceWeight_real t m) as [_ Hb]; [lra | lra |].
  assert (He : (1 + 2 * exp (- (a2 / 24) / 2)
                <= 1 + 2 * exp (- (a1 / 24) / 2))%R).
  { destruct (Req_dec a1 a2) as [-> | Hne]; [lra |].
    left. apply earlyBonus_decreasing. lra. }
  assert (Hn : (1 + 0.6 * Rlog 2 ((s + - a2) / 24 + 1)
                <= 1 + 0.6 * Rlog 2 ((s + - a1) / 24 + 1))%R).
  { destruct (Req_dec a1 a2) as [-> | Hne]; [lra |].
    replace ((s + - a2) / 24 + 1)%R with ((s - a2) / 24 + 1)%R by lra.
    replace ((s + - a1) / 24 + 1)%R with ((s - a1) / 24 + 1)%R by lra.
    left. apply tenureBonus_increasing; lra. }
  pose proof (earlyBonus_gt_1 (a2 / 24)) as He2.
  assert (Hn2 : (1 <= 1 + 0.6 * Rlog 2 ((s + - a2) / 24 + 1))%R)
    by (apply tenureBonus_ge_1; lra).
  split; [lra |]. split; [lra |].
  set (b := (1 + Rlog 10 (t / m))%R) in *.
  set (e1 := (1 + 2 * exp (- (a1 / 24) / 2))%R) in *.
  set (e2 := (1 + 2 * exp (- (a2 / 24) / 2))%R) in *.
  set (n1 := (1 + 0.6 * Rlog 2 ((s + - a1) / 24 + 1))%R) in *.
  set (n2 := (1 + 0.6 * Rlog 2 ((s + - a2) / 24 + 1))%R) in *.
  assert (H12 : (e2 * n2 <= e1 * n1)%R)
    by (apply Rmult_le_compat; lra).
  assert (H1 : (1 <= e2 * n2)%R) by nra.
  split; [nra |]. apply Rmult_le_compat_l; lra.
Qed.

Lemma earlier_purchase_no_less_weight_witness :
  exists w1 w2 e1 e2 n1 n2 x1 x2,
    calculateWeightage #20000 #0 #48 #20000 = Normal w1
    /\ calculateWeightage #20000 #12 #48 #20000 = Normal w2
    /\ Weightage.earlyBonus w1 = #e1 /\ Weightage.earlyBonus w2 = #e2
    /\ Weightage.tenureBonus w1 = #n1 /\ Weightage.tenureBonus w2 = #n2
    /\ Weightage.totalWeight w1 = #x1 /\ Weightage.totalWeight w2 = #x2
    /\ (1 <= e2 <= e1)%R /\ (1 <= n2 <= n1)%R /\ (1 <= x2 <= x1)%R.
Proof.
  apply (earlier_purchase_no_less_weight 20000 0 12 48 20000); lra.
Defined.

(** X5.  When the threshold is not negative and the first purchase is not
    later than the reference time, a holder that is not below the threshold
    is qualified with a total weight that is not zero, and a holder below it
    is disqualified with a total weight of zero. *)
Theorem zero_weight_iff_disqualified t a s m :
  (m <? #0) = false -> (s <? a) = false ->
  exists w,
    calculateWeightage t a s m = Normal w
    /\ ((t <? m) = false ->
        Weightage.qualified w = true /\ Weightage.totalWeight w <> #0)
    /\ ((t <? m) = true ->
        Weightage.qualified w = false /\ Weightage.totalWeight w = #0).
Proof.
  intros Hm Hsa. destruct (t <? m) eqn:Hlt.
  - exists zeroWeightage. split; [now apply calculateWeightage_below |].
    split; [discriminate | split; reflexivity].
  - eexists. split; [now apply calculateWeightage_not_below |].
    cbn [Weightage.totalWeight Weightage.qualified].
    split; [| discriminate]. intros _. split; [reflexivity |].
    intros Hzero.
    assert (Hc : above_or_special 0
                   (tokenBalanceWeight t m
                    * (earlyBonus (a / #24) * tenureBonus ((s - a) / #24)))).
    { apply above_or_special_mul; [now apply tokenBalanceWeight_class |].
      apply above_or_special_mul; [apply earlyBonus_class |].
      now apply tenureBonus_class. }
    rewrite Hzero in Hc. simpl in Hc. lra.
Qed.

Lemma zero_weight_iff_disqualified_witness :
  (exists w,
      calculateWeightage #50000 #12 #48 #20000 = Normal w
      /\ Weightage.qualified w = true /\ Weightage.totalWeight w <> #0)
  /\ (exists w,
        calculateWeightage #5000 #12 #48 #20000 = Normal w
        /\ Weightage.qualified w = false /\ Weightage.totalWeight w = #0).
Proof.
  split.
  - destruct (zero_weight_iff_disqualified #50000 #12 #48 #20000)
      as [w [Hcalc [Hq _]]].
    + apply NumFacts.Rltb_false. lra.
    + apply NumFacts.Rltb_false. lra.
    + exists w. split; [exact Hcalc |].
      apply Hq. apply NumFacts.Rltb_false. lra.
  - destruct (zero_weight_iff_disqualified #5000 #12 #48 #20000)
      as [w [Hcalc [_ Hd]]].
    + apply NumFacts.Rltb_false. lra.
    + apply NumFacts.Rltb_false. lra.
    + exists w. split; [exact Hcalc |].
      apply Hd. apply NumFacts.Rltb_true. lra.
Defined.

(** ** More on the distribution *)

Section Subseq.
Context {A B : Type}.

Lemma subseq_filter (p : A -> bool) (l : list A) : subseq (filter p l) l.
Proof.
  induction l as [| x l IH]; simpl; [constructor |].
  destruct (p x); [now apply subseq_keep | now apply subseq_skip].
Qed.

Lemma subseq_length (k l : list A) :
  subseq k l -> (List.length k <= List.length l)%nat.
Proof. induction 1; simpl; lia. Qed.

Lemma subseq_In (k l : list A) x : subseq k l -> In x k -> In x l.
Proof.
  induction 1 as [| y k l _ IH | y k l _ IH]; simpl; auto.
  intros [-> | Hx]; auto.
Qed.

(** A subsequence whose elements all pass a test is a subsequence of the
    elements that pass it. *)
Lemma subseq_into_filter (p : A -> bool) (k l : list A) :
  subseq k l -> Forall (fun x => p x = true) k -> subseq k (filter p l).
Proof.
  induction 1 as [| y k l _ IH | y k l _ IH]; intros Hk; simpl.
  - constructor.
  - destruct (p y); [apply subseq_skip |]; now apply IH.
  - inversion Hk as [| ? ? Hy Hk']; subst. rewrite Hy.
    apply subseq_keep. now apply IH.
Qed.

Lemma filter_map_swap (f : A -> B) (p : B -> bool) (l : list A) :
  filter p (map f l) = map f (filter (fun x => p (f x)) l).
Proof.
  induction l as [| x l IH]; simpl; [reflexivity |].
  destruct (p (f x)); simpl; now rewrite IH.
Qed.

Lemma filter_filter (p q : A -> bool) (l : list A) :
  filter q (filter p l) = filter (fun x => p x && q x) l.
Proof.
  induction l as [| x l IH]; simpl; [reflexivity |].
  destruct (p x); simpl; [destruct (q x); simpl |]; now rewrite IH.
Qed.

End Subseq.

Section SubseqMore.
Context {A B : Type}.

Lemma subseq_map (f : A -> B) (k l : list A) :
  subseq k l -> subseq (map f k) (map f l).
Proof.
  induction 1; simpl;
    [apply subseq_nil | now apply subseq_skip | now apply subseq_keep].
Qed.

Lemma subseq_NoDup (k l : list A) : subseq k l -> NoDup l -> NoDup k.
Proof.
  induction 1 as [| y k l Hs IH | y k l Hs IH]; intros Hl.
  - constructor.
  - inversion Hl; subst. now apply IH.
  - inversion Hl as [| ? ? Hy Hl']; subst. constructor; [| now apply IH].
    intros Hin. apply Hy. eapply subseq_In; eassumption.
Qed.

End SubseqMore.

(** An eligible holder whose amount passes the dust filter meets its
    minimum balance, also as a comparison that [NaN] fails. *)
Lemma kept_meets_minimum h avail W :
  eligible (h, weightageOf h) = true ->
  (avail * (Weightage.totalWeight (weightageOf h) / W) >=? dust) = true ->
  (Holder.tokens h >=? Holder.minBalance h) = true.
Proof.
  intros Hel Hkeep. unfold eligible in Hel. cbn [fst snd] in Hel.
  apply andb_prop in Hel. destruct Hel as [Hq _].
  pose proof (proj2 (NumFacts.leb_not_NaN _ _ Hkeep)) as Hamount.
  apply NumFacts.mul_not_NaN in Hamount. destruct Hamount as [_ Hshare].
  apply NumFacts.div_not_NaN in Hshare. destruct Hshare as [Hw _].
  destruct (totalWeight_not_NaN h Hq Hw) as [Ht Hm].
  apply NumFacts.ltb_false_geb; try assumption.
  now apply weightageOf_qualified_not_below.
Qed.

(** The allocations are those of a subsequence of the holders: the holders
    that are eligible and whose amount passes the dust filter. *)
Lemma calculateDistribution_kept holders T f results :
  calculateDistribution holders T f = Normal results ->
  exists kept,
    subseq kept holders
    /\ map Allocation.address results = map Holder.address kept
    /\ map Allocation.tokens results = map Holder.tokens kept
    /\ map Allocation.weightage results = map weightageOf kept
    /\ Forall (fun h => eligible (h, weightageOf h) = true
                        /\ (Holder.tokens h >=? Holder.minBalance h) = true)
              kept.
Proof.
  rewrite calculateDistribution_eligible. intros Heq.
  apply Normal_inj in Heq. subst results.
  unfold distributionResults, eligibleHolders.
  set (W := reduce_sum _ _). set (avail := T - T * default_arg #0.05 f).
  rewrite !filter_map_swap. rewrite filter_filter. rewrite !map_map.
  cbn [Allocation.address Allocation.tokens Allocation.weightage fst snd].
  eexists. split; [apply subseq_filter |].
  do 3 (split; [reflexivity |]).
  apply Forall_forall. intros h Hh. apply filter_In in Hh.
  destruct Hh as [_ Hh]. apply andb_prop in Hh. destruct Hh as [Hel Hkeep].
  split; [assumption |]. eapply kept_meets_minimum; eassumption.
Qed.

(** X6.  The allocations come in the order of the holders: their addresses and
    balances form a subsequence of those of the input, so no holder is
    paid twice and, when the addresses of the input are distinct, so are
    those of the allocations. *)
Theorem distribution_keeps_order holders totalTreasury feeReserve results :
  calculateDistribution holders totalTreasury feeReserve = Normal results ->
  subseq (map (fun r => (Allocation.address r, Allocation.tokens r)) results)
         (map (fun h => (Holder.address h, Holder.tokens h)) holders)
  /\ (List.length results <= List.length holders)%nat
  /\ (NoDup (map Holder.address holders) ->
      NoDup (map Allocation.address results)).
Proof.
  intros Hcalc.
  destruct (calculateDistribution_kept _ _ _ _ Hcalc)
    as [kept [Hsub [Haddr [Htok [_ _]]]]].
  assert (Hlen : List.length results = List.length kept).
  { rewrite <- (length_map Allocation.address results), Haddr.
    apply length_map. }
  split; [| split].
  - replace (map (fun r => (Allocation.address r, Allocation.tokens r)) results)
      with (map (fun h => (Holder.address h, Holder.tokens h)) kept).
    + now apply subseq_map.
    + clear Hsub Hlen Hcalc. revert results Haddr Htok.
      induction kept as [| h kept IH]; intros [| r results] Haddr Htok;
        try discriminate; [reflexivity |].
      simpl in *. injection Haddr as Ha Haddr. injection Htok as Ht Htok.
      rewrite Ha, Ht. f_equal. now apply IH.
  - rewrite Hlen. now apply subseq_length.
  - intros Hnd. rewrite Haddr.
    apply (subseq_NoDup _ (map Holder.address holders)); [| assumption].
    now apply subseq_map.
Qed.

Lemma distribution_keeps_order_witness :
  subseq (map (fun r => (Allocation.address r, Allocation.tokens r))
              [scenarioAllocation "holder"])
         (map (fun h => (Holder.address h, Holder.tokens h))
              [scenarioHolder "holder" #100000000])
  /\ (List.length [scenarioAllocation "holder"]
      <= List.length [scenarioHolder "holder" #100000000])%nat
  /\ (NoDup (map Holder.address [scenarioHolder "holder" #100000000]) ->
      NoDup (map Allocation.address [scenarioAllocation "holder"])).
Proof.
  apply (distribution_keeps_order
           [scenarioHolder "holder" #100000000] #10 (Some #0.05)
           [scenarioAllocation "holder"]).
  apply scenario_distribution. apply NumFacts.Rleb_true. lra.
Defined.

(** X7.  The statistics of a distribution: the allocations are never more than the
    valid holders, which are never more than the holders. *)
Theorem allocations_at_most_valid_holders
    holders totalTreasury feeReserve results :
  calculateDistribution holders totalTreasury feeReserve = Normal results ->
  let stats := getDistributionStats holders results in
  (List.length results <= Stats.validHolders stats)%nat
  /\ (Stats.validHolders stats <= Stats.totalHolders stats)%nat.
Proof.
  intros Hcalc. cbn zeta.
  destruct (calculateDistribution_kept _ _ _ _ Hcalc)
    as [kept [Hsub [Haddr [_ [_ Hkept]]]]].
  assert (Hlen : List.length results = List.length kept).
  { rewrite <- (length_map Allocation.address results), Haddr.
    apply length_map. }
  unfold getDistributionStats.
  cbn [Stats.validHolders Stats.totalHolders].
  split.
  - rewrite Hlen. apply subseq_length. apply subseq_into_filter; [assumption |].
    eapply Forall_impl; [| exact Hkept]. intros h [_ Hmin]. exact Hmin.
  - apply subseq_length. apply subseq_filter.
Qed.

Lemma allocations_at_most_valid_holders_witness :
  let stats := getDistributionStats [scenarioHolder "holder" #100000000]
                                    [scenarioAllocation "holder"] in
  (List.length [scenarioAllocation "holder"] <= Stats.validHolders stats)%nat
  /\ (Stats.validHolders stats <= Stats.totalHolders stats)%nat.
Proof.
  apply (allocations_at_most_valid_holders
           [scenarioHolder "holder" #100000000] #10 (Some #0.05)
           [scenarioAllocation "holder"]).
  apply scenario_distribution. apply NumFacts.Rleb_true. lra.
Defined.

(** The two cases of an admissible run: the eligible weights are all finite
    and positive, with a positive total, or nothing is returned. *)
Lemma admissible_run holders T fee :
  Forall admissible holders ->
  (exists W,
      reduce_sum (fun holder => Weightage.totalWeight (snd holder))
                 (eligibleHolders holders) = #W
      /\ (0 < W)%R
      /\ Forall (fun e => exists w, Weightage.totalWeight (snd e) = #w
                                    /\ (0 < w)%R)
                (eligibleHolders holders))
  \/ filter (fun result => Allocation.amount result >=? dust)
            (distributionResults (eligibleHolders holders) T fee) = [].
Proof.
  intros Hadm. pose proof (eligibleHolders_class holders Hadm) as Hclass.
  destruct (eligibleHolders holders) as [| e0 E0] eqn:HE; [right; reflexivity |].
  rewrite <- HE in *.
  destruct (finite_or_special
              (fun e : Weighted => Weightage.totalWeight (snd e))
              (eligibleHolders holders)) as [Hfin | Hspec].
  - left.
    assert (Hpos : Forall (fun e => exists w, Weightage.totalWeight (snd e) = #w
                                              /\ (0 < w)%R)
                          (eligibleHolders holders)).
    { rewrite Forall_forall in Hfin, Hclass. apply Forall_forall.
      intros e He. destruct (Hfin e He) as [w Hw]. exists w.
      split; [assumption |]. specialize (Hclass e He).
      rewrite Hw in Hclass. exact Hclass. }
    eexists. split; [apply reduce_sum_Fin; exact Hfin |]. split; [| exact Hpos].
    apply Rsum_pos; [| rewrite HE; discriminate].
    eapply Forall_impl; [| exact Hpos].
    intros e [w [Hw Hwpos]]. now rewrite Hw.
  - right. apply filter_none. apply distributionResults_special_total.
    now apply fold_sum_special.
Qed.

Lemma distributionResults_In E T fee r :
  In r (distributionResults E T fee) ->
  exists e,
    In e E /\ Allocation.weightage r = snd e
    /\ Allocation.share r
       = Weightage.totalWeight (snd e)
         / reduce_sum (fun holder => Weightage.totalWeight (snd holder)) E
    /\ Allocation.amount r = (T - T * fee) * Allocation.share r.
Proof.
  unfold distributionResults. intros Hr. apply in_map_iff in Hr.
  destruct Hr as [e [<- He]]. exists e. repeat split; assumption.
Qed.

(** X8.  In one distribution of admissible holders, a holder of no more weight
    has no larger share and no larger amount. *)
Theorem amounts_follow_weights holders totalTreasury feeReserve results r1 r2 :
  Forall admissible holders ->
  calculateDistribution holders totalTreasury feeReserve = Normal results ->
  In r1 results -> In r2 results ->
  (Weightage.totalWeight (Allocation.weightage r1)
   <=? Weightage.totalWeight (Allocation.weightage r2)) = true ->
  (Allocation.share r1 <=? Allocation.share r2) = true
  /\ (Allocation.amount r1 <=? Allocation.amount r2) = true.
Proof.
  intros Hadm Hcalc H1 H2 Hle.
  rewrite calculateDistribution_eligible in Hcalc.
  apply Normal_inj in Hcalc. subst results.
  set (fee := default_arg #0.05 feeReserve) in *.
  destruct (admissible_run holders totalTreasury fee Hadm)
    as [[W [HW [HWpos Hpos]]] | Hnone];
    [| rewrite Hnone in H1; contradiction].
  apply filter_In in H1. destruct H1 as [H1 Hk1].
  apply filter_In in H2. destruct H2 as [H2 Hk2].
  change ((Allocation.amount r1 >=? dust) = true) in Hk1.
  change ((Allocation.amount r2 >=? dust) = true) in Hk2.
  destruct (distributionResults_In _ _ _ _ H1) as [e1 [He1 [Hw1 [Hs1 Ha1]]]].
  destruct (distributionResults_In _ _ _ _ H2) as [e2 [He2 [Hw2 [Hs2 Ha2]]]].
  rewrite Forall_forall in Hpos.
  destruct (Hpos e1 He1) as [w1 [Hv1 Hp1]].
  destruct (Hpos e2 He2) as [w2 [Hv2 Hp2]].
  rewrite Hw1, Hw2, Hv1, Hv2 in Hle. apply NumFacts.leb_Fin in Hle.
  rewrite HW, Hv1, NumFacts.div_Fin in Hs1 by lra.
  rewrite HW, Hv2, NumFacts.div_Fin in Hs2 by lra.
  assert (Hq1 : (0 < w1 / W)%R) by now apply Rdiv_lt_0_compat.
  assert (Hq : (w1 / W <= w2 / W)%R).
  { apply Rmult_le_compat_r; [| assumption].
    left. now apply Rinv_0_lt_compat. }
  rewrite Ha1, Ha2 in *. rewrite Hs1, Hs2 in *.
  split; [now apply NumFacts.leb_Fin |].
  unfold Num.geb in Hk1, Hk2.
  destruct (totalTreasury - totalTreasury * fee) as [| | |a]; simpl in *;
    try discriminate.
  - rewrite !NumFacts.signed_inf_pos by lra. reflexivity.
  - rewrite NumFacts.signed_inf_neg in Hk1 by lra. discriminate.
  - apply NumFacts.Rleb_spec in Hk1. apply NumFacts.Rleb_true.
    assert (0 < a)%R by nra. nra.
Qed.

Lemma Rlog_10_10 : Rlog 10 10 = 1%R.
Proof.
  pose proof NumFacts.ln_10_pos. unfold Rlog. field. lra.
Qed.

Lemma tenfold_weightage :
  calculateWeightage #200000 #0 #48 #20000 = Normal tenfoldWeightage.
Proof.
  rewrite totalWeight_real by lra.
  replace (200000 / 20000)%R with 10%R by lra. rewrite Rlog_10_10.
  replace (- (0 / 24) / 2)%R with 0%R by lra. rewrite exp_0.
  replace ((48 + - 0) / 24 + 1)%R with 3%R by lra.
  unfold tenfoldWeightage. repeat f_equal; lra.
Qed.

(** A holder with ten times the tokens of another, bought at the same hour:
    both are paid, in the order of the input. *)
Lemma two_holder_distribution :
  exists r1 r2,
    calculateDistribution
      [scenarioHolder "small" #100000000; tenfoldHolder "large"]
      #10 (Some #0.05)
    = Normal [r1; r2]
    /\ Allocation.address r1 = "small"%string
    /\ Allocation.address r2 = "large"%string
    /\ Allocation.weightage r1 = scenarioWeightage
    /\ Allocation.weightage r2 = tenfoldWeightage.
Proof.
  pose proof scenario_tenureBonus_bounds as Hb.
  rewrite calculateDistribution_eligible.
  unfold eligibleHolders, eligible, weightageOf, scenarioHolder, tenfoldHolder.
  cbn [map filter fst snd Holder.tokens Holder.hoursAfterLaunch
       Holder.hoursSinceLaunch Holder.minBalance Holder.maxBalance].
  rewrite scenario_weightage, tenfold_weightage.
  change (Weightage.qualified scenarioWeightage) with true.
  change (Weightage.qualified tenfoldWeightage) with true. cbn [andb].
  replace (#20000 <=? #100000000) with true
    by (symmetry; apply NumFacts.Rleb_true; lra).
  replace (#200000 <=? #100000000) with true
    by (symmetry; apply NumFacts.Rleb_true; lra).
  cbn [default_arg]. unfold distributionResults, reduce_sum.
  cbn [fold_left map fst snd]. rewrite scenario_available.
  change (Weightage.totalWeight scenarioWeightage)
    with (#(1 * (3 * (1 + 0.6 * Rlog 2 3)))).
  change (Weightage.totalWeight tenfoldWeightage)
    with (#(2 * (3 * (1 + 0.6 * Rlog 2 3)))).
  cbn [Num.add]. rewrite !NumFacts.div_Fin by lra.
  set (w := (3 * (1 + 0.6 * Rlog 2 3))%R) in *.
  assert (Hw : (0 < w)%R) by (unfold w; lra).
  assert (H1 : (1 * w / (0 + 1 * w + 2 * w))%R = (1 / 3)%R) by (field; lra).
  assert (H2 : (2 * w / (0 + 1 * w + 2 * w))%R = (2 / 3)%R) by (field; lra).
  rewrite H1, H2.
  cbn [Num.mul filter Allocation.amount].
  replace (#(9.5 * (1 / 3)) >=? dust) with true
    by (symmetry; apply NumFacts.Rleb_true; lra).
  replace (#(9.5 * (2 / 3)) >=? dust) with true
    by (symmetry; apply NumFacts.Rleb_true; lra).
  do 2 eexists. split; [reflexivity |].
  cbn [Allocation.address Allocation.weightage Holder.address].
  repeat split.
Qed.

Lemma amounts_follow_weights_witness :
  exists r1 r2,
    calculateDistribution
      [scenarioHolder "small" #100000000; tenfoldHolder "large"]
      #10 (Some #0.05)
    = Normal [r1; r2]
    /\ Allocation.address r1 = "small"%string
    /\ Allocation.address r2 = "large"%string
    /\ (Allocation.share r1 <=? Allocation.share r2) = true
    /\ (Allocation.amount r1 <=? Allocation.amount r2) = true.
Proof.
  destruct two_holder_distribution as [r1 [r2 [Hcalc [Ha1 [Ha2 [Hw1 Hw2]]]]]].
  exists r1, r2. split; [exact Hcalc |]. split; [exact Ha1 |].
  split; [exact Ha2 |].
  apply (amounts_follow_weights
           [scenarioHolder "small" #100000000; tenfoldHolder "large"]
           #10 (Some #0.05) [r1; r2] r1 r2).
  - repeat constructor; apply NumFacts.Rltb_false; lra.
  - exact Hcalc.
  - left. reflexivity.
  - right. left. reflexivity.
  - rewrite Hw1, Hw2. pose proof scenario_tenureBonus_bounds.
    apply NumFacts.Rleb_true.
    cbn [Weightage.totalWeight scenarioWeightage tenfoldWeightage]. lra.
Defined.

Section Scaling.
Context {A : Type}.

Lemma Rsum_nonneg (g : A -> R) (l : list A) :
  Forall (fun x => 0 < g x)%R l -> (0 <= Rsum (map g l))%R.
Proof. induction 1; simpl; lra. Qed.

End Scaling.

(** ** The sorted copies of [getDistributionStats] *)

Section Sort.
Context {A : Type} (compare : A -> A -> num).

Lemma sort_insert_perm a l : Permutation (sort_insert compare a l) (a :: l).
Proof.
  induction l as [| b l IH]; cbn [sort_insert]; [reflexivity |].
  destruct (#0 <? compare a b); [| reflexivity].
  rewrite IH. apply perm_swap.
Qed.

(** The sorted copy holds the elements of the array, each as often. *)
Lemma sort_perm l : Permutation (sort compare l) l.
Proof.
  induction l as [| a l IH]; cbn [sort fold_right]; [reflexivity |].
  fold (sort compare l). rewrite sort_insert_perm. now constructor.
Qed.

Lemma last_default (l : list A) (b c : A) : l <> [] -> last l b = last l c.
Proof.
  induction l as [| x l IH]; [congruence |]. intros _.
  destruct l as [| y l]; [reflexivity |].
  change (last (y :: l) b = last (y :: l) c). apply IH. discriminate.
Qed.

Lemma last_error_cons (b : A) l : l <> [] -> last_error (b :: l) = last_error l.
Proof.
  destruct l as [| c l]; [congruence |]. intros _.
  cbn [last_error]. f_equal.
  destruct l as [| d l]; [reflexivity |].
  change (last (d :: l) b = last (d :: l) c). apply last_default. discriminate.
Qed.

Lemma sort_insert_nonempty a l : sort_insert compare a l <> [].
Proof.
  destruct l as [| b l]; cbn [sort_insert];
    [| destruct (#0 <? compare a b)]; discriminate.
Qed.

(** The inserted element comes last exactly when it goes after every
    element. *)
Lemma sort_insert_last a l :
  last_error (sort_insert compare a l)
  = if forallb (fun b => #0 <? compare a b) l then Some a else last_error l.
Proof.
  induction l as [| b l IH]; [reflexivity |].
  cbn [sort_insert forallb]. destruct (#0 <? compare a b); cbn [andb].
  - rewrite last_error_cons by apply sort_insert_nonempty. rewrite IH.
    destruct (forallb _ l) eqn:Hall; [reflexivity |].
    symmetry. apply last_error_cons. intros ->. discriminate.
  - apply last_error_cons. discriminate.
Qed.

End Sort.

Section SortByKey.
Context {A : Type} (key : A -> num).

Lemma descending_lt a b :
  Num.finite (key a) -> Num.finite (key b) ->
  (#0 <? descending key a b)
  = Num.Rltb (Num.real_of (key a)) (Num.real_of (key b)).
Proof.
  intros [x Hx] [y Hy]. unfold descending. rewrite Hx, Hy. simpl.
  unfold Num.Rltb.
  destruct (Rlt_dec 0 (y + - x)), (Rlt_dec x y); try reflexivity; lra.
Qed.

(** The first element of the sorted copy is the first element of the array
    with the largest key. *)
Lemma sort_first_max l :
  Forall (fun a => Num.finite (key a)) l -> l <> [] ->
  exists r l1 l2,
    hd_error (sort (descending key) l) = Some r
    /\ l = l1 ++ r :: l2
    /\ Forall (fun a => Num.real_of (key a) < Num.real_of (key r))%R l1
    /\ Forall (fun a => Num.real_of (key a) <= Num.real_of (key r))%R l2.
Proof.
  induction 1 as [| x l Hx Hl IH]; [congruence |]. intros _.
  destruct l as [| y l'].
  - exists x, [], []. repeat split; constructor.
  - destruct IH as [r [l1 [l2 [Hhd [Hsplit [H1 H2]]]]]]; [discriminate |].
    change (sort (descending key) (x :: y :: l'))
      with (sort_insert (descending key) x
                        (sort (descending key) (y :: l'))).
    remember (sort (descending key) (y :: l')) as sorted eqn:Hs.
    destruct sorted as [| m rest]; [discriminate |].
    cbn [hd_error] in Hhd. injection Hhd as ->.
    assert (Hr : Num.finite (key r)).
    { rewrite Forall_forall in Hl. apply Hl. rewrite Hsplit.
      apply in_or_app. right. now left. }
    cbn [sort_insert]. rewrite descending_lt by assumption.
    destruct (Rlt_dec (Num.real_of (key x)) (Num.real_of (key r)))
      as [Hlt | Hge].
    + rewrite (NumFacts.Rltb_true _ _ Hlt).
      exists r, (x :: l1), l2. rewrite Hsplit.
      repeat split; [now constructor | assumption].
    + rewrite (NumFacts.Rltb_false _ _ Hge).
      exists x, [], (y :: l'). split; [reflexivity |]. split; [reflexivity |].
      split; [constructor |]. rewrite Hsplit. apply Forall_app. split.
      * eapply Forall_impl; [| exact H1]. intros a Ha. simpl in Ha. lra.
      * constructor; [lra |].
        eapply Forall_impl; [| exact H2]. intros a Ha. simpl in Ha. lra.
Qed.

(** The last element of the sorted copy is the last element of the array
    with the smallest key. *)
Lemma sort_last_min l :
  Forall (fun a => Num.finite (key a)) l -> l <> [] ->
  exists r l1 l2,
    last_error (sort (descending key) l) = Some r
    /\ l = l1 ++ r :: l2
    /\ Forall (fun a => Num.real_of (key r) <= Num.real_of (key a))%R l1
    /\ Forall (fun a => Num.real_of (key r) < Num.real_of (key a))%R l2.
Proof.
  induction 1 as [| x l Hx Hl IH]; [congruence |]. intros _.
  destruct l as [| y l'].
  - exists x, [], []. repeat split; constructor.
  - destruct IH as [r [l1 [l2 [Hlast [Hsplit [H1 H2]]]]]]; [discriminate |].
    change (sort (descending key) (x :: y :: l'))
      with (sort_insert (descending key) x
                        (sort (descending key) (y :: l'))).
    rewrite sort_insert_last.
    pose proof (sort_perm (descending key) (y :: l')) as Hperm.
    assert (Hfin : forall b, In b (sort (descending key) (y :: l')) ->
                             Num.finite (key b)).
    { intros b Hb. rewrite Forall_forall in Hl. apply Hl.
      eapply Permutation_in; eassumption. }
    destruct (forallb (fun b => #0 <? descending key x b)
                      (sort (descending key) (y :: l'))) eqn:Hall.
    + exists x, [], (y :: l'). split; [reflexivity |]. split; [reflexivity |].
      split; [constructor |].
      rewrite forallb_forall in Hall. apply Forall_forall. intros b Hb.
      assert (Hb' : In b (sort (descending key) (y :: l')))
        by (eapply Permutation_in; [symmetry |]; eassumption).
      specialize (Hall b Hb'). rewrite descending_lt in Hall by auto.
      now apply NumFacts.Rltb_spec in Hall.
    + exists r, (x :: l1), l2. split; [assumption |].
      split; [rewrite Hsplit; reflexivity |]. split; [| assumption].
      constructor; [| assumption].
      assert (Hex : exists b, In b (sort (descending key) (y :: l'))
                              /\ (#0 <? descending key x b) = false).
      { clear -Hall.
        induction (sort (descending key) (y :: l')) as [| c s IHs];
          [discriminate |].
        cbn [forallb] in Hall. destruct (#0 <? descending key x c) eqn:Hc.
        - destruct (IHs Hall) as [b [Hb Hf]]. exists b.
          split; [now right | assumption].
        - exists c. split; [now left | assumption]. }
      destruct Hex as [b [Hb Hf]].
      rewrite descending_lt in Hf by auto.
      assert (Hbx : (Num.real_of (key b) <= Num.real_of (key x))%R).
      { destruct (Rlt_dec (Num.real_of (key x)) (Num.real_of (key b)))
          as [Hc | Hc]; [| lra].
        rewrite (NumFacts.Rltb_true _ _ Hc) in Hf. discriminate. }
      assert (Hb' : In b (y :: l')) by (eapply Permutation_in; eassumption).
      rewrite Hsplit in Hb'. apply in_app_or in Hb'.
      rewrite Forall_forall in H1, H2.
      destruct Hb' as [Hb' | [<- | Hb']].
      * specialize (H1 b Hb'). simpl in H1. lra.
      * lra.
      * specialize (H2 b Hb'). simpl in H2. lra.
Qed.

End SortByKey.

Section Pick.
Context {A : Type} (key : A -> R).

(** In a list of four, the first largest and the last smallest are where the
    comparisons put them. *)
Lemma first_largest_second (a b c d r : A) :
  (key a < key b)%R -> (key c <= key b)%R -> (key d <= key b)%R ->
  first_largest key r [a; b; c; d] -> r = b.
Proof.
  intros Hab Hcb Hdb [l1 [l2 [Hl [H1 H2]]]].
  destruct l1 as [| x1 [| x2 [| x3 [| x4 l1]]]]; simpl in Hl;
    injection Hl; intros; subst;
    repeat match goal with
           | H : Forall _ (_ :: _) |- _ => inversion H; subst; clear H
           end;
    try reflexivity; try (exfalso; lra).
  destruct l1; discriminate.
Qed.

Lemma first_largest_first (a b c d r : A) :
  (key b <= key a)%R -> (key c <= key a)%R -> (key d <= key a)%R ->
  first_largest key r [a; b; c; d] -> r = a.
Proof.
  intros Hba Hca Hda [l1 [l2 [Hl [H1 H2]]]].
  destruct l1 as [| x1 [| x2 [| x3 [| x4 l1]]]]; simpl in Hl;
    injection Hl; intros; subst;
    repeat match goal with
           | H : Forall _ (_ :: _) |- _ => inversion H; subst; clear H
           end;
    try reflexivity; try (exfalso; lra).
  destruct l1; discriminate.
Qed.

Lemma last_smallest_fourth (a b c d r : A) :
  (key d <= key a)%R -> (key d <= key b)%R -> (key d <= key c)%R ->
  last_smallest key r [a; b; c; d] -> r = d.
Proof.
  intros Hda Hdb Hdc [l1 [l2 [Hl [H1 H2]]]].
  destruct l1 as [| x1 [| x2 [| x3 [| x4 l1]]]]; simpl in Hl;
    injection Hl; intros; subst;
    repeat match goal with
           | H : Forall _ (_ :: _) |- _ => inversion H; subst; clear H
           end;
    try reflexivity; try (exfalso; lra).
  destruct l1; discriminate.
Qed.

End Pick.

(** X12.  For a non-empty distribution of finite weights and amounts, the top
    recipients are the first allocations with the largest weight and the
    largest amount, and the bottom recipients the last allocations with the
    smallest. *)
Theorem stats_extremes holders distribution :
  distribution <> [] ->
  Forall finite_allocation distribution ->
  let stats := getDistributionStats holders distribution in
  exists tw bw tr br,
    Stats.topWeight stats = Some tw
    /\ first_largest weight_of tw distribution
    /\ Stats.bottomWeight stats = Some bw
    /\ last_smallest weight_of bw distribution
    /\ Stats.topReward stats = Some tr
    /\ first_largest reward_of tr distribution
    /\ Stats.bottomReward stats = Some br
    /\ last_smallest reward_of br distribution.
Proof.
  intros Hne Hfin. cbn zeta. unfold getDistributionStats.
  cbn [Stats.topWeight Stats.bottomWeight Stats.topReward Stats.bottomReward].
  assert (Hw : Forall (fun d => Num.finite
                                  (Weightage.totalWeight (Allocation.weightage d)))
                      distribution)
    by (eapply Forall_impl; [| exact Hfin]; intros d [H _]; exact H).
  assert (Ha : Forall (fun d => Num.finite (Allocation.amount d)) distribution)
    by (eapply Forall_impl; [| exact Hfin]; intros d [_ H]; exact H).
  destruct (sort_first_max
              (fun d => Weightage.totalWeight (Allocation.weightage d))
              distribution Hw Hne) as [tw [l1 [l2 [Htw Htw']]]].
  destruct (sort_last_min
              (fun d => Weightage.totalWeight (Allocation.weightage d))
              distribution Hw Hne) as [bw [l3 [l4 [Hbw Hbw']]]].
  destruct (sort_first_max Allocation.amount distribution Ha Hne)
    as [tr [l5 [l6 [Htr Htr']]]].
  destruct (sort_last_min Allocation.amount distribution Ha Hne)
    as [br [l7 [l8 [Hbr Hbr']]]].
  exists tw, bw, tr, br.
  split; [exact Htw |]. split; [now exists l1, l2 |].
  split; [exact Hbw |]. split; [now exists l3, l4 |].
  split; [exact Htr |]. split; [now exists l5, l6 |].
  split; [exact Hbr |]. now exists l7, l8.
Qed.

Lemma stats_extremes_witness :
  let a := sampleAllocation "a" 2 4 in
  let b := sampleAllocation "b" 5 1 in
  let c := sampleAllocation "c" 5 4 in
  let d := sampleAllocation "d" 2 1 in
  let stats := getDistributionStats [] [a; b; c; d] in
  Stats.topWeight stats = Some b
  /\ Stats.bottomWeight stats = Some d
  /\ Stats.topReward stats = Some a
  /\ Stats.bottomReward stats = Some d.
Proof.
  cbn zeta.
  destruct (stats_extremes
              [] [ sampleAllocation "a" 2 4; sampleAllocation "b" 5 1;
                   sampleAllocation "c" 5 4; sampleAllocation "d" 2 1 ])
    as [tw [bw [tr [br [Htw [Ftw [Hbw [Fbw [Htr [Ftr [Hbr Fbr]]]]]]]]]]].
  - discriminate.
  - repeat constructor; eexists; reflexivity.
  - rewrite Htw, Hbw, Htr, Hbr.
    apply first_largest_second in Ftw;
      [| unfold weight_of; simpl; lra ..].
    apply last_smallest_fourth in Fbw;
      [| unfold weight_of; simpl; lra ..].
    apply first_largest_first in Ftr;
      [| unfold reward_of; simpl; lra ..].
    apply last_smallest_fourth in Fbr;
      [| unfold reward_of; simpl; lra ..].
    subst. repeat split.
Defined.

(** X14.  The statistics of an empty distribution: zero totals, [NaN] averages
    (the quotient [0 / 0]) and no top or bottom recipient. *)
Theorem stats_of_empty_distribution holders :
  let stats := getDistributionStats holders [] in
  Stats.totalWeightage stats = #0
  /\ Stats.totalDistributed stats = #0
  /\ Stats.averageWeight stats = NaN
  /\ Stats.averageReward stats = NaN
  /\ Stats.topWeight stats = None /\ Stats.topReward stats = None
  /\ Stats.bottomWeight stats = None /\ Stats.bottomReward stats = None.
Proof.
  cbn zeta. unfold getDistributionStats, reduce_sum, length_num.
  cbn [Stats.totalWeightage Stats.totalDistributed Stats.averageWeight
       Stats.averageReward Stats.topWeight Stats.topReward
       Stats.bottomWeight Stats.bottomReward fold_left List.length INR
       sort fold_right hd_error last_error].
  assert (H0 : #0 / #0 = NaN).
  { unfold Num.div. rewrite !NumFacts.Rltb_false by lra. cbn [orb].
    apply NumFacts.signed_inf_zero. }
  rewrite H0. repeat split.
Qed.

Lemma Rsum_In_le {A} (g : A -> R) (l : list A) (x : A) :
  Forall (fun y => 0 < g y)%R l -> In x l -> (g x <= Rsum (map g l))%R.
Proof.
  induction 1 as [| y l Hy Hl IH]; intros Hx; [contradiction |].
  pose proof (Rsum_nonneg g l Hl) as Hnn.
  destruct Hx as [-> | Hx]; simpl; [lra |].
  specialize (IH Hx). lra.
Qed.

(** X10.  Every allocation paid to admissible holders has a finite positive weight
    and a share in (0, 1]; when the amount available is finite, its amount is
    finite, at least the dust threshold and at most the amount available. *)
Theorem paid_allocations_bounded
    holders totalTreasury feeReserve (avail : R) results r :
  Forall admissible holders ->
  totalTreasury - totalTreasury * default_arg #0.05 feeReserve = #avail ->
  calculateDistribution holders totalTreasury feeReserve = Normal results ->
  In r results ->
  exists w s a : R,
    Weightage.totalWeight (Allocation.weightage r) = #w
    /\ Allocation.share r = #s
    /\ Allocation.amount r = #a
    /\ (0 < w)%R /\ (0 < s <= 1)%R /\ (0.000001 <= a <= avail)%R
    /\ a = (avail * s)%R.
Proof.
  intros Hadm Havail Hcalc Hr.
  rewrite calculateDistribution_eligible in Hcalc.
  apply Normal_inj in Hcalc. subst results.
  set (fee := default_arg #0.05 feeReserve) in *.
  destruct (admissible_run holders totalTreasury fee Hadm)
    as [[W [HW [HWpos Hpos]]] | Hnone];
    [| rewrite Hnone in Hr; contradiction].
  apply filter_In in Hr. destruct Hr as [Hr Hk].
  change ((Allocation.amount r >=? dust) = true) in Hk.
  destruct (distributionResults_In _ _ _ _ Hr) as [e [He [Hw [Hs Ha]]]].
  assert (HWsum : W = Rsum (map (fun e : Weighted =>
                                   Num.real_of (Weightage.totalWeight (snd e)))
                                (eligibleHolders holders))).
  { rewrite reduce_sum_Fin in HW.
    - injection HW as HW. symmetry. exact HW.
    - eapply Forall_impl; [| exact Hpos]. intros x [w [Hx _]]. now exists w. }
  assert (Hle : (Num.real_of (Weightage.totalWeight (snd e)) <= W)%R).
  { rewrite HWsum.
    apply (Rsum_In_le (fun e : Weighted =>
                         Num.real_of (Weightage.totalWeight (snd e))));
      [| exact He].
    eapply Forall_impl; [| exact Hpos]. intros x [w [Hx Hp]].
    cbn beta. rewrite Hx. exact Hp. }
  rewrite Forall_forall in Hpos. destruct (Hpos e He) as [w [Hv Hp]].
  rewrite Hv in Hle. cbn [Num.real_of] in Hle.
  rewrite HW, Hv, NumFacts.div_Fin in Hs by lra.
  rewrite Havail, Hs in Ha.
  assert (Hq : (0 < w / W <= 1)%R).
  { split; [now apply Rdiv_lt_0_compat |].
    apply Rmult_le_reg_r with W; [assumption |].
    unfold Rdiv. rewrite Rmult_assoc, Rinv_l by lra. lra. }
  change (#avail * #(w / W)) with (#(avail * (w / W))) in Ha.
  rewrite Ha in Hk. unfold Num.geb, dust in Hk. cbn [Num.leb] in Hk.
  apply NumFacts.Rleb_spec in Hk.
  exists w, (w / W)%R, (avail * (w / W))%R.
  rewrite Hw. repeat (split; [first [assumption | apply Hq] |]).
  split; [| reflexivity]. split; [exact Hk |].
  assert (0 < avail)%R by nra. nra.
Qed.

Lemma paid_allocations_bounded_witness :
  exists w s a : R,
    Weightage.totalWeight (Allocation.weightage (scenarioAllocation "holder"))
    = #w
    /\ Allocation.share (scenarioAllocation "holder") = #s
    /\ Allocation.amount (scenarioAllocation "holder") = #a
    /\ (0 < w)%R /\ (0 < s <= 1)%R /\ (0.000001 <= a <= 9.5)%R
    /\ a = (9.5 * s)%R.
Proof.
  apply (paid_allocations_bounded
           [scenarioHolder "holder" #100000000] #10 (Some #0.05) 9.5
           [scenarioAllocation "holder"] (scenarioAllocation "holder")).
  - repeat constructor; apply NumFacts.Rltb_false; lra.
  - cbn [default_arg]. change (#10 - #10 * #0.05) with (#(10 - 10 * 0.05)).
    f_equal. lra.
  - apply scenario_distribution. apply NumFacts.Rleb_true. lra.
  - left. reflexivity.
Defined.

(** X11.  A holder below its minimum balance, or not at or below its maximum,
    changes nothing for the others: the distribution is what it is without
    that holder. *)
Theorem ineligible_holder_changes_nothing
    before holder after totalTreasury feeReserve :
  (Holder.tokens holder <? Holder.minBalance holder) = true
  \/ (Holder.tokens holder <=? Holder.maxBalance holder) = false ->
  calculateDistribution (before ++ holder :: after) totalTreasury feeReserve
  = calculateDistribution (before ++ after) totalTreasury feeReserve.
Proof.
  intros Hout. rewrite !calculateDistribution_eligible.
  assert (Hel : eligible (holder, weightageOf holder) = false).
  { unfold eligible. cbn [fst snd]. destruct Hout as [Hmin | Hmax].
    - unfold weightageOf. rewrite calculateWeightage_below by assumption.
      reflexivity.
    - rewrite Hmax. apply andb_false_r. }
  assert (HE : eligibleHolders (before ++ holder :: after)
               = eligibleHolders (before ++ after)).
  { unfold eligibleHolders. rewrite !map_app, !filter_app.
    cbn [map filter]. rewrite Hel. reflexivity. }
  rewrite HE. reflexivity.
Qed.

Lemma ineligible_holder_changes_nothing_witness :
  calculateDistribution
    ([scenarioHolder "holder" #100000000]
       ++ {| Holder.address := "small";
             Holder.tokens := #1;
             Holder.hoursAfterLaunch := #0;
             Holder.hoursSinceLaunch := #48;
             Holder.minBalance := #20000;
             Holder.maxBalance := #100000000 |} :: [])
    #10 (Some #0.05)
  = calculateDistribution ([scenarioHolder "holder" #100000000] ++ [])
                          #10 (Some #0.05).
Proof.
  apply (ineligible_holder_changes_nothing
           [scenarioHolder "holder" #100000000]
           {| Holder.address := "small";
              Holder.tokens := #1;
              Holder.hoursAfterLaunch := #0;
              Holder.hoursSinceLaunch := #48;
              Holder.minBalance := #20000;
              Holder.maxBalance := #100000000 |}
           [] #10 (Some #0.05)).
  left. apply NumFacts.Rltb_true. lra.
Defined.

(** * Properties of the demo *)

Section Io.
Context {A B : Type}.

Lemma io_bind_Done (m : io A) (k : A -> io B) answers b rest :
  io_bind m k answers = Done b rest ->
  exists a mid, m answers = Done a mid /\ k a mid = Done b rest.
Proof.
  unfold io_bind. destruct (m answers) as [a mid | |]; try discriminate.
  intros H. now exists a, mid.
Qed.

Lemma io_bind_Crashed (m : io A) (k : A -> io B) answers e :
  io_bind m k answers = Crashed e ->
  m answers = Crashed e
  \/ exists a mid, m answers = Done a mid /\ k a mid = Crashed e.
Proof.
  unfold io_bind. destruct (m answers) as [a mid | |]; try discriminate.
  - intros H. right. now exists a, mid.
  - intros [= ->]. now left.
Qed.

End Io.

Lemma askQuestion_Done answers answer rest :
  Demo.askQuestion answers = Done answer rest -> answers = answer :: rest.
Proof.
  destruct answers; simpl; [discriminate |]. intros H. now inversion H.
Qed.

Lemma askQuestion_not_Crashed answers e : Demo.askQuestion answers <> Crashed e.
Proof. destruct answers; discriminate. Qed.

Section AskFacts.
Variable parseFloat : string -> num.
Variable toLowerCase : string -> string.

Lemma askYesNo_not_Crashed answers e :
  Demo.askYesNo toLowerCase answers <> Crashed e.
Proof.
  induction answers as [| a l IH]; simpl; [discriminate |].
  destruct (_ || _); [discriminate |]. destruct (_ || _); [discriminate |].
  exact IH.
Qed.

Lemma askYesNo_shorter answers b rest :
  Demo.askYesNo toLowerCase answers = Done b rest ->
  (List.length rest < List.length answers)%nat.
Proof.
  induction answers as [| a l IH]; simpl; [discriminate |].
  destruct (_ || _); [intros H; inversion H; subst; lia |].
  destruct (_ || _); [intros H; inversion H; subst; lia |].
  intros H. specialize (IH H). lia.
Qed.

Lemma askNumber_not_Crashed min max answers e :
  Demo.askNumber parseFloat min max answers <> Crashed e.
Proof.
  induction answers as [| a l IH]; simpl; [discriminate |].
  destruct (isNaN _); [exact IH |].
  destruct (match min with Some _ => _ | None => _ end); [exact IH |].
  destruct (match max with Some _ => _ | None => _ end); [exact IH |].
  discriminate.
Qed.

Lemma isNaN_false n : isNaN n = false <-> n <> NaN.
Proof. destruct n; simpl; split; congruence. Qed.

Lemma accepted_dec min max n :
  (if isNaN n then false
   else if match min with Some m => n <? m | None => false end then false
   else if match max with Some m => m <? n | None => false end then false
   else true) = true <-> accepted min max n.
Proof.
  unfold accepted. destruct (isNaN n) eqn:HN.
  - split; [discriminate |]. intros [H _]. apply isNaN_false in H. congruence.
  - apply isNaN_false in HN. split.
    + intros H. split; [exact HN |]. split; intros x ->.
      * destruct (n <? x); [discriminate | reflexivity].
      * destruct (match min with Some _ => _ | None => _ end);
          [discriminate |].
        destruct (x <? n); [discriminate | reflexivity].
    + intros [_ [H1 H2]].
      destruct min as [m |]; [rewrite (H1 m eq_refl) |];
        (destruct max as [M |]; [rewrite (H2 M eq_refl) |]); reflexivity.
Qed.

(** [askNumber] returns the first answer it accepts, and waits when there is
    none. *)
Lemma askNumber_Done min max answers n rest :
  Demo.askNumber parseFloat min max answers = Done n rest <->
  exists skipped answer,
    answers = skipped ++ answer :: rest
    /\ n = parseFloat answer
    /\ accepted min max n
    /\ Forall (fun a => ~ accepted min max (parseFloat a)) skipped.
Proof.
  induction answers as [| a l IH].
  - simpl. split; [discriminate |].
    intros [sk [an [H _]]]. destruct sk; discriminate.
  - pose proof (accepted_dec min max (parseFloat a)) as Hdec.
    cbn [Demo.askNumber]. cbn zeta.
    assert (Hrej : ~ accepted min max (parseFloat a) ->
                   Demo.askNumber parseFloat min max l = Done n rest <->
                   exists skipped answer,
                     a :: l = skipped ++ answer :: rest
                     /\ n = parseFloat answer
                     /\ accepted min max n
                     /\ Forall (fun a => ~ accepted min max (parseFloat a))
                               skipped).
    { intros Hna. rewrite IH. split.
      - intros [sk [an [-> [Hn [Hacc Hsk]]]]]. exists (a :: sk), an.
        split; [reflexivity |]. split; [assumption |].
        split; [assumption |]. now constructor.
      - intros [sk [an [Hl [Hn [Hacc Hsk]]]]].
        destruct sk as [| a' sk]; simpl in Hl; injection Hl as <- Hl.
        + subst n. contradiction.
        + inversion Hsk; subst. now exists sk, an. }
    destruct (isNaN (parseFloat a));
      [apply Hrej; intros Hc; apply Hdec in Hc; discriminate |].
    destruct (match min with Some _ => _ | None => _ end);
      [apply Hrej; intros Hc; apply Hdec in Hc; discriminate |].
    destruct (match max with Some _ => _ | None => _ end);
      [apply Hrej; intros Hc; apply Hdec in Hc; discriminate |].
    clear Hrej. assert (Hacc : accepted min max (parseFloat a))
      by (apply Hdec; reflexivity).
    split.
    + intros H. inversion H; subst. exists [], a.
      split; [reflexivity |]. split; [reflexivity |].
      split; [assumption |]. constructor.
    + intros [sk [an [Hl [Hn [Hacc' Hsk]]]]].
      destruct sk as [| a' sk]; simpl in Hl; injection Hl as <- Hl.
      * subst. reflexivity.
      * inversion Hsk; subst. contradiction.
Qed.

Lemma askNumber_Waiting min max answers :
  Demo.askNumber parseFloat min max answers = Waiting <->
  Forall (fun a => ~ accepted min max (parseFloat a)) answers.
Proof.
  induction answers as [| a l IH].
  - simpl. split; [constructor | reflexivity].
  - pose proof (accepted_dec min max (parseFloat a)) as Hdec.
    cbn [Demo.askNumber]. cbn zeta.
    assert (Hrej : (~ accepted min max (parseFloat a)) ->
                   Demo.askNumber parseFloat min max l = Waiting <->
                   Forall (fun a => ~ accepted min max (parseFloat a)) (a :: l)).
    { intros Hna. rewrite IH. split.
      - intros H. now constructor.
      - intros H. now inversion H. }
    destruct (isNaN (parseFloat a));
      [apply Hrej; intros Hc; apply Hdec in Hc; discriminate |].
    destruct (match min with Some _ => _ | None => _ end);
      [apply Hrej; intros Hc; apply Hdec in Hc; discriminate |].
    destruct (match max with Some _ => _ | None => _ end);
      [apply Hrej; intros Hc; apply Hdec in Hc; discriminate |].
    split; [discriminate |]. intros H. inversion H; subst.
    exfalso. apply H2. apply Hdec. reflexivity.
Qed.

End AskFacts.

Section Accepted.
Variable parseFloat : string -> num.

(** X15.  [askNumber] never crashes.  It returns the first answer that
    [parseFloat] reads as a number that is not [NaN], not below [min] and not
    above [max], leaving the answers after it unread, and it waits for more
    when no answer is one. *)
Theorem askNumber_first_accepted min max answers :
  match Demo.askNumber parseFloat min max answers with
  | Done n rest =>
      exists skipped answer,
        answers = skipped ++ answer :: rest
        /\ n = parseFloat answer
        /\ accepted min max n
        /\ Forall (fun a => ~ accepted min max (parseFloat a)) skipped
  | Waiting => Forall (fun a => ~ accepted min max (parseFloat a)) answers
  | Crashed _ => False
  end.
Proof.
  destruct (Demo.askNumber parseFloat min max answers) as [n rest | | e] eqn:H.
  - now apply askNumber_Done in H.
  - now apply askNumber_Waiting in H.
  - now apply askNumber_not_Crashed in H.
Qed.

Lemma askNumber_accepted min max answers n rest :
  Demo.askNumber parseFloat min max answers = Done n rest ->
  accepted min max n.
Proof.
  intros H. apply askNumber_Done in H.
  destruct H as [sk [an [_ [_ [H _]]]]]. exact H.
Qed.

Lemma askNumber_shorter min max answers n rest :
  Demo.askNumber parseFloat min max answers = Done n rest ->
  (List.length rest < List.length answers)%nat.
Proof.
  intros H. apply askNumber_Done in H.
  destruct H as [sk [an [-> _]]]. rewrite length_app. simpl. lia.
Qed.

Lemma accepted_min m max n :
  accepted (Some m) max n -> m <> NaN -> (n >=? m) = true.
Proof.
  intros [Hn [Hmin _]] Hm. apply NumFacts.ltb_false_geb; auto.
Qed.

Lemma accepted_max min m n :
  accepted min (Some m) n -> m <> NaN -> (n <=? m) = true.
Proof.
  intros [Hn [_ Hmax]] Hm.
  change ((m >=? n) = true). apply NumFacts.ltb_false_geb; auto.
Qed.

End Accepted.

Section YesNo.
Variable toLowerCase : string -> string.

Lemma eqb_either (a x y : string) :
  (String.eqb a x || String.eqb a y) = true <-> In a [x; y].
Proof.
  rewrite orb_true_iff, !String.eqb_eq. simpl. intuition congruence.
Qed.

(** X21.  [askYesNo] never crashes.  It answers by the first reply that is, in
    lower case, one of y, yes, n and no: [true] for the first two and [false]
    for the others; it leaves the replies after it unread and keeps asking
    while no reply is one of the four. *)
Theorem askYesNo_first_reply answers :
  match Demo.askYesNo toLowerCase answers with
  | Done b rest =>
      exists skipped answer,
        answers = skipped ++ answer :: rest
        /\ In (toLowerCase answer)
              (if b then ["y"; "yes"] else ["n"; "no"])%string
        /\ Forall (fun a => ~ In (toLowerCase a) ["y"; "yes"; "n"; "no"]%string)
                  skipped
  | Waiting =>
      Forall (fun a => ~ In (toLowerCase a) ["y"; "yes"; "n"; "no"]%string)
             answers
  | Crashed _ => False
  end.
Proof.
  induction answers as [| a l IH]; cbn [Demo.askYesNo]; [constructor |].
  cbn zeta.
  destruct (String.eqb (toLowerCase a) "y" || String.eqb (toLowerCase a) "yes")
    eqn:Hyes.
  { apply eqb_either in Hyes. exists [], a.
    split; [reflexivity |]. split; [exact Hyes | constructor]. }
  destruct (String.eqb (toLowerCase a) "n" || String.eqb (toLowerCase a) "no")
    eqn:Hno.
  { apply eqb_either in Hno. exists [], a.
    split; [reflexivity |]. split; [exact Hno | constructor]. }
  assert (Hnone : ~ In (toLowerCase a) ["y"; "yes"; "n"; "no"]%string).
  { intros Hin.
    assert (Hsplit : In (toLowerCase a) ["y"; "yes"]%string
                     \/ In (toLowerCase a) ["n"; "no"]%string)
      by (simpl in *; tauto).
    destruct Hsplit as [H | H]; apply eqb_either in H; congruence. }
  destruct (Demo.askYesNo toLowerCase l) as [b rest | | e].
  - destruct IH as [sk [an [-> [Hin Hsk]]]]. exists (a :: sk), an.
    split; [reflexivity |]. split; [assumption | now constructor].
  - now constructor.
  - exact IH.
Qed.

End YesNo.

Ltac io_inv H a mid Ha :=
  apply io_bind_Done in H; destruct H as [a [mid [Ha H]]].

Lemma io_ret_Done {A} (a b : A) answers rest :
  io_ret a answers = Done b rest -> b = a /\ rest = answers.
Proof. unfold io_ret. intros H. inversion H. now split. Qed.

Lemma between_finite n (a b : R) :
  (n >=? #a) = true -> (n <=? #b) = true ->
  exists r : R, n = #r /\ (a <= r <= b)%R.
Proof.
  unfold Num.geb. destruct n as [| | | r]; simpl; try discriminate.
  intros Ha Hb. apply NumFacts.Rleb_spec in Ha, Hb. exists r. now split.
Qed.

Section SettingsFacts.
Variable parseFloat : string -> num.
Variable toLowerCase : string -> string.

Lemma configureSettings_Done s answers s' rest :
  Demo.configureSettings parseFloat toLowerCase s answers = Done s' rest ->
  Session.holders s' = Session.holders s
  /\ (s' = s \/ valid_config (Session.config s'))
  /\ (List.length rest < List.length answers)%nat.
Proof.
  unfold Demo.configureSettings. intros H. io_inv H a mid Ha.
  apply askYesNo_shorter in Ha. destruct a.
  - io_inv H a0 mid0 Ha0. io_inv H a1 mid1 Ha1. io_inv H a2 mid2 Ha2.
    io_inv H a3 mid3 Ha3. io_inv H a4 mid4 Ha4.
    apply io_ret_Done in H. destruct H as [-> ->].
    pose proof (askNumber_shorter _ _ _ _ _ _ Ha0).
    pose proof (askNumber_shorter _ _ _ _ _ _ Ha1).
    pose proof (askNumber_shorter _ _ _ _ _ _ Ha2).
    pose proof (askNumber_shorter _ _ _ _ _ _ Ha3).
    pose proof (askNumber_shorter _ _ _ _ _ _ Ha4).
    apply askNumber_accepted in Ha0, Ha1, Ha2, Ha3, Ha4.
    split; [reflexivity |]. split; [| lia]. right.
    unfold valid_config. cbn [Session.config Config.minBalance
      Config.maxBalance Config.treasuryBalance Config.feeReserve
      Config.hoursSinceLaunch].
    split; [apply (accepted_min _ _ _ Ha0); discriminate |].
    split; [apply (accepted_min _ _ _ Ha1); apply Ha0 |].
    split; [apply (accepted_min _ _ _ Ha2); discriminate |].
    split; [| apply (accepted_min _ _ _ Ha4); discriminate].
    destruct (between_finite a3 0 50) as [r [-> Hr]].
    + apply (accepted_min _ _ _ Ha3). discriminate.
    + apply (accepted_max _ _ _ Ha3). discriminate.
    + exists (r / 100)%R. rewrite NumFacts.div_Fin by lra.
      split; [reflexivity | lra].
  - apply io_ret_Done in H. destruct H as [-> ->].
    split; [reflexivity |]. split; [now left | lia].
Qed.

Lemma configureSettings_not_Crashed s answers e :
  Demo.configureSettings parseFloat toLowerCase s answers <> Crashed e.
Proof.
  unfold Demo.configureSettings. intros H.
  repeat match goal with
         | H : io_bind _ _ _ = Crashed _ |- _ =>
             apply io_bind_Crashed in H; destruct H as [H | [? [? [_ H]]]]
         | H : Demo.askYesNo _ _ = Crashed _ |- _ =>
             now apply askYesNo_not_Crashed in H
         | H : Demo.askNumber _ _ _ _ = Crashed _ |- _ =>
             now apply askNumber_not_Crashed in H
         | H : (if ?b then _ else _) _ = Crashed _ |- _ => destruct b
         | H : io_ret _ _ = Crashed _ |- _ => discriminate H
         end.
Qed.

Lemma clearData_Done s answers s' rest :
  Demo.clearData toLowerCase s answers = Done s' rest ->
  Session.config s' = Session.config s
  /\ (s' = s \/ Session.holders s' = [])
  /\ (List.length rest < List.length answers)%nat.
Proof.
  unfold Demo.clearData. intros H. io_inv H a mid Ha.
  apply askYesNo_shorter in Ha.
  destruct a; apply io_ret_Done in H; destruct H as [-> ->].
  - split; [reflexivity |]. split; [now right | lia].
  - split; [reflexivity |]. split; [now left | lia].
Qed.

Lemma clearData_not_Crashed s answers e :
  Demo.clearData toLowerCase s answers <> Crashed e.
Proof.
  unfold Demo.clearData. intros H.
  apply io_bind_Crashed in H. destruct H as [H | [b [mid [_ H]]]].
  - now apply askYesNo_not_Crashed in H.
  - destruct b; discriminate H.
Qed.

End SettingsFacts.

Lemma await_Done {A} (c : completion A) answers a rest :
  await c answers = Done a rest -> c = Normal a /\ rest = answers.
Proof.
  unfold await. destruct c; [| discriminate].
  intros H. inversion H. now split.
Qed.

Lemma await_Crashed {A} (c : completion A) answers e :
  await c answers = Crashed e -> c = Throw e.
Proof.
  unfold await. destruct c; [discriminate |]. intros H. now inversion H.
Qed.

Lemma mapM_total {A B} (f : A -> completion B) (l : list A) :
  (forall x, exists y, f x = Normal y) -> exists ys, mapM f l = Normal ys.
Proof.
  intros Hf. induction l as [| x l [ys IH]]; [now exists [] |].
  destruct (Hf x) as [y Hy]. exists (y :: ys).
  cbn [mapM]. rewrite Hy, IH. reflexivity.
Qed.

Lemma filterM_total {A} (f : A -> completion bool) (l : list A) :
  (forall x, exists y, f x = Normal y) -> exists ys, filterM f l = Normal ys.
Proof.
  intros Hf. induction l as [| x l [ys IH]]; [now exists [] |].
  destruct (Hf x) as [y Hy]. exists (if y then x :: ys else ys).
  cbn [filterM]. rewrite Hy, IH. reflexivity.
Qed.

Lemma sort_nonempty {A} (compare : A -> A -> num) (l : list A) :
  l <> [] -> sort compare l <> [].
Proof.
  destruct l as [| x l]; [congruence |]. intros _.
  change (sort compare (x :: l))
    with (sort_insert compare x (sort compare l)).
  apply sort_insert_nonempty.
Qed.

Lemma stats_recipients holders distribution :
  distribution <> [] ->
  exists top bottom,
    Stats.topReward (getDistributionStats holders distribution) = Some top
    /\ Stats.bottomReward (getDistributionStats holders distribution)
       = Some bottom.
Proof.
  intros Hne. unfold getDistributionStats.
  cbn [Stats.topReward Stats.bottomReward].
  pose proof (sort_nonempty
                (fun a b => Allocation.amount b - Allocation.amount a)
                distribution Hne) as Hs.
  destruct (sort _ distribution) as [| x l]; [congruence |].
  exists x, (last l x). split; reflexivity.
Qed.

Section HolderFacts.
Variable parseFloat : string -> num.
Variable toLowerCase : string -> string.

Lemma addHolder_Done s answers s' rest :
  Demo.addHolder parseFloat toLowerCase s answers = Done s' rest ->
  Session.config s' = Session.config s
  /\ (List.length rest < List.length answers)%nat
  /\ (s' = s
      \/ exists h,
           Session.holders s' = Session.holders s ++ [h]
           /\ (valid_config (Session.config s) -> valid_holder h)
           /\ ~ In (toLowerCase (DemoHolder.address h))
                   (map (fun h => toLowerCase (DemoHolder.address h))
                        (Session.holders s))).
Proof.
  unfold Demo.addHolder. cbn zeta. intros H. io_inv H address mid Ha.
  apply askQuestion_Done in Ha. subst answers.
  destruct (find _ (Session.holders s)) as [existing |] eqn:Hfind.
  - io_inv H enter mid0 Ha. apply askQuestion_Done in Ha. subst mid.
    apply io_ret_Done in H. destruct H as [-> ->].
    split; [reflexivity |]. split; [simpl; lia | now left].
  - io_inv H tokens mid0 Ha0. io_inv H hours mid1 Ha1.
    io_inv H weightage mid2 Ha2.
    apply await_Done in Ha2. destruct Ha2 as [_ ->].
    apply io_ret_Done in H. destruct H as [-> ->].
    pose proof (askNumber_shorter _ _ _ _ _ _ Ha0).
    pose proof (askNumber_shorter _ _ _ _ _ _ Ha1).
    apply askNumber_accepted in Ha0, Ha1.
    split; [reflexivity |]. split; [simpl; lia |]. right.
    eexists. split; [reflexivity |]. split.
    + intros [Hmin [Hmax [_ [_ Hhours]]]]. unfold valid_holder.
      cbn [DemoHolder.tokens DemoHolder.hoursAfterLaunch
           DemoHolder.hoursSinceLaunch DemoHolder.hoursHeld
           DemoHolder.minBalance DemoHolder.maxBalance].
      split; [apply (accepted_min _ _ _ Ha0); discriminate |].
      split; [apply (accepted_min _ _ _ Ha1); discriminate |].
      split; [| now repeat split].
      apply (accepted_max _ _ _ Ha1).
      unfold Num.geb in Hhours.
      apply NumFacts.leb_not_NaN in Hhours. apply Hhours.
    + cbn [DemoHolder.address]. intros Hin. apply in_map_iff in Hin.
      destruct Hin as [h [Heq Hh]].
      pose proof (find_none _ _ Hfind h Hh) as Hne. cbn beta in Hne.
      apply String.eqb_neq in Hne. contradiction.
Qed.

Lemma addHolder_not_Crashed s answers e :
  Demo.addHolder parseFloat toLowerCase s answers <> Crashed e.
Proof.
  unfold Demo.addHolder. cbn zeta. intros H.
  apply io_bind_Crashed in H. destruct H as [H | [address [mid [_ H]]]];
    [now apply askQuestion_not_Crashed in H |].
  destruct (find _ (Session.holders s)).
  - apply io_bind_Crashed in H. destruct H as [H | [? [? [_ H]]]];
      [now apply askQuestion_not_Crashed in H | discriminate H].
  - apply io_bind_Crashed in H. destruct H as [H | [tokens [mid1 [_ H]]]];
      [now apply askNumber_not_Crashed in H |].
    apply io_bind_Crashed in H. destruct H as [H | [hours [mid2 [_ H]]]];
      [now apply askNumber_not_Crashed in H |].
    apply io_bind_Crashed in H. destruct H as [H | [w [mid3 [_ H]]]];
      [| discriminate H].
    apply await_Crashed in H.
    destruct (calculateWeightage_total
                tokens hours (Config.hoursSinceLaunch (Session.config s))
                (Config.minBalance (Session.config s))) as [w Hw].
    congruence.
Qed.

Lemma viewHolders_Done s answers s' rest :
  Demo.viewHolders s answers = Done s' rest ->
  s' = s /\ (List.length rest < List.length answers)%nat.
Proof.
  unfold Demo.viewHolders. cbn zeta. intros H.
  destruct (Session.holders s).
  - io_inv H enter mid Ha. apply askQuestion_Done in Ha. subst answers.
    apply io_ret_Done in H. destruct H as [-> ->]. simpl. split; [easy | lia].
  - io_inv H ws mid Ha. apply await_Done in Ha. destruct Ha as [_ ->].
    io_inv H enter mid0 Ha. apply askQuestion_Done in Ha. subst answers.
    apply io_ret_Done in H. destruct H as [-> ->]. simpl. split; [easy | lia].
Qed.

Lemma viewHolders_not_Crashed s answers e :
  Demo.viewHolders s answers <> Crashed e.
Proof.
  unfold Demo.viewHolders. cbn zeta. intros H.
  destruct (Session.holders s) as [| h l].
  - apply io_bind_Crashed in H. destruct H as [H | [? [? [_ H]]]];
      [now apply askQuestion_not_Crashed in H | discriminate H].
  - apply io_bind_Crashed in H. destruct H as [H | [? [? [_ H]]]].
    + apply await_Crashed in H.
      destruct (mapM_total
                  (fun holder =>
                     calculateWeightage
                       (DemoHolder.tokens holder)
                       (DemoHolder.hoursAfterLaunch holder)
                       (DemoHolder.hoursSinceLaunch holder)
                       (Config.minBalance (Session.config s)))
                  (h :: l)) as [ys Hys];
        [intros x; apply calculateWeightage_total | congruence].
    + apply io_bind_Crashed in H. destruct H as [H | [? [? [_ H]]]];
        [now apply askQuestion_not_Crashed in H | discriminate H].
Qed.

Lemma runDistributionAndResults_Done s answers s' rest :
  Demo.runDistributionAndResults s answers = Done s' rest ->
  s' = s /\ (List.length rest < List.length answers)%nat.
Proof.
  unfold Demo.runDistributionAndResults. cbn zeta. intros H.
  destruct (Session.holders s).
  - io_inv H enter mid Ha. apply askQuestion_Done in Ha. subst answers.
    apply io_ret_Done in H. destruct H as [-> ->]. simpl. split; [easy | lia].
  - io_inv H qualified mid Ha. apply await_Done in Ha. destruct Ha as [_ ->].
    io_inv H results mid0 Ha. apply await_Done in Ha. destruct Ha as [_ ->].
    destruct results.
    + io_inv H enter mid Ha. apply askQuestion_Done in Ha. subst answers.
      apply io_ret_Done in H. destruct H as [-> ->].
      simpl. split; [easy | lia].
    + destruct (Stats.topReward _); [| discriminate H].
      destruct (Stats.bottomReward _); [| discriminate H].
      io_inv H enter mid Ha. apply askQuestion_Done in Ha. subst answers.
      apply io_ret_Done in H. destruct H as [-> ->].
      simpl. split; [easy | lia].
Qed.

Lemma runDistributionAndResults_not_Crashed s answers e :
  Demo.runDistributionAndResults s answers <> Crashed e.
Proof.
  unfold Demo.runDistributionAndResults. cbn zeta. intros H.
  destruct (Session.holders s) as [| h l] eqn:Hholders.
  - apply io_bind_Crashed in H. destruct H as [H | [? [? [_ H]]]];
      [now apply askQuestion_not_Crashed in H | discriminate H].
  - apply io_bind_Crashed in H. destruct H as [H | [q [mid [_ H]]]].
    { apply await_Crashed in H.
      match type of H with
      | filterM ?f ?l = _ =>
          destruct (filterM_total f l) as [ys Hys]; [| congruence]
      end.
      intros x.
      destruct (calculateWeightage_total
                  (DemoHolder.tokens x) (DemoHolder.hoursAfterLaunch x)
                  (DemoHolder.hoursSinceLaunch x)
                  (Config.minBalance (Session.config s))) as [w Hw].
      rewrite Hw. cbn [bind]. eexists. reflexivity. }
    apply io_bind_Crashed in H. destruct H as [H | [results [mid' [_ H]]]].
    { apply await_Crashed in H. unfold Demo.distribution in H.
      rewrite calculateDistribution_eligible in H. discriminate H. }
    destruct results as [| r results].
    + apply io_bind_Crashed in H. destruct H as [H | [? [? [_ H]]]];
        [now apply askQuestion_not_Crashed in H | discriminate H].
    + destruct (stats_recipients (map DemoHolder.holder (h :: l))
                                 (r :: results)) as [top [bottom [Ht Hb]]];
        [discriminate |].
      rewrite Ht, Hb in H.
      apply io_bind_Crashed in H. destruct H as [H | [? [? [_ H]]]];
        [now apply askQuestion_not_Crashed in H | discriminate H].
Qed.

End HolderFacts.

Section MenuFacts.
Variable parseFloat : string -> num.
Variable toLowerCase : string -> string.

Lemma valid_session_push s h :
  valid_session toLowerCase s ->
  valid_holder h ->
  ~ In (toLowerCase (DemoHolder.address h))
       (map (fun h => toLowerCase (DemoHolder.address h)) (Session.holders s)) ->
  valid_session toLowerCase
                {| Session.config := Session.config s;
                   Session.holders := Session.holders s ++ [h] |}.
Proof.
  intros [Hc [Hh Hnd]] Hv Hfresh. unfold valid_session.
  cbn [Session.config Session.holders].
  split; [assumption |]. split.
  - apply Forall_app. split; [assumption | now constructor].
  - rewrite map_app. apply NoDup_app; [assumption | |].
    + cbn [map]. constructor; [intros [] | constructor].
    + intros a Ha [<- | []]. contradiction.
Qed.

(** No choice of the menu crashes; what it reads it takes from the front of
    the answers, and it keeps a valid session valid. *)
Lemma menu_run choice s run answers :
  Demo.menu parseFloat toLowerCase choice s = Some run ->
  (forall e, run answers <> Crashed e)
  /\ (forall s' rest,
         run answers = Done s' rest ->
         (List.length rest <= List.length answers)%nat
         /\ (valid_session toLowerCase s -> valid_session toLowerCase s')).
Proof.
  unfold Demo.menu. intros Hrun.
  repeat match type of Hrun with
         | (if ?b then _ else _) = _ => destruct b
         end;
    try discriminate Hrun; injection Hrun as <-.
  - split; [intros e; apply configureSettings_not_Crashed |].
    intros s' rest H. apply configureSettings_Done in H.
    destruct H as [Hh [Hc Hlen]]. split; [lia |].
    intros [Hvc [Hvh Hnd]]. destruct Hc as [-> | Hc]; [now split |].
    unfold valid_session. rewrite Hh. now split.
  - split; [intros e; apply addHolder_not_Crashed |].
    intros s' rest H. apply addHolder_Done in H.
    destruct H as [Hc [Hlen [-> | [h [Hh [Hv Hfresh]]]]]];
      (split; [lia |]); [easy |].
    intros Hs. destruct s' as [c' hs']. cbn [Session.config Session.holders] in *.
    subst c' hs'. apply valid_session_push; [assumption | | assumption].
    apply Hv. apply Hs.
  - split; [intros e; apply viewHolders_not_Crashed |].
    intros s' rest H. apply viewHolders_Done in H.
    destruct H as [-> Hlen]. split; [lia | easy].
  - split; [intros e; apply runDistributionAndResults_not_Crashed |].
    intros s' rest H. apply runDistributionAndResults_Done in H.
    destruct H as [-> Hlen]. split; [lia | easy].
  - split; [intros e; apply clearData_not_Crashed |].
    intros s' rest H. apply clearData_Done in H.
    destruct H as [Hc [[-> | Hh] Hlen]]; (split; [lia |]); [easy |].
    intros [Hvc _]. unfold valid_session. rewrite Hc, Hh.
    split; [assumption |]. split; constructor.
  - split; [discriminate |].
    intros s' rest H. apply io_ret_Done in H. destruct H as [-> ->].
    split; [lia | easy].
Qed.

(** More turns than there are answers change nothing. *)
Lemma main_loop_turns n m s answers :
  (List.length answers < n)%nat -> (List.length answers < m)%nat ->
  Demo.main_loop parseFloat toLowerCase n s answers
  = Demo.main_loop parseFloat toLowerCase m s answers.
Proof.
  revert m s answers. induction n as [| n IH]; intros m s answers Hn Hm;
    [lia |].
  destruct m as [| m]; [lia |].
  destruct answers as [| choice rest]; [reflexivity |].
  cbn [Demo.main_loop].
  destruct (Demo.menu parseFloat toLowerCase choice s) as [run |] eqn:Hrun;
    [| reflexivity].
  unfold io_bind. destruct (run rest) as [s' rest' | |] eqn:Hrest;
    try reflexivity.
  destruct (menu_run _ _ _ rest Hrun) as [_ Hdone].
  destruct (Hdone _ _ Hrest) as [Hlen _].
  simpl in Hn, Hm. apply IH; lia.
Qed.

Lemma main_loop_valid n s answers :
  valid_session toLowerCase s ->
  match Demo.main_loop parseFloat toLowerCase n s answers with
  | Done s' rest => valid_session toLowerCase s'
  | Waiting => True
  | Crashed _ => False
  end.
Proof.
  revert s answers. induction n as [| n IH]; intros s answers Hs;
    [exact I |].
  destruct answers as [| choice rest]; [exact I |].
  cbn [Demo.main_loop].
  destruct (Demo.menu parseFloat toLowerCase choice s) as [run |] eqn:Hrun;
    [| exact Hs].
  destruct (menu_run _ _ _ rest Hrun) as [Hcrash Hdone].
  unfold io_bind. destruct (run rest) as [s' rest' | | e] eqn:Hrest.
  - apply IH. now apply (Hdone _ _ eq_refl).
  - exact I.
  - now apply (Hcrash e).
Qed.

Lemma initial_valid :
  valid_session toLowerCase
                {| Session.config := Demo.config;
                   Session.holders := Demo.holders |}.
Proof.
  unfold valid_session, valid_config, Demo.config, Demo.holders.
  cbn [Session.config Session.holders Config.minBalance Config.maxBalance
       Config.treasuryBalance Config.feeReserve Config.hoursSinceLaunch].
  repeat split; try (apply NumFacts.Rleb_true; lra); try constructor.
  exists 0.05%R. split; [reflexivity | lra].
Qed.

End MenuFacts.

Section SessionFacts.
Variable parseFloat : string -> num.
Variable toLowerCase : string -> string.

(** X16.  [configureSettings] never touches the holders and cannot crash; it
    leaves the settings as they are or replaces them by valid ones:
    [minBalance >= 1], [maxBalance >= minBalance],
    [treasuryBalance >= 0.001], a fee reserve between 0 and 0.5 and
    [hoursSinceLaunch >= 1]. *)
Theorem configureSettings_valid s answers :
  match Demo.configureSettings parseFloat toLowerCase s answers with
  | Done s' rest =>
      Session.holders s' = Session.holders s
      /\ (s' = s \/ valid_config (Session.config s'))
  | Waiting => True
  | Crashed _ => False
  end.
Proof.
  destruct (Demo.configureSettings parseFloat toLowerCase s answers)
    as [s' rest | | e] eqn:H.
  - apply configureSettings_Done in H. destruct H as [Hh [Hc _]]. now split.
  - exact I.
  - now apply configureSettings_not_Crashed in H.
Qed.

(** X17.  [addHolder] cannot crash and never changes the settings or the holders
    it has; it adds at most one holder, at the end, whose address differs
    from every address present whatever the case of the letters, and which
    is valid when the settings are. *)
Theorem addHolder_appends_fresh s answers :
  match Demo.addHolder parseFloat toLowerCase s answers with
  | Done s' rest =>
      Session.config s' = Session.config s
      /\ (s' = s
          \/ exists h,
               Session.holders s' = Session.holders s ++ [h]
               /\ (valid_config (Session.config s) -> valid_holder h)
               /\ Forall (fun h' => toLowerCase (DemoHolder.address h')
                                    <> toLowerCase (DemoHolder.address h))
                         (Session.holders s))
  | Waiting => True
  | Crashed _ => False
  end.
Proof.
  destruct (Demo.addHolder parseFloat toLowerCase s answers)
    as [s' rest | | e] eqn:H.
  - apply addHolder_Done in H.
    destruct H as [Hc [_ [-> | [h [Hh [Hv Hfresh]]]]]];
      (split; [assumption |]); [now left |].
    right. exists h. split; [assumption |]. split; [assumption |].
    apply Forall_forall. intros h' Hin Heq. apply Hfresh.
    rewrite <- Heq.
    apply (in_map (fun h => toLowerCase (DemoHolder.address h))). exact Hin.
  - exact I.
  - now apply addHolder_not_Crashed in H.
Qed.

(** X18.  [viewHolders] and [runDistributionAndResults] read one answer and end
    with the settings and the holders unchanged, whatever these are: no
    call of the formulas throws, and a non-empty distribution has its top
    and bottom recipients. *)
Theorem view_and_run_read_one_answer s answers :
  Demo.viewHolders s answers
  = match answers with [] => Waiting | _ :: rest => Done s rest end
  /\ Demo.runDistributionAndResults s answers
     = match answers with [] => Waiting | _ :: rest => Done s rest end.
Proof.
  split.
  - destruct (Demo.viewHolders s answers) as [s' rest | | e] eqn:H.
    + unfold Demo.viewHolders in H. cbn zeta in H.
      destruct (Session.holders s).
      * io_inv H enter mid Ha. apply askQuestion_Done in Ha. subst answers.
        apply io_ret_Done in H. destruct H as [-> ->]. reflexivity.
      * io_inv H ws mid Ha. apply await_Done in Ha. destruct Ha as [_ ->].
        io_inv H enter mid0 Ha. apply askQuestion_Done in Ha. subst answers.
        apply io_ret_Done in H. destruct H as [-> ->]. reflexivity.
    + destruct answers as [| enter rest]; [reflexivity |]. exfalso.
      unfold Demo.viewHolders in H. cbn zeta in H.
      destruct (Session.holders s) as [| h l]; [discriminate H |].
      unfold io_bind, await in H.
      destruct (mapM_total
                  (fun holder =>
                     calculateWeightage
                       (DemoHolder.tokens holder)
                       (DemoHolder.hoursAfterLaunch holder)
                       (DemoHolder.hoursSinceLaunch holder)
                       (Config.minBalance (Session.config s)))
                  (h :: l)) as [ys Hys];
        [intros x; apply calculateWeightage_total |].
      rewrite Hys in H. discriminate H.
    + now apply viewHolders_not_Crashed in H.
  - destruct (Demo.runDistributionAndResults s answers)
      as [s' rest | | e] eqn:H.
    + unfold Demo.runDistributionAndResults in H. cbn zeta in H.
      destruct (Session.holders s).
      * io_inv H enter mid Ha. apply askQuestion_Done in Ha. subst answers.
        apply io_ret_Done in H. destruct H as [-> ->]. reflexivity.
      * io_inv H qualified mid Ha. apply await_Done in Ha.
        destruct Ha as [_ ->].
        io_inv H results mid0 Ha. apply await_Done in Ha.
        destruct Ha as [_ ->].
        destruct results.
        -- io_inv H enter mid Ha. apply askQuestion_Done in Ha. subst answers.
           apply io_ret_Done in H. destruct H as [-> ->]. reflexivity.
        -- destruct (Stats.topReward _); [| discriminate H].
           destruct (Stats.bottomReward _); [| discriminate H].
           io_inv H enter mid Ha. apply askQuestion_Done in Ha. subst answers.
           apply io_ret_Done in H. destruct H as [-> ->]. reflexivity.
    + destruct answers as [| enter rest]; [reflexivity |]. exfalso.
      unfold Demo.runDistributionAndResults in H. cbn zeta in H.
      destruct (Session.holders s) as [| h l]; [discriminate H |].
      unfold io_bind, await in H.
      destruct (filterM _ (h :: l)); [| discriminate H].
      destruct (Demo.distribution _); [| discriminate H].
      destruct a0 as [| r results]; [discriminate H |].
      destruct (Stats.topReward _); [| discriminate H].
      destruct (Stats.bottomReward _); discriminate H.
    + now apply runDistributionAndResults_not_Crashed in H.
Qed.

(** X19.  A session of the demo never crashes, whatever is typed, and when it is
    left by choice 6 the settings are valid, every holder is valid and no
    address occurs twice; as many turns of the menu as there are answers,
    and one more, are all the turns the answers allow. *)
Theorem main_keeps_session_valid answers extra :
  Demo.main_loop parseFloat toLowerCase
                 (S (List.length answers) + extra)
                 {| Session.config := Demo.config;
                    Session.holders := Demo.holders |}
                 answers
  = Demo.main parseFloat toLowerCase answers
  /\ match Demo.main parseFloat toLowerCase answers with
     | Done s rest => valid_session toLowerCase s
     | Waiting => True
     | Crashed _ => False
     end.
Proof.
  split.
  - unfold Demo.main. apply main_loop_turns; lia.
  - unfold Demo.main. apply main_loop_valid. apply initial_valid.
Qed.

End SessionFacts.

Lemma valid_holder_admissible h :
  valid_holder h -> admissible (DemoHolder.holder h).
Proof.
  intros [_ [_ [Hle [_ [Hmin _]]]]]. unfold admissible, DemoHolder.holder.
  cbn [Holder.minBalance Holder.hoursSinceLaunch Holder.hoursAfterLaunch].
  split.
  - unfold Num.geb in Hmin.
    destruct (DemoHolder.minBalance h) as [| | | r]; simpl in *;
      try discriminate; try reflexivity.
    apply NumFacts.Rleb_spec in Hmin. apply NumFacts.Rltb_false. lra.
  - now apply NumFacts.geb_ltb.
Qed.

(** The amount of a paid allocation lies between the dust threshold and the
    amount available. *)
Lemma paid_amount_range holders totalTreasury feeReserve (avail : R) results :
  Forall admissible holders ->
  totalTreasury - totalTreasury * default_arg #0.05 feeReserve = #avail ->
  calculateDistribution holders totalTreasury feeReserve = Normal results ->
  Forall (fun r => exists a : R,
                     Allocation.amount r = #a /\ (0.000001 <= a <= avail)%R)
         results.
Proof.
  intros Hadm Havail Hcalc. apply Forall_forall. intros r Hr.
  rewrite calculateDistribution_eligible in Hcalc.
  apply Normal_inj in Hcalc. subst results.
  set (fee := default_arg #0.05 feeReserve) in *.
  destruct (admissible_run holders totalTreasury fee Hadm)
    as [[W [HW [HWpos Hpos]]] | Hnone];
    [| rewrite Hnone in Hr; contradiction].
  apply filter_In in Hr. destruct Hr as [Hr Hk].
  change ((Allocation.amount r >=? dust) = true) in Hk.
  destruct (distributionResults_In _ _ _ _ Hr) as [e [He [_ [Hs Ha]]]].
  assert (HWsum : W = Rsum (map (fun e : Weighted =>
                                   Num.real_of (Weightage.totalWeight (snd e)))
                                (eligibleHolders holders))).
  { rewrite reduce_sum_Fin in HW.
    - injection HW as HW. symmetry. exact HW.
    - eapply Forall_impl; [| exact Hpos]. intros x [w [Hx _]]. now exists w. }
  assert (Hle : (Num.real_of (Weightage.totalWeight (snd e)) <= W)%R).
  { rewrite HWsum.
    apply (Rsum_In_le (fun e : Weighted =>
                         Num.real_of (Weightage.totalWeight (snd e))));
      [| exact He].
    eapply Forall_impl; [| exact Hpos]. intros x [w [Hx Hp]].
    cbn beta. rewrite Hx. exact Hp. }
  rewrite Forall_forall in Hpos. destruct (Hpos e He) as [w [Hv Hp]].
  rewrite Hv in Hle. cbn [Num.real_of] in Hle.
  rewrite HW, Hv, NumFacts.div_Fin in Hs by lra.
  rewrite Havail, Hs in Ha.
  assert (Hq : (0 < w / W <= 1)%R).
  { split; [now apply Rdiv_lt_0_compat |].
    apply Rmult_le_reg_r with W; [assumption |].
    unfold Rdiv. rewrite Rmult_assoc, Rinv_l by lra. lra. }
  change (#avail * #(w / W)) with (#(avail * (w / W))) in Ha.
  rewrite Ha in Hk. unfold Num.geb, dust in Hk. cbn [Num.leb] in Hk.
  apply NumFacts.Rleb_spec in Hk.
  exists (avail * (w / W))%R. split; [exact Ha |]. split; [exact Hk |].
  assert (0 < avail)%R by nra. nra.
Qed.

(** X20.  The distribution the demo computes in a valid session with a finite
    treasury: the fee reserve is a number between 0 and 0.5, the amount
    available, [treasuryBalance - treasuryBalance * feeReserve], is positive
    and at most the treasury, every allocation is paid at least the dust
    threshold and at most the amount available, and no address is paid
    twice. *)
Theorem demo_distribution_bounded toLowerCase s (T : R) results :
  valid_session toLowerCase s ->
  Config.treasuryBalance (Session.config s) = #T ->
  Demo.distribution s = Normal results ->
  exists fee avail : R,
    Config.feeReserve (Session.config s) = #fee
    /\ (0 <= fee <= 0.5)%R
    /\ #T - #T * #fee = #avail
    /\ (0 < avail <= T)%R
    /\ Forall (fun r => exists a : R,
                          Allocation.amount r = #a
                          /\ (0.000001 <= a <= avail)%R)
              results
    /\ NoDup (map Allocation.address results).
Proof.
  intros [[_ [_ [HT [[fee [Hfee Hfee01]] _]]]] [Hh Hnd]] Htreasury Hcalc.
  unfold Demo.distribution in Hcalc. rewrite Htreasury, Hfee in Hcalc.
  rewrite Htreasury in HT. unfold Num.geb in HT.
  apply NumFacts.leb_Fin in HT.
  assert (Hadm : Forall admissible
                        (map DemoHolder.holder (Session.holders s))).
  { apply Forall_map. eapply Forall_impl; [| exact Hh].
    intros h. apply valid_holder_admissible. }
  assert (Havail : #T - #T * default_arg #0.05 (Some #fee)
                   = #(T - T * fee)) by reflexivity.
  exists fee, (T - T * fee)%R. split; [assumption |]. split; [assumption |].
  split; [reflexivity |]. split; [nra |].
  split; [exact (paid_amount_range _ _ _ _ _ Hadm Havail Hcalc) |].
  destruct (calculateDistribution_kept _ _ _ _ Hcalc)
    as [kept [Hsub [Haddr _]]].
  rewrite Haddr.
  apply (subseq_NoDup _ (map Holder.address
                             (map DemoHolder.holder (Session.holders s))));
    [now apply subseq_map |].
  rewrite map_map. cbn [DemoHolder.holder Holder.address].
  apply (NoDup_map_inv toLowerCase). rewrite map_map. exact Hnd.
Qed.

Lemma demo_distribution_bounded_witness :
  exists r1 r2 fee avail,
    Demo.distribution
      {| Session.config := Demo.config;
         Session.holders :=
           [ DemoHolder.mk "small" #20000 #0 (#48 - #0)
                           #20000 #100000000 #48;
             DemoHolder.mk "large" #200000 #0 (#48 - #0)
                           #20000 #100000000 #48 ] |}
    = Normal [r1; r2]
    /\ #0.05 = #fee
    /\ (0 <= fee <= 0.5)%R
    /\ #10 - #10 * #fee = #avail
    /\ (0 < avail <= 10)%R
    /\ Forall (fun r => exists a : R,
                          Allocation.amount r = #a
                          /\ (0.000001 <= a <= avail)%R)
              [r1; r2]
    /\ NoDup (map Allocation.address [r1; r2]).
Proof.
  destruct two_holder_distribution as [r1 [r2 [Hcalc _]]].
  exists r1, r2.
  assert (Hrun : Demo.distribution
                   {| Session.config := Demo.config;
                      Session.holders :=
                        [ DemoHolder.mk "small" #20000 #0 (#48 - #0)
                                        #20000 #100000000 #48;
                          DemoHolder.mk "large" #200000 #0 (#48 - #0)
                                        #20000 #100000000 #48 ] |}
                 = Normal [r1; r2]) by exact Hcalc.
  destruct (demo_distribution_bounded
              (fun a => a)
              {| Session.config := Demo.config;
                 Session.holders :=
                   [ DemoHolder.mk "small" #20000 #0 (#48 - #0)
                                   #20000 #100000000 #48;
                     DemoHolder.mk "large" #200000 #0 (#48 - #0)
                                   #20000 #100000000 #48 ] |}
              10 [r1; r2]) as [fee [avail H]].
  - split; [apply (initial_valid (fun a => a)) |]. split.
    + repeat constructor; apply NumFacts.Rleb_true; lra.
    + repeat constructor; simpl; intuition discriminate.
  - reflexivity.
  - exact Hrun.
  - exists fee, avail. split; [exact Hrun | exact H].
Defined.
